(** * SeatMap ticketing system: polar layout and interaction engine

    A shallow embedding of the stadium seat map of [src/App.tsx] and of the
    admin panels of [src/components/AdminPanel.tsx] (the file holds both
    [AdminPanel] and [DragDropAdmin]).

    JavaScript numbers are read as exact rationals ([Q]): every comparison,
    sum, product and quotient of the source is kept, rounding error is not
    modelled.  [Math.PI] is the rational number that the IEEE double denotes;
    a decimal literal is the fraction it spells.  An identity of exact
    arithmetic proved here need not hold of the program on doubles; the
    theorems on the collision tests, the hit tests and the listeners rest
    on comparisons of values as they are stored, on the structure of the
    lists and of the state, and on runs at inputs where every step is
    exact or is decided with a margin.

    The transcendental primitives of [Math] ([sqrt], [atan2], [cos], [sin])
    and [Math.random] are parameters of the sections that use them; a
    reference instance at the end of the definitions lets the model run.

    React state is passed explicitly: a handler takes the state it closes
    over and returns the state after the updates it queues.  The listeners
    of the main canvas are given a second time in [MainCanvas], as the
    updates they queue from the state of the render that registered them. *)

From Stdlib Require Import QArith Qround Qminmax Lqa ZArith Lia Bool.
From stdpp Require Import base list strings pretty.

Local Open Scope Q_scope.

(** ** Numbers *)

Definition Qltb (x y : Q) : bool :=
  match x ?= y with Lt => true | _ => false end.

Definition Qgtb (x y : Q) : bool := Qltb y x.

Definition Qleb (x y : Q) : bool := negb (Qltb y x).

Definition Qgeb (x y : Q) : bool := negb (Qltb x y).

(** [Math.PI], the double nearest to the circle constant:
    884279719003555 / 2^48. *)
Definition PI : Q := 884279719003555 # 281474976710656.

(** Degrees to radians, as the sliders do ([v * Math.PI / 180]). *)
Definition deg (d : Q) : Q := d * PI / 180.

(** [Math.round]: the nearest integer, halves towards plus infinity. *)
Definition Math_round (x : Q) : Q := inject_Z (Qfloor (x + (1 # 2))).

(** [Math.floor]. *)
Definition Math_floor (x : Q) : Z := Qfloor x.

Definition Math_max (x y : Q) : Q := if Qltb x y then y else x.

Definition Math_min (x y : Q) : Q := if Qltb y x then y else x.

Definition Math_abs (x : Q) : Q := if Qltb x 0 then - x else x.

(** ** Data model *)

Inductive SeatStatus := available | selected | occupied | premium.

Inductive Shape := rounded | sided.

Record Seat := mkSeat {
  seat_id : string;
  seat_row : Z;
  seatNumber : Z;
  seat_sector : string;
  seat_x : Q;
  seat_y : Q;
  seat_status : SeatStatus;
  seat_price : Q
}.

Record Sector := mkSector {
  id : string;
  name : string;
  startAngle : Q;
  endAngle : Q;
  innerRadius : Q;
  outerRadius : Q;
  color : string;
  basePrice : Q;
  premiumPrice : Q;
  seats : list Seat;
  shape : Shape
}.

Record ViewState := mkView {
  scale : Q;
  offsetX : Q;
  offsetY : Q;
  centerX : Q;
  centerY : Q
}.

Record CartItem := mkItem {
  item_seat : Seat;
  quantity : Z
}.

Record Point := mkPoint { px : Q; py : Q }.

(** The object spread [{...sector, startAngle, endAngle}]. *)
Definition withAngles (s : Sector) (a b : Q) : Sector :=
  mkSector (id s) (name s) a b (innerRadius s) (outerRadius s) (color s)
           (basePrice s) (premiumPrice s) (seats s) (shape s).

(** The object spread [{...sector, seats}]. *)
Definition withSeats (s : Sector) (l : list Seat) : Sector :=
  mkSector (id s) (name s) (startAngle s) (endAngle s) (innerRadius s)
           (outerRadius s) (color s) (basePrice s) (premiumPrice s) l (shape s).

(** ** Angles *)

(** [if (a < 0) a += 2 * Math.PI], the normalisation of the hit tests. *)
Definition wrapOnce (a : Q) : Q := if Qltb a 0 then a + 2 * PI else a.

(** [while (a < 0) a += 2 * Math.PI], the normalisation of the collision
    tests, run for at most [fuel] iterations.  In exact arithmetic
    [wrapSteps a] iterations are enough ([wrapWhile_nonneg]); on doubles
    the sum rounds back to [a] for a value of very large magnitude, a case
    the model leaves out. *)
Fixpoint wrapLoop (fuel : nat) (a : Q) : Q :=
  match fuel with
  | O => a
  | S fuel' => if Qltb a 0 then wrapLoop fuel' (a + 2 * PI) else a
  end.

(** Number of iterations after which the loop has left the negatives. *)
Definition wrapSteps (a : Q) : nat := Z.to_nat (Qceiling (- a / (2 * PI))).

Definition wrapWhile (a : Q) : Q := wrapLoop (wrapSteps a) a.

(** The test inlined in [getSectorAtPosition] and
    [getAdminSectorAtPosition] (App.tsx 123-140, 512-529; AdminPanel.tsx
    866-883): is [angle] inside the range from [start] to [end]? *)
Definition angleInRange (angle start end_ : Q) : bool :=
  let normalizedAngle := wrapOnce angle in
  let startAngle := wrapOnce start in
  let endAngle := wrapOnce end_ in
  if Qgtb startAngle endAngle
  then Qgeb normalizedAngle startAngle || Qleb normalizedAngle endAngle
  else Qgeb normalizedAngle startAngle && Qleb normalizedAngle endAngle.

(** The membership test with the normalisation by repeated addition of the
    collision tests in place of the single addition; the comparison is the
    one of [angleInRange]. *)
Definition angleInRange_repeated (angle start end_ : Q) : bool :=
  let normalizedAngle := wrapWhile angle in
  let startAngle := wrapWhile start in
  let endAngle := wrapWhile end_ in
  if Qgtb startAngle endAngle
  then Qgeb normalizedAngle startAngle || Qleb normalizedAngle endAngle
  else Qgeb normalizedAngle startAngle && Qleb normalizedAngle endAngle.

(** ** Collision tests *)

(** [!(a.outerRadius < b.innerRadius || a.innerRadius > b.outerRadius)]. *)
Definition radiusOverlap (a b : Sector) : bool :=
  negb (Qltb (outerRadius a) (innerRadius b) || Qgtb (innerRadius a) (outerRadius b)).

(** The angular test of one loop iteration: the candidate range
    [newStart, newEnd] against the range of [other]. *)
Definition angleOverlap (newStart newEnd : Q) (other : Sector) : bool :=
  let normalizedStart := wrapWhile newStart in
  let normalizedEnd := wrapWhile newEnd in
  let otherStart := wrapWhile (startAngle other) in
  let otherEnd := wrapWhile (endAngle other) in
  negb (Qltb normalizedEnd otherStart || Qgtb normalizedStart otherEnd).

(** [checkCollision] of DragDropAdmin (AdminPanel.tsx 802-833): the loop
    over [sectors] with its [continue] and its early [return true]. *)
Fixpoint checkCollision (sectors : list Sector) (sector : Sector)
    (newStartAngle newEndAngle : Q) : bool :=
  match sectors with
  | [] => false
  | otherSector :: rest =>
      if String.eqb (id otherSector) (id sector)
      then checkCollision rest sector newStartAngle newEndAngle
      else if radiusOverlap sector otherSector
           then if angleOverlap newStartAngle newEndAngle otherSector
                then true
                else checkCollision rest sector newStartAngle newEndAngle
           else checkCollision rest sector newStartAngle newEndAngle
  end.

(** [checkAdminSectorCollision] of App.tsx (146-180): the candidate is the
    dragged sector's span centred on [newAngle]; the loop that follows is,
    statement for statement, the loop of [checkCollision]. *)
Definition checkAdminSectorCollision (sectors : list Sector)
    (draggedSector : Sector) (newAngle : Q) : bool :=
  let sectorSpan := endAngle draggedSector - startAngle draggedSector in
  let newStartAngle := newAngle - sectorSpan / 2 in
  let newEndAngle := newAngle + sectorSpan / 2 in
  checkCollision sectors draggedSector newStartAngle newEndAngle.

(** The test both loops apply to a pair: sector [a], standing at its own
    angles, against [b]. *)
Definition sectorsCollide (a b : Sector) : bool :=
  radiusOverlap a b && angleOverlap (startAngle a) (endAngle a) b.

(** ** Snapping *)

(** [snapToGrid] of App.tsx (182-186); the grid is 15 degrees. *)
Definition snapToGrid (adminShowGrid : bool) (angle : Q) : Q :=
  if negb adminShowGrid then angle
  else let gridSize := PI / 12 in
       Math_round (angle / gridSize) * gridSize.

Record SnapSettings := mkSnap {
  enableLinearSnap : bool;
  enableRadialSnap : bool;
  linearGridSize : Q;
  radialGridSize : Q;
  snapThreshold : Q
}.

(** The initial [snapSettings] of DragDropAdmin (AdminPanel.tsx 703-709). *)
Definition defaultSnapSettings : SnapSettings :=
  mkSnap true true 20 (PI / 24) 15.

Definition snapToLinearGrid (snapSettings : SnapSettings) (value : Q) : Q :=
  if negb (enableLinearSnap snapSettings) then value
  else Math_round (value / linearGridSize snapSettings) * linearGridSize snapSettings.

Definition snapToRadialGrid (snapSettings : SnapSettings) (angle : Q) : Q :=
  if negb (enableRadialSnap snapSettings) then angle
  else Math_round (angle / radialGridSize snapSettings) * radialGridSize snapSettings.

(** ** View transform and zoom *)

(** [(x - offsetX) / scale], the inverse of the drawing transform. *)
Definition screenToWorld (v : ViewState) (x y : Q) : Point :=
  mkPoint ((x - offsetX v) / scale v) ((y - offsetY v) / scale v).

(** The position of the canvas on the page ([getBoundingClientRect]). *)
Record Canvas := mkCanvas {
  rect_left : Q;
  rect_top : Q;
  rect_width : Q;
  rect_height : Q;
  canvas_width : Q;
  canvas_height : Q
}.

Record WheelEvent := mkWheel { clientX : Q; clientY : Q; deltaY : Q }.

(** [handleWheel] of App.tsx (277-293). *)
Definition handleWheel (canvas : Canvas) (viewState : ViewState) (e : WheelEvent)
  : ViewState :=
  let mouseX := clientX e - rect_left canvas in
  let mouseY := clientY e - rect_top canvas in
  let scaleFactor := if Qgtb (deltaY e) 0 then 95 # 100 else 105 # 100 in
  let newScale := Math_max (1 # 2) (Math_min 20 (scale viewState * scaleFactor)) in
  mkView newScale
         (mouseX - (mouseX - offsetX viewState) * scaleFactor)
         (mouseY - (mouseY - offsetY viewState) * scaleFactor)
         (centerX viewState) (centerY viewState).

(** ** Selection and cart (App.tsx 549-552, 823-824) *)

Record Selection := mkSelection {
  selectedSeats : list Seat;
  cart : list CartItem
}.

Definition emptySelection : Selection := mkSelection [] [].

(** [list.some(s => s.id === seatId)]. *)
Definition someSeat (seatId : string) (l : list Seat) : bool :=
  existsb (fun s => String.eqb (seat_id s) seatId) l.

(** What [removeFromCart] (App.tsx 549-552) leaves of the lists current at
    the update: both setters are given the updater function. *)
Definition removeFromCart (seatId : string) (st : Selection) : Selection :=
  mkSelection
    (List.filter (fun s => negb (String.eqb (seat_id s) seatId)) (selectedSeats st))
    (List.filter (fun item => negb (String.eqb (seat_id (item_seat item)) seatId)) (cart st)).

(** Number of cart items that carry the seat id. *)
Definition cartCount (seatId : string) (c : list CartItem) : nat :=
  length (List.filter (fun item => String.eqb (seat_id (item_seat item)) seatId) c).

(** ** Sector editor of AdminPanel (AdminPanel.tsx 72-99) *)

(** The [updates] a control hands to [updateSector]. *)
Inductive SectorUpdate :=
| SetInnerRadius (v : Z)
| SetOuterRadius (v : Z)
| SetStartAngle (v : Z)
| SetEndAngle (v : Z)
| SetShape (sh : Shape)
| SetColor (c : string)
| SetBasePrice (v : Z)
| SetPremiumPrice (v : Z)
| SetName (n : string).

(** [{ ...sector, ...updates }]; the angle sliders give degrees. *)
Definition applyUpdate (s : Sector) (u : SectorUpdate) : Sector :=
  match u with
  | SetInnerRadius v =>
      mkSector (id s) (name s) (startAngle s) (endAngle s) (inject_Z v) (outerRadius s)
               (color s) (basePrice s) (premiumPrice s) (seats s) (shape s)
  | SetOuterRadius v =>
      mkSector (id s) (name s) (startAngle s) (endAngle s) (innerRadius s) (inject_Z v)
               (color s) (basePrice s) (premiumPrice s) (seats s) (shape s)
  | SetStartAngle v => withAngles s (inject_Z v * PI / 180) (endAngle s)
  | SetEndAngle v => withAngles s (startAngle s) (inject_Z v * PI / 180)
  | SetShape sh =>
      mkSector (id s) (name s) (startAngle s) (endAngle s) (innerRadius s) (outerRadius s)
               (color s) (basePrice s) (premiumPrice s) (seats s) sh
  | SetColor c =>
      mkSector (id s) (name s) (startAngle s) (endAngle s) (innerRadius s) (outerRadius s)
               c (basePrice s) (premiumPrice s) (seats s) (shape s)
  | SetBasePrice v =>
      mkSector (id s) (name s) (startAngle s) (endAngle s) (innerRadius s) (outerRadius s)
               (color s) (inject_Z v) (premiumPrice s) (seats s) (shape s)
  | SetPremiumPrice v =>
      mkSector (id s) (name s) (startAngle s) (endAngle s) (innerRadius s) (outerRadius s)
               (color s) (basePrice s) (inject_Z v) (seats s) (shape s)
  | SetName n =>
      mkSector (id s) n (startAngle s) (endAngle s) (innerRadius s) (outerRadius s)
               (color s) (basePrice s) (premiumPrice s) (seats s) (shape s)
  end.

(** The list [updateSector] hands to [onSectorsUpdate]. *)
Definition updateSector (sectors : list Sector) (sectorId : string)
    (updates : SectorUpdate) : list Sector :=
  map (fun sector => if String.eqb (id sector) sectorId
                     then applyUpdate sector updates else sector) sectors.

Definition deleteSector (sectors : list Sector) (sectorId : string) : list Sector :=
  List.filter (fun sector => negb (String.eqb (id sector) sectorId)) sectors.

Definition predefinedColors : list string :=
  [ "#ff6b6b"; "#4ecdc4"; "#45b7d1"; "#96ceb4"; "#feca57";
    "#ff9ff3"; "#54a0ff"; "#5f27cd"; "#00d2d3"; "#ff9f43";
    "#c44569"; "#f8b500"; "#6c5ce7"; "#a29bfe"; "#fd79a8";
    "#e17055"; "#00b894"; "#0984e3"; "#6c5ce7"; "#fdcb6e" ]%string.

(** The sector [addNewSector] builds; [now] is [Date.now()]. *)
Definition newSector (sectors : list Sector) (now : Z) : Sector :=
  mkSector ("sector-" +:+ pretty now) "New Sector" 0 (PI / 4) 150 250
           (nth (length sectors mod length predefinedColors) predefinedColors ""%string)
           100 200 [] rounded.

(** The list [addNewSector] hands to [onSectorsUpdate]. *)
Definition addNewSector (sectors : list Sector) (now : Z) : list Sector :=
  sectors ++ [newSector sectors now].

(** ** The engine over the [Math] primitives *)

Section Engine.

Variable sqrt : Q -> Q.
Variable atan2 : Q -> Q -> Q.
Variables cos sin : Q -> Q.
(** [random n] is the value of the [n]-th call of [Math.random]. *)
Variable random : nat -> Q.

(** *** Hit tests of App.tsx *)

(** The loop of [getSectorAtPosition] and [getAdminSectorAtPosition]. *)
Fixpoint sectorLoop (sectors : list Sector) (distance angle : Q) : option Sector :=
  match sectors with
  | [] => None
  | sector :: rest =>
      if Qgeb distance (innerRadius sector) && Qleb distance (outerRadius sector)
      then if angleInRange angle (startAngle sector) (endAngle sector)
           then Some sector
           else sectorLoop rest distance angle
      else sectorLoop rest distance angle
  end.

(** [getSectorAtPosition] of App.tsx (498-533). *)
Definition getSectorAtPosition (viewState : ViewState) (sectors : list Sector)
    (x y : Q) : option Sector :=
  if Qgtb (scale viewState) 3 then None
  else
    let worldX := (x - offsetX viewState) / scale viewState in
    let worldY := (y - offsetY viewState) / scale viewState in
    let dx := worldX - centerX viewState in
    let dy := worldY - centerY viewState in
    let distance := sqrt (dx * dx + dy * dy) in
    let angle := atan2 dy dx in
    sectorLoop sectors distance angle.

(** [getAdminSectorAtPosition] of App.tsx (110-144). *)
Definition getAdminSectorAtPosition (adminDragMode : bool) (viewState : ViewState)
    (sectors : list Sector) (x y : Q) : option Sector :=
  if negb adminDragMode then None
  else
    let worldX := (x - offsetX viewState) / scale viewState in
    let worldY := (y - offsetY viewState) / scale viewState in
    let dx := worldX - centerX viewState in
    let dy := worldY - centerY viewState in
    let distance := sqrt (dx * dx + dy * dy) in
    let angle := atan2 dy dx in
    sectorLoop sectors distance angle.

(** The inner loop of [getSeatAtPosition]: the seats of one sector. *)
Fixpoint seatLoop (viewState : ViewState) (l : list Seat)
    (transformedX transformedY : Q) : option Seat :=
  match l with
  | [] => None
  | seat :: rest =>
      let distance :=
        sqrt ((transformedX - seat_x seat) ^ 2 + (transformedY - seat_y seat) ^ 2) in
      if Qltb distance (4 * Math_max 1 (scale viewState / 5))
      then Some seat
      else seatLoop viewState rest transformedX transformedY
  end.

Fixpoint seatSectorLoop (viewState : ViewState) (sectors : list Sector)
    (transformedX transformedY : Q) : option Seat :=
  match sectors with
  | [] => None
  | sector :: rest =>
      match seatLoop viewState (seats sector) transformedX transformedY with
      | Some seat => Some seat
      | None => seatSectorLoop viewState rest transformedX transformedY
      end
  end.

(** [getSeatAtPosition] of App.tsx (481-496). *)
Definition getSeatAtPosition (viewState : ViewState) (sectors : list Sector)
    (x y : Q) : option Seat :=
  let transformedX := (x - offsetX viewState) / scale viewState in
  let transformedY := (y - offsetY viewState) / scale viewState in
  seatSectorLoop viewState sectors transformedX transformedY.

(** *** Admin drag on the main canvas (App.tsx 188-270) *)

Record AdminState := mkAdmin {
  sectors : list Sector;
  adminDraggedSector : option string;
  adminDragOffset : Point;
  adminDragPreview : option Point;
  cursorStyle : string;
  adminDragHistory : list (list Sector);
  adminHistoryIndex : Z
}.

(** [array.slice(0, end)]: a negative [end] counts from the end. *)
Definition slice0 {A} (l : list A) (end_ : Z) : list A :=
  if (end_ <? 0)%Z
  then take (Z.to_nat (Z.of_nat (length l) + end_)) l
  else take (Z.to_nat end_) l.

(** [array[i]] for an integer [i]: [undefined] out of range. *)
Definition at_ {A} (l : list A) (i : Z) : option A :=
  if (i <? 0)%Z then None else l !! Z.to_nat i.

(** [saveToAdminHistory] of App.tsx (94-99); the JSON round trip is a deep
    copy. *)
Definition saveToAdminHistory (st : AdminState) (newSectors : list Sector)
  : AdminState :=
  let newHistory := slice0 (adminDragHistory st) (adminHistoryIndex st + 1) in
  let newHistory := newHistory ++ [newSectors] in
  mkAdmin (sectors st) (adminDraggedSector st) (adminDragOffset st)
          (adminDragPreview st) (cursorStyle st)
          newHistory (Z.of_nat (length newHistory) - 1).

(** Truthiness of a [string | null] state: [null] and the empty string are
    falsy. *)
Definition truthy (o : option string) : option string :=
  match o with
  | Some s => if String.eqb s "" then None else Some s
  | None => None
  end.

(** [sectors.find(s => s.id === sectorId)]. *)
Definition findSector (sectors : list Sector) (sectorId : string) : option Sector :=
  List.find (fun s => String.eqb (id s) sectorId) sectors.

Definition handleAdminDragStart (viewState : ViewState) (st : AdminState)
    (sector : Sector) (mouseX mouseY : Q) : AdminState :=
  let worldX := (mouseX - offsetX viewState) / scale viewState in
  let worldY := (mouseY - offsetY viewState) / scale viewState in
  let sectorMidAngle := (startAngle sector + endAngle sector) / 2 in
  let sectorMidRadius := (innerRadius sector + outerRadius sector) / 2 in
  let sectorCenterX := centerX viewState + sectorMidRadius * cos sectorMidAngle in
  let sectorCenterY := centerY viewState + sectorMidRadius * sin sectorMidAngle in
  mkAdmin (sectors st) (Some (id sector))
          (mkPoint (worldX - sectorCenterX) (worldY - sectorCenterY))
          (adminDragPreview st) (cursorStyle st)
          (adminDragHistory st) (adminHistoryIndex st).

Definition handleAdminDragMove (viewState : ViewState) (adminShowGrid : bool)
    (st : AdminState) (mouseX mouseY : Q) : AdminState :=
  match truthy (adminDraggedSector st) with
  | None => st
  | Some dragged =>
      let worldX := (mouseX - offsetX viewState) / scale viewState in
      let worldY := (mouseY - offsetY viewState) / scale viewState in
      let adjustedX := worldX - px (adminDragOffset st) in
      let adjustedY := worldY - py (adminDragOffset st) in
      let dx := adjustedX - centerX viewState in
      let dy := adjustedY - centerY viewState in
      let angle := atan2 dy dx in
      let snappedAngle := snapToGrid adminShowGrid angle in
      let cursor :=
        match findSector (sectors st) dragged with
        | Some draggedSector =>
            if checkAdminSectorCollision (sectors st) draggedSector snappedAngle
            then "not-allowed"%string else "grabbing"%string
        | None => cursorStyle st
        end in
      mkAdmin (sectors st) (adminDraggedSector st) (adminDragOffset st)
              (Some (mkPoint adjustedX adjustedY)) cursor
              (adminDragHistory st) (adminHistoryIndex st)
  end.

(** The reset of the drag at the end of [handleAdminDragEnd]. *)
Definition endAdminDrag (st : AdminState) : AdminState :=
  mkAdmin (sectors st) None (adminDragOffset st) None "default"%string
          (adminDragHistory st) (adminHistoryIndex st).

(** The angle at which [handleAdminDragEnd] places the dragged sector. *)
Definition dropAngle (viewState : ViewState) (adminShowGrid : bool)
    (preview : Point) : Q :=
  let dx := px preview - centerX viewState in
  let dy := py preview - centerY viewState in
  snapToGrid adminShowGrid (atan2 dy dx).

Definition handleAdminDragEnd (viewState : ViewState) (adminShowGrid : bool)
    (st : AdminState) : AdminState :=
  match truthy (adminDraggedSector st), adminDragPreview st with
  | Some dragged, Some preview =>
      match findSector (sectors st) dragged with
      | None => st
      | Some draggedSector =>
          let snappedAngle := dropAngle viewState adminShowGrid preview in
          let hasCollision :=
            checkAdminSectorCollision (sectors st) draggedSector snappedAngle in
          if negb hasCollision
          then
            let sectorSpan := endAngle draggedSector - startAngle draggedSector in
            let newStartAngle := snappedAngle - sectorSpan / 2 in
            let newEndAngle := snappedAngle + sectorSpan / 2 in
            let updatedSectors :=
              map (fun sector => if String.eqb (id sector) dragged
                                 then withAngles sector newStartAngle newEndAngle
                                 else sector) (sectors st) in
            let st1 := saveToAdminHistory st (sectors st) in
            endAdminDrag
              (mkAdmin updatedSectors (adminDraggedSector st1) (adminDragOffset st1)
                       (adminDragPreview st1) (cursorStyle st1)
                       (adminDragHistory st1) (adminHistoryIndex st1))
          else endAdminDrag st
      end
  | _, _ => endAdminDrag st
  end.

(** The Escape key while a sector is dragged (App.tsx 396-402). *)
Definition handleKeyDownEscape (st : AdminState) : AdminState :=
  match truthy (adminDraggedSector st) with
  | Some _ => endAdminDrag st
  | None => st
  end.

(** *** Seat generation and [handleSectorsUpdate] (App.tsx 826-867) *)

(** The seats of one row, from index [seat] on; [draws] counts the calls of
    [Math.random] made so far. *)
Fixpoint seatFor (viewState : ViewState) (sector : Sector) (row : Z) (radius : Q)
    (seatsInRow : Z) (count : nat) (seat : Z) (draws : nat) : list Seat * nat :=
  match count with
  | O => ([], draws)
  | S count' =>
      let angleSpan := endAngle sector - startAngle sector in
      let angle := startAngle sector + (inject_Z seat / inject_Z seatsInRow) * angleSpan in
      let x := centerX viewState + radius * cos angle in
      let y := centerY viewState + radius * sin angle in
      let isPremium := Qgtb (random draws) (85 # 100) in
      let isOccupied := Qgtb (random (S draws)) (75 # 100) in
      let seatObj :=
        mkSeat (id sector +:+ "-" +:+ pretty row +:+ "-" +:+ pretty seat)
               (row + 1) (seat + 1) (name sector) x y
               (if isOccupied then occupied else if isPremium then premium else available)
               (if isPremium then premiumPrice sector else basePrice sector) in
      let '(rest, draws') :=
        seatFor viewState sector row radius seatsInRow count' (seat + 1) (S (S draws)) in
      (seatObj :: rest, draws')
  end.

(** The rows of one sector, from index [row] on. *)
Fixpoint rowFor (viewState : ViewState) (sector : Sector) (count : nat) (row : Z)
    (draws : nat) : list Seat * nat :=
  match count with
  | O => ([], draws)
  | S count' =>
      let angleSpan := endAngle sector - startAngle sector in
      let radius := innerRadius sector + inject_Z row * 12 + 6 in
      let seatsInRow := Math_floor (radius * angleSpan / 8) in
      let '(here, draws1) :=
        seatFor viewState sector row radius seatsInRow (Z.to_nat seatsInRow) 0 draws in
      let '(rest, draws2) := rowFor viewState sector count' (row + 1) draws1 in
      (here ++ rest, draws2)
  end.

Definition generateSeats (viewState : ViewState) (sector : Sector) (draws : nat)
  : list Seat * nat :=
  let rows := Math_floor ((outerRadius sector - innerRadius sector) / 12) in
  rowFor viewState sector (Z.to_nat rows) 0 draws.

(** [handleSectorsUpdate]: every sector of the list gets freshly generated
    seats; the result is the new live collection. *)
Fixpoint handleSectorsUpdate (viewState : ViewState) (updatedSectors : list Sector)
    (draws : nat) : list Sector * nat :=
  match updatedSectors with
  | [] => ([], draws)
  | sector :: rest =>
      let '(l, draws1) := generateSeats viewState sector draws in
      let '(rest', draws2) := handleSectorsUpdate viewState rest draws1 in
      (withSeats sector l :: rest', draws2)
  end.

End Engine.

(** ** DragDropAdmin (AdminPanel.tsx 592-1452) *)

Module DragDropAdmin.

Inductive DragMode := free | linear | radial.

(** A preview: [{ startAngle, endAngle }]. *)
Record Position := mkPosition { pos_startAngle : Q; pos_endAngle : Q }.

Record DragState := mkDrag {
  isDragging : bool;
  draggedSector : option Sector;
  dragOffset : Point;
  dragMode : DragMode;
  previewPosition : option Position;
  isValidPosition : bool;
  dragStartPosition : Point;
  currentPosition : Point
}.

Record HistoryState := mkHistory {
  hs_sectors : list Sector;
  timestamp : Z
}.

(** The component together with the application state it acts on through
    its props: [live] is the [sectors] prop, [draws] the number of calls of
    [Math.random] made so far by [onSectorsUpdate]. *)
Record Panel := mkPanel {
  live : list Sector;
  draws : nat;
  dragState : DragState;
  history : list HistoryState;
  historyIndex : Z
}.

Definition idleDrag : DragState :=
  mkDrag false None (mkPoint 0 0) free None true (mkPoint 0 0) (mkPoint 0 0).

Section Handlers.

Variable sqrt : Q -> Q.
Variable atan2 : Q -> Q -> Q.
Variables cos sin : Q -> Q.
Variable random : nat -> Q.
Variable viewState : ViewState.
Variable snapSettings : SnapSettings.
(** The canvas of the panel; [None] while the ref is not attached. *)
Variable canvas : option Canvas.

(** The [onSectorsUpdate] prop: [handleSectorsUpdate] of App.tsx. *)
Definition onSectorsUpdate (p : Panel) (updated : list Sector) : Panel :=
  let '(l, d) := handleSectorsUpdate cos sin random viewState updated (draws p) in
  mkPanel l d (dragState p) (history p) (historyIndex p).

(** The effect that seeds the history (AdminPanel.tsx 712-721). *)
Definition initHistory (now : Z) (p : Panel) : Panel :=
  if (length (history p) =? 0)%nat && (0 <? length (live p))%nat
  then mkPanel (live p) (draws p) (dragState p) [mkHistory (live p) now] 0
  else p.

(** [saveToHistory] (AdminPanel.tsx 724-740). *)
Definition saveToHistory (now : Z) (p : Panel) (newSectors : list Sector) : Panel :=
  let newState := mkHistory newSectors now in
  let newHistory := slice0 (history p) (historyIndex p + 1) ++ [newState] in
  if (50 <? length newHistory)%nat
  then mkPanel (live p) (draws p) (dragState p) (drop 1 newHistory) (historyIndex p)
  else mkPanel (live p) (draws p) (dragState p) newHistory (historyIndex p + 1).

(** [handleUndo]; [None] is the [TypeError] of reading [.sectors] of an
    entry that does not exist. *)
Definition handleUndo (p : Panel) : option Panel :=
  if (0 <? historyIndex p)%Z
  then match at_ (history p) (historyIndex p - 1) with
       | Some previousState =>
           let p1 := onSectorsUpdate p (hs_sectors previousState) in
           Some (mkPanel (live p1) (draws p1) (dragState p1) (history p1)
                         (historyIndex p - 1))
       | None => None
       end
  else Some p.

(** [handleRedo]. *)
Definition handleRedo (p : Panel) : option Panel :=
  if (historyIndex p <? Z.of_nat (length (history p)) - 1)%Z
  then match at_ (history p) (historyIndex p + 1) with
       | Some nextState =>
           let p1 := onSectorsUpdate p (hs_sectors nextState) in
           Some (mkPanel (live p1) (draws p1) (dragState p1) (history p1)
                         (historyIndex p + 1))
       | None => None
       end
  else Some p.

(** [determineDragMode] (AdminPanel.tsx 772-799). *)
Definition determineDragMode (startPos currentPos : Point) : DragMode :=
  let dx := px currentPos - px startPos in
  let dy := py currentPos - py startPos in
  let distance := sqrt (dx * dx + dy * dy) in
  if Qltb distance 10 then free
  else
    let angle := Math_abs (atan2 dy dx) in
    let isHorizontal := Qltb angle (PI / 8) || Qgtb angle (7 * PI / 8) in
    let isVertical := Qgtb angle (3 * PI / 8) && Qltb angle (5 * PI / 8) in
    if isHorizontal || isVertical then linear
    else
      let centerDx := px startPos - centerX viewState in
      let centerDy := py startPos - centerY viewState in
      let startRadius := sqrt (centerDx * centerDx + centerDy * centerDy) in
      let currentCenterDx := px currentPos - centerX viewState in
      let currentCenterDy := py currentPos - centerY viewState in
      let currentRadius :=
        sqrt (currentCenterDx * currentCenterDx + currentCenterDy * currentCenterDy) in
      let radiusDiff := Math_abs (currentRadius - startRadius) in
      if Qltb radiusDiff 30 then radial else free.

(** [mouseToWorld] (AdminPanel.tsx 836-847). *)
Definition mouseToWorld (mouseX mouseY : Q) : Point :=
  match canvas with
  | None => mkPoint 0 0
  | Some c =>
      let canvasX := (mouseX - rect_left c) * (canvas_width c / rect_width c) in
      let canvasY := (mouseY - rect_top c) * (canvas_height c / rect_height c) in
      mkPoint ((canvasX - offsetX viewState) / scale viewState)
              ((canvasY - offsetY viewState) / scale viewState)
  end.

Definition worldToAngle (worldX worldY : Q) : Q :=
  let dx := worldX - centerX viewState in
  let dy := worldY - centerY viewState in
  atan2 dy dx.

(** [getSectorAtPosition] of the panel (AdminPanel.tsx 857-887): the loop
    is that of App.tsx, without the zoom gate. *)
Definition getSectorAtPosition (sectors : list Sector) (mouseX mouseY : Q)
  : option Sector :=
  let world := mouseToWorld mouseX mouseY in
  let dx := px world - centerX viewState in
  let dy := py world - centerY viewState in
  let distance := sqrt (dx * dx + dy * dy) in
  let angle := atan2 dy dx in
  sectorLoop sectors distance angle.

(** [calculateNewPosition] (AdminPanel.tsx 890-925). *)
Definition calculateNewPosition (sector : Sector) (currentPos : Point)
    (mode : DragMode) : Position :=
  let sectorSpan := endAngle sector - startAngle sector in
  match mode with
  | radial =>
      let angle := worldToAngle (px currentPos) (py currentPos) in
      let snappedAngle := snapToRadialGrid snapSettings angle in
      mkPosition (snappedAngle - sectorSpan / 2) (snappedAngle + sectorSpan / 2)
  | linear =>
      let snappedX := snapToLinearGrid snapSettings (px currentPos) in
      let snappedY := snapToLinearGrid snapSettings (py currentPos) in
      let angle := worldToAngle snappedX snappedY in
      mkPosition (angle - sectorSpan / 2) (angle + sectorSpan / 2)
  | free =>
      let angle := worldToAngle (px currentPos) (py currentPos) in
      mkPosition (angle - sectorSpan / 2) (angle + sectorSpan / 2)
  end.

Definition withDragState (p : Panel) (d : DragState) : Panel :=
  mkPanel (live p) (draws p) d (history p) (historyIndex p).

(** [handleMouseDown] (AdminPanel.tsx 928-948). *)
Definition handleMouseDown (p : Panel) (eX eY : Q) : Panel :=
  match getSectorAtPosition (live p) eX eY with
  | Some sector =>
      let world := mouseToWorld eX eY in
      let sectorMidAngle := (startAngle sector + endAngle sector) / 2 in
      let sectorMidRadius := (innerRadius sector + outerRadius sector) / 2 in
      let sectorCenterX := centerX viewState + sectorMidRadius * cos sectorMidAngle in
      let sectorCenterY := centerY viewState + sectorMidRadius * sin sectorMidAngle in
      withDragState p
        (mkDrag true (Some sector)
                (mkPoint (px world - sectorCenterX) (py world - sectorCenterY))
                free None true world world)
  | None => p
  end.

(** [handleMouseMove] (AdminPanel.tsx 950-979). *)
Definition handleMouseMove (p : Panel) (eX eY : Q) : Panel :=
  let ds := dragState p in
  match isDragging ds, draggedSector ds with
  | true, Some dragged =>
      let world := mouseToWorld eX eY in
      let adjustedPos :=
        mkPoint (px world - px (dragOffset ds)) (py world - py (dragOffset ds)) in
      let mode := determineDragMode (dragStartPosition ds) world in
      let newPosition := calculateNewPosition dragged adjustedPos mode in
      let hasCollision :=
        checkCollision (live p) dragged
                       (pos_startAngle newPosition) (pos_endAngle newPosition) in
      withDragState p
        (mkDrag (isDragging ds) (draggedSector ds) (dragOffset ds) mode
                (Some newPosition) (negb hasCollision)
                (dragStartPosition ds) world)
  | _, _ => p
  end.

(** The list [handleMouseUp] builds when it commits. *)
Definition movedSectors (sectors : list Sector) (dragged : Sector)
    (preview : Position) : list Sector :=
  map (fun sector => if String.eqb (id sector) (id dragged)
                     then withAngles sector (pos_startAngle preview) (pos_endAngle preview)
                     else sector) sectors.

(** [handleMouseUp] (AdminPanel.tsx 981-1008). *)
Definition handleMouseUp (now : Z) (p : Panel) : Panel :=
  let ds := dragState p in
  let p1 :=
    match isDragging ds, draggedSector ds, previewPosition ds, isValidPosition ds with
    | true, Some dragged, Some preview, true =>
        let updatedSectors := movedSectors (live p) dragged preview in
        saveToHistory now (onSectorsUpdate p updatedSectors) updatedSectors
    | _, _, _, _ => p
    end in
  withDragState p1 idleDrag.

End Handlers.

End DragDropAdmin.

(** ** The canvas listeners of App.tsx and their closures (App.tsx 273-392)

    The listeners of the main canvas are created inside an effect and read
    the state of the render in which the effect last ran.  The effect runs
    again, and registers listeners over the current state, only when one of
    its dependencies changes:
    [[viewState, isDragging, dragStart, sectors, adminDragMode,
      adminDraggedSector, adminDragOffset, adminShowGrid]].
    [selectedSeats], [cart], [adminDragPreview], the drag log, the cursor
    and the hover states are not among them.

    Here a handler is a function from the state its closure holds to the
    list of state updates it queues; the updates are applied to the current
    state, the functional ones ([setX(prev => ...)]) to the value current
    at that time.  One render follows every handler run, before the next
    event. *)

Module MainCanvas.

(** The state of [App] the handlers read or write: [selection] holds
    [selectedSeats] and [cart]; [admin] holds [sectors], [cursorStyle] and
    the [adminDrag...] states. *)
Record AppState := mkApp {
  viewState : ViewState;
  selection : Selection;
  hoveredSeat : option Seat;
  hoveredSector : option Sector;
  isDragging : bool;
  dragStart : Point;
  adminDragMode : bool;
  adminShowGrid : bool;
  admin : AdminState
}.

(** A call of a state setter; [setViewState], [setSelectedSeats] and
    [setCart] take the updater function, the others the new value. *)
Inductive Update :=
| setViewState (f : ViewState -> ViewState)
| setSelectedSeats (f : list Seat -> list Seat)
| setCart (f : list CartItem -> list CartItem)
| setHoveredSeat (v : option Seat)
| setHoveredSector (v : option Sector)
| setSectors (v : list Sector)
| setIsDragging (v : bool)
| setDragStart (v : Point)
| setCursorStyle (v : string)
| setAdminDraggedSector (v : option string)
| setAdminDragOffset (v : Point)
| setAdminDragPreview (v : option Point)
| setAdminDragHistory (v : list (list Sector))
| setAdminHistoryIndex (v : Z).

Definition withAdmin (s : AppState) (a : AdminState) : AppState :=
  mkApp (viewState s) (selection s) (hoveredSeat s) (hoveredSector s)
        (isDragging s) (dragStart s) (adminDragMode s) (adminShowGrid s) a.

Definition applyUpdate (s : AppState) (u : Update) : AppState :=
  let a := admin s in
  match u with
  | setViewState f =>
      mkApp (f (viewState s)) (selection s) (hoveredSeat s) (hoveredSector s)
            (isDragging s) (dragStart s) (adminDragMode s) (adminShowGrid s) a
  | setSelectedSeats f =>
      mkApp (viewState s)
            (mkSelection (f (selectedSeats (selection s))) (cart (selection s)))
            (hoveredSeat s) (hoveredSector s)
            (isDragging s) (dragStart s) (adminDragMode s) (adminShowGrid s) a
  | setCart f =>
      mkApp (viewState s)
            (mkSelection (selectedSeats (selection s)) (f (cart (selection s))))
            (hoveredSeat s) (hoveredSector s)
            (isDragging s) (dragStart s) (adminDragMode s) (adminShowGrid s) a
  | setHoveredSeat v =>
      mkApp (viewState s) (selection s) v (hoveredSector s)
            (isDragging s) (dragStart s) (adminDragMode s) (adminShowGrid s) a
  | setHoveredSector v =>
      mkApp (viewState s) (selection s) (hoveredSeat s) v
            (isDragging s) (dragStart s) (adminDragMode s) (adminShowGrid s) a
  | setIsDragging v =>
      mkApp (viewState s) (selection s) (hoveredSeat s) (hoveredSector s)
            v (dragStart s) (adminDragMode s) (adminShowGrid s) a
  | setDragStart v =>
      mkApp (viewState s) (selection s) (hoveredSeat s) (hoveredSector s)
            (isDragging s) v (adminDragMode s) (adminShowGrid s) a
  | setSectors v =>
      withAdmin s (mkAdmin v (adminDraggedSector a) (adminDragOffset a)
                           (adminDragPreview a) (cursorStyle a)
                           (adminDragHistory a) (adminHistoryIndex a))
  | setCursorStyle v =>
      withAdmin s (mkAdmin (sectors a) (adminDraggedSector a) (adminDragOffset a)
                           (adminDragPreview a) v
                           (adminDragHistory a) (adminHistoryIndex a))
  | setAdminDraggedSector v =>
      withAdmin s (mkAdmin (sectors a) v (adminDragOffset a)
                           (adminDragPreview a) (cursorStyle a)
                           (adminDragHistory a) (adminHistoryIndex a))
  | setAdminDragOffset v =>
      withAdmin s (mkAdmin (sectors a) (adminDraggedSector a) v
                           (adminDragPreview a) (cursorStyle a)
                           (adminDragHistory a) (adminHistoryIndex a))
  | setAdminDragPreview v =>
      withAdmin s (mkAdmin (sectors a) (adminDraggedSector a) (adminDragOffset a)
                           v (cursorStyle a)
                           (adminDragHistory a) (adminHistoryIndex a))
  | setAdminDragHistory v =>
      withAdmin s (mkAdmin (sectors a) (adminDraggedSector a) (adminDragOffset a)
                           (adminDragPreview a) (cursorStyle a)
                           v (adminHistoryIndex a))
  | setAdminHistoryIndex v =>
      withAdmin s (mkAdmin (sectors a) (adminDraggedSector a) (adminDragOffset a)
                           (adminDragPreview a) (cursorStyle a)
                           (adminDragHistory a) v)
  end.

(** The updates of one handler run, applied in the order queued. *)
Definition applyAll (s : AppState) (updates : list Update) : AppState :=
  fold_left applyUpdate updates s.

(** [seat.status === 'available' || seat.status === 'premium']. *)
Definition selectable (seat : Seat) : bool :=
  match seat_status seat with
  | available | premium => true
  | _ => false
  end.

(** [if (adminDraggedSector)]: is the [string | null] state truthy? *)
Definition truthyb (o : option string) : bool :=
  match truthy o with Some _ => true | None => false end.

Section Handlers.

Variable sqrt : Q -> Q.
Variable atan2 : Q -> Q -> Q.
Variables cos sin : Q -> Q.
Variable canvas : Canvas.

(** The pointer of a mouse event in canvas pixels (App.tsx 296-299,
    321-324). *)
Definition pointer (clientX clientY : Q) : Point :=
  mkPoint ((clientX - rect_left canvas) * (canvas_width canvas / rect_width canvas))
          ((clientY - rect_top canvas) * (canvas_height canvas / rect_height canvas)).

(** [saveToAdminHistory] (App.tsx 94-99). *)
Definition saveToAdminHistory (c : AppState) (newSectors : list Sector) : list Update :=
  let newHistory :=
    slice0 (adminDragHistory (admin c)) (adminHistoryIndex (admin c) + 1) in
  let newHistory := newHistory ++ [newSectors] in
  [ setAdminDragHistory newHistory;
    setAdminHistoryIndex (Z.of_nat (length newHistory) - 1) ].

(** [handleAdminDragStart] (App.tsx 188-203). *)
Definition handleAdminDragStart (c : AppState) (sector : Sector) (mouseX mouseY : Q)
  : list Update :=
  let worldX := (mouseX - offsetX (viewState c)) / scale (viewState c) in
  let worldY := (mouseY - offsetY (viewState c)) / scale (viewState c) in
  let sectorMidAngle := (startAngle sector + endAngle sector) / 2 in
  let sectorMidRadius := (innerRadius sector + outerRadius sector) / 2 in
  let sectorCenterX := centerX (viewState c) + sectorMidRadius * cos sectorMidAngle in
  let sectorCenterY := centerY (viewState c) + sectorMidRadius * sin sectorMidAngle in
  [ setAdminDraggedSector (Some (id sector));
    setAdminDragOffset (mkPoint (worldX - sectorCenterX) (worldY - sectorCenterY)) ].

(** [handleAdminDragMove] (App.tsx 205-227). *)
Definition handleAdminDragMove (c : AppState) (mouseX mouseY : Q) : list Update :=
  match truthy (adminDraggedSector (admin c)) with
  | None => []
  | Some dragged =>
      let worldX := (mouseX - offsetX (viewState c)) / scale (viewState c) in
      let worldY := (mouseY - offsetY (viewState c)) / scale (viewState c) in
      let adjustedX := worldX - px (adminDragOffset (admin c)) in
      let adjustedY := worldY - py (adminDragOffset (admin c)) in
      let dx := adjustedX - centerX (viewState c) in
      let dy := adjustedY - centerY (viewState c) in
      let angle := atan2 dy dx in
      let snappedAngle := snapToGrid (adminShowGrid c) angle in
      setAdminDragPreview (Some (mkPoint adjustedX adjustedY)) ::
      match findSector (sectors (admin c)) dragged with
      | Some draggedSector =>
          let hasCollision :=
            checkAdminSectorCollision (sectors (admin c)) draggedSector snappedAngle in
          [ setCursorStyle (if hasCollision then "not-allowed" else "grabbing") ]
      | None => []
      end
  end.

(** [handleAdminDragEnd] (App.tsx 229-270). *)
Definition handleAdminDragEnd (c : AppState) : list Update :=
  match truthy (adminDraggedSector (admin c)), adminDragPreview (admin c) with
  | Some dragged, Some preview =>
      match findSector (sectors (admin c)) dragged with
      | None => []
      | Some draggedSector =>
          let snappedAngle := dropAngle atan2 (viewState c) (adminShowGrid c) preview in
          let hasCollision :=
            checkAdminSectorCollision (sectors (admin c)) draggedSector snappedAngle in
          (if negb hasCollision
           then
             let sectorSpan := endAngle draggedSector - startAngle draggedSector in
             let newStartAngle := snappedAngle - sectorSpan / 2 in
             let newEndAngle := snappedAngle + sectorSpan / 2 in
             let updatedSectors :=
               map (fun sector => if String.eqb (id sector) dragged
                                  then withAngles sector newStartAngle newEndAngle
                                  else sector) (sectors (admin c)) in
             saveToAdminHistory c (sectors (admin c)) ++ [ setSectors updatedSectors ]
           else [])
          ++ [ setAdminDraggedSector None; setAdminDragPreview None;
               setCursorStyle "default" ]
      end
  | _, _ =>
      [ setAdminDraggedSector None; setAdminDragPreview None; setCursorStyle "default" ]
  end.

(** [handleSeatClick] (App.tsx 535-547). *)
Definition handleSeatClick (c : AppState) (seat : Seat) : list Update :=
  let isSelected := someSeat (seat_id seat) (selectedSeats (selection c)) in
  if isSelected
  then [ setSelectedSeats
           (fun prev => List.filter (fun s => negb (String.eqb (seat_id s) (seat_id seat))) prev);
         setCart
           (fun prev => List.filter
              (fun item => negb (String.eqb (seat_id (item_seat item)) (seat_id seat))) prev) ]
  else [ setSelectedSeats (fun prev => prev ++ [seat]);
         setCart (fun prev => prev ++ [mkItem seat 1]) ].

(** [handleWheel] (App.tsx 277-293): the new scale is computed from the
    scale of the closure, the offsets from the value current at the
    update. *)
Definition handleWheel (c : AppState) (e : WheelEvent) : list Update :=
  let mouseX := clientX e - rect_left canvas in
  let mouseY := clientY e - rect_top canvas in
  let scaleFactor := if Qgtb (deltaY e) 0 then 95 # 100 else 105 # 100 in
  let newScale := Math_max (1 # 2) (Math_min 20 (scale (viewState c) * scaleFactor)) in
  [ setViewState (fun prev =>
      mkView newScale
             (mouseX - (mouseX - offsetX prev) * scaleFactor)
             (mouseY - (mouseY - offsetY prev) * scaleFactor)
             (centerX prev) (centerY prev)) ].

(** [handleMouseDown] (App.tsx 295-318). *)
Definition handleMouseDown (c : AppState) (eX eY : Q) : list Update :=
  let mouseX := px (pointer eX eY) in
  let mouseY := py (pointer eX eY) in
  let startPan := [ setIsDragging true; setDragStart (mkPoint mouseX mouseY) ] in
  match (if adminDragMode c
         then getAdminSectorAtPosition sqrt atan2 (adminDragMode c) (viewState c)
                (sectors (admin c)) mouseX mouseY
         else None) with
  | Some sector => handleAdminDragStart c sector mouseX mouseY
  | None =>
      match getSeatAtPosition sqrt (viewState c) (sectors (admin c)) mouseX mouseY with
      | Some seat => if selectable seat then handleSeatClick c seat else startPan
      | None => startPan
      end
  end.

(** [handleMouseMove] (App.tsx 320-362); the pan speed is 0.7. *)
Definition handleMouseMove (c : AppState) (eX eY : Q) : list Update :=
  let mouseX := px (pointer eX eY) in
  let mouseY := py (pointer eX eY) in
  if adminDragMode c && truthyb (adminDraggedSector (admin c))
  then handleAdminDragMove c mouseX mouseY
  else if isDragging c
  then
    let panSpeed := 7 # 10 in
    [ setViewState (fun prev =>
        mkView (scale prev)
               (offsetX prev + (mouseX - px (dragStart c)) * panSpeed)
               (offsetY prev + (mouseY - py (dragStart c)) * panSpeed)
               (centerX prev) (centerY prev));
      setDragStart (mkPoint mouseX mouseY);
      setCursorStyle "grabbing" ]
  else
    let seat := getSeatAtPosition sqrt (viewState c) (sectors (admin c)) mouseX mouseY in
    let sector :=
      getSectorAtPosition sqrt atan2 (viewState c) (sectors (admin c)) mouseX mouseY in
    (if adminDragMode c && negb (truthyb (adminDraggedSector (admin c)))
     then
       let adminSector :=
         getAdminSectorAtPosition sqrt atan2 (adminDragMode c) (viewState c)
           (sectors (admin c)) mouseX mouseY in
       [ setCursorStyle (match adminSector with Some _ => "grab" | None => "default" end) ]
     else
       match seat with
       | Some s =>
           let isSelected := someSeat (seat_id s) (selectedSeats (selection c)) in
           if negb isSelected && selectable s
           then [ setCursorStyle "pointer"; setHoveredSeat (Some s) ]
           else [ setCursorStyle "default";
                  setHoveredSeat (if negb isSelected then Some s else None) ]
       | None => [ setCursorStyle "default"; setHoveredSeat None ]
       end)
    ++ [ setHoveredSector sector ].

(** [handleMouseUp] (App.tsx 364-373). *)
Definition handleMouseUp (c : AppState) : list Update :=
  if adminDragMode c && truthyb (adminDraggedSector (admin c))
  then handleAdminDragEnd c
  else [ setIsDragging false; setCursorStyle "default" ].

(** The [mouseleave] listener (App.tsx 379-384). *)
Definition handleMouseLeave : list Update :=
  [ setHoveredSeat None; setHoveredSector None; setIsDragging false;
    setCursorStyle "default" ].

(** The zoom and reset buttons (App.tsx 811-821). *)
Definition handleZoomIn : list Update :=
  [ setViewState (fun prev =>
      mkView (Math_min 20 (scale prev * (11 # 10)))
             (offsetX prev) (offsetY prev) (centerX prev) (centerY prev)) ].

Definition handleZoomOut : list Update :=
  [ setViewState (fun prev =>
      mkView (Math_max (1 # 2) (scale prev * (9 # 10)))
             (offsetX prev) (offsetY prev) (centerX prev) (centerY prev)) ].

Definition handleResetView : list Update :=
  [ setViewState (fun prev => mkView 1 0 0 (centerX prev) (centerY prev)) ].

(** The cart buttons (App.tsx 549-557). *)
Definition removeFromCart (seatId : string) : list Update :=
  [ setCart (fun prev =>
      List.filter (fun item => negb (String.eqb (seat_id (item_seat item)) seatId)) prev);
    setSelectedSeats (fun prev =>
      List.filter (fun s => negb (String.eqb (seat_id s) seatId)) prev) ].

Definition clearCart : list Update :=
  [ setCart (fun _ => []); setSelectedSeats (fun _ => []) ].

(** The Escape key (App.tsx 395-408); the listener is on the document
    while [adminDragMode] is set. *)
Definition handleKeyDownEscape (c : AppState) : list Update :=
  if adminDragMode c
  then match truthy (adminDraggedSector (admin c)) with
       | Some _ =>
           [ setAdminDraggedSector None; setAdminDragPreview None;
             setCursorStyle "default" ]
       | None => []
       end
  else [].

(** *** Registration of the listeners

    [state] is the state of the last render, [listeners] the state of the
    render in which the effect of the canvas listeners last ran. *)
Record Page := mkPage {
  state : AppState;
  listeners : AppState
}.

(** Does the update store a fresh object in a dependency of the effect?
    Every [setViewState], [setSectors], [setDragStart] and
    [setAdminDragOffset] of the source passes a newly built object. *)
Definition storesObject (u : Update) : bool :=
  match u with
  | setViewState _ | setSectors _ | setDragStart _ | setAdminDragOffset _ => true
  | _ => false
  end.

(** The comparison of the dependency array between two renders: objects
    by identity, booleans and strings by value. *)
Definition depsChanged (before : AppState) (updates : list Update) (after : AppState)
  : bool :=
  existsb storesObject updates
  || negb (Bool.eqb (isDragging before) (isDragging after))
  || negb (Bool.eqb (adminDragMode before) (adminDragMode after))
  || negb (Bool.eqb (adminShowGrid before) (adminShowGrid after))
  || negb (bool_decide (adminDraggedSector (admin before) = adminDraggedSector (admin after))).

(** The render after a handler has run: the updates are applied and the
    listeners are registered anew when a dependency has changed. *)
Definition render (pg : Page) (updates : list Update) : Page :=
  let after := applyAll (state pg) updates in
  mkPage after
         (if depsChanged (state pg) updates after then after else listeners pg).

Inductive Event :=
| Wheel (e : WheelEvent)
| MouseDown (clientX clientY : Q)
| MouseMove (clientX clientY : Q)
| MouseUp
| MouseLeave
| KeyEscape
| ClickZoomIn
| ClickZoomOut
| ClickResetView
| ClickRemove (seatId : string)
| ClickClearCart.

(** One event: the canvas listeners run on the state they were registered
    with; the key listener reads only dependencies of its own effect, and
    the buttons are bound at every render. *)
Definition step (pg : Page) (ev : Event) : Page :=
  render pg
    match ev with
    | Wheel e => handleWheel (listeners pg) e
    | MouseDown eX eY => handleMouseDown (listeners pg) eX eY
    | MouseMove eX eY => handleMouseMove (listeners pg) eX eY
    | MouseUp => handleMouseUp (listeners pg)
    | MouseLeave => handleMouseLeave
    | KeyEscape => handleKeyDownEscape (state pg)
    | ClickZoomIn => handleZoomIn
    | ClickZoomOut => handleZoomOut
    | ClickResetView => handleResetView
    | ClickRemove seatId => removeFromCart seatId
    | ClickClearCart => clearCart
    end.

Definition run (pg : Page) (events : list Event) : Page :=
  fold_left step events pg.

End Handlers.

(** A page right after a render that registered the listeners. *)
Definition fresh (s : AppState) : Page := mkPage s s.

End MainCanvas.

(** ** A reference instance of the [Math] primitives

    Rational stand-ins that let the model run, each on the reduced form of
    its argument: the square root is the integer square root of numerator
    times denominator over the denominator (exact on squares of rationals),
    the arc tangent is the quadratic approximation on an octant extended by
    symmetry (exact on the axes), cosine and sine are their Taylor
    polynomials (exact at 0), and a run of [Math.random] is the list of the
    values it returned. *)

Definition sqrtQ (q : Q) : Q :=
  let r := Qred q in Z.sqrt (Qnum r * Zpos (Qden r)) # Qden r.

Definition atanUnit (z : Q) : Q :=
  Qred ((PI / 4) * z + (273 # 1000) * z * (1 - Math_abs z)).

Definition atan2Q (y x : Q) : Q :=
  if Qeq_bool x 0 && Qeq_bool y 0 then 0
  else if Qleb (Math_abs y) (Math_abs x)
       then let a := atanUnit (Qred (y / x)) in
            if Qgtb x 0 then a else if Qgeb y 0 then a + PI else a - PI
       else let a := atanUnit (Qred (x / y)) in
            if Qgtb y 0 then PI / 2 - a else - (PI / 2) - a.

Definition cosQ (x : Q) : Q :=
  let r := Qred x in Qred (1 - r ^ 2 / 2 + r ^ 4 / 24).

Definition sinQ (x : Q) : Q :=
  let r := Qred x in Qred (r - r ^ 3 / 6 + r ^ 5 / 120).

Definition randomOf (trace : list Q) (n : nat) : Q := nth n trace 0.

(** ** Invariants and outcomes *)

(** A run of pushes onto the history of the drag panel; each entry is the
    time of the push and the snapshot. *)
Definition pushAll (p : DragDropAdmin.Panel) (entries : list (Z * list Sector))
  : DragDropAdmin.Panel :=
  fold_left (fun q e => DragDropAdmin.saveToHistory (fst e) q (snd e)) entries p.

(** The history entries a run of pushes creates, oldest first. *)
Definition entriesOf (entries : list (Z * list Sector)) : list DragDropAdmin.HistoryState :=
  map (fun e => DragDropAdmin.mkHistory (snd e) (fst e)) entries.

(** A run of pushes onto the drag log of the main canvas. *)
Definition adminPushAll (st : AdminState) (snapshots : list (list Sector)) : AdminState :=
  fold_left saveToAdminHistory snapshots st.

(** The main canvas before any drag. *)
Definition adminRest (l : list Sector) : AdminState :=
  mkAdmin l None (mkPoint 0 0) None "default" [] (-1).

(** The drag state in which [handleMouseUp] commits. *)
Definition commits (p : DragDropAdmin.Panel) (dragged : Sector)
    (preview : DragDropAdmin.Position) : Prop :=
  DragDropAdmin.isDragging (DragDropAdmin.dragState p) = true /\
  DragDropAdmin.draggedSector (DragDropAdmin.dragState p) = Some dragged /\
  DragDropAdmin.previewPosition (DragDropAdmin.dragState p) = Some preview /\
  DragDropAdmin.isValidPosition (DragDropAdmin.dragState p) = true.

(** The collision invariant in the words of the specification.  The
    angular span of a sector is [[startAngle, endAngle)], taken modulo
    2 pi: [inSpan theta start end_] says that some turn of [theta] lies in
    it. *)
Definition inSpan (theta start end_ : Q) : Prop :=
  exists k : Z, start <= theta + inject_Z k * (2 * PI) /\
                theta + inject_Z k * (2 * PI) < end_.

(** Two sectors overlap: their radial ranges meet and some angle lies in
    both angular spans. *)
Definition overlap (a b : Sector) : Prop :=
  radiusOverlap a b = true /\
  exists theta, inSpan theta (startAngle a) (endAngle a) /\
                inSpan theta (startAngle b) (endAngle b).

(** Some two sectors of the collection, of different ids, overlap. *)
Definition overlapping (l : list Sector) : Prop :=
  exists a b, In a l /\ In b l /\ id a <> id b /\ overlap a b.

(** The range of the sector is stored inside one turn, from 0 upwards,
    and does not wrap. *)
Definition plain (s : Sector) : Prop :=
  0 <= startAngle s /\ startAngle s <= endAngle s /\ endAngle s <= 2 * PI.

Definition plainb (s : Sector) : bool :=
  Qleb 0 (startAngle s) && Qleb (startAngle s) (endAngle s)
  && Qleb (endAngle s) (2 * PI).

(** The invariant on the sectors stored that way: no two of them, of
    different ids, overlap.  Nothing is asked of a sector whose range is
    stored with a negative bound, wraps, or passes 2 pi. *)
Definition plainApart (l : list Sector) : Prop :=
  forall a b, In a l -> In b l -> id a <> id b -> plain a -> plain b ->
              ~ overlap a b.

(** A test that suffices for two plain sectors: the bands are apart, or
    one range ends where the other starts or before. *)
Definition apartb (a b : Sector) : bool :=
  negb (radiusOverlap a b)
  || Qleb (endAngle a) (startAngle b) || Qleb (endAngle b) (startAngle a).

Definition allApartb (l : list Sector) : bool :=
  forallb (fun a =>
    forallb (fun b => String.eqb (id a) (id b)
                      || negb (plainb a && plainb b) || apartb a b) l) l.

(** A test that exhibits an overlap: the sectors at the places [i] and [j]
    have different ids and bands that meet, and both ranges, as stored,
    hold the angle [theta]. *)
Definition overlapAtb (l : list Sector) (i j : nat) (theta : Q) : bool :=
  match l !! i, l !! j with
  | Some a, Some b =>
      negb (String.eqb (id a) (id b)) && radiusOverlap a b
      && Qleb (startAngle a) theta && Qltb theta (endAngle a)
      && Qleb (startAngle b) theta && Qltb theta (endAngle b)
  | _, _ => false
  end.

(** Sector ids are pairwise distinct. *)
Definition distinctIds (l : list Sector) : Prop := List.NoDup (map id l).

(** The test one iteration of [sectorLoop] applies: does the sector cover
    the point at [angle] and [distance] from the centre? *)
Definition coversPoint (sector : Sector) (angle distance : Q) : bool :=
  Qgeb distance (innerRadius sector) && Qleb distance (outerRadius sector)
  && angleInRange angle (startAngle sector) (endAngle sector).

(** The zoom gates of the drawing (App.tsx 612 and 723): the outline of a
    sector is drawn below scale 3, its seats above scale 2. *)
Definition outlinesDrawn (viewState : ViewState) : bool := Qltb (scale viewState) 3.

Definition seatsDrawn (viewState : ViewState) : bool := Qgtb (scale viewState) 2.

(** The ids of the sectors that cover a point, in the order of the
    collection. *)
Definition coveringIds (l : list Sector) (angle distance : Q) : list string :=
  map id (List.filter (fun s => coversPoint s angle distance) l).
(** [hasCollision] as [handleAdminDragEnd] computes it at pointer-up;
    [None] when the handler returns before it gets there. *)
Definition dropCollision (atan2 : Q -> Q -> Q) (viewState : ViewState)
    (adminShowGrid : bool) (st : AdminState) : option bool :=
  match truthy (adminDraggedSector st), adminDragPreview st with
  | Some dragged, Some preview =>
      match findSector (sectors st) dragged with
      | Some draggedSector =>
          Some (checkAdminSectorCollision (sectors st) draggedSector
                  (dropAngle atan2 viewState adminShowGrid preview))
      | None => None
      end
  | _, _ => None
  end.

(** A sector without its seats: the geometry, the prices and the look. *)
Definition geometry (s : Sector) : Sector := withSeats s [].

(** The seat status of every seat of a collection, sector by sector. *)
Definition statuses (l : list Sector) : list (list SeatStatus) :=
  map (fun s => map seat_status (seats s)) l.

(** The [scaleFactor] of [handleWheel]. *)
Definition scaleFactorOf (e : WheelEvent) : Q :=
  if Qgtb (deltaY e) 0 then 95 # 100 else 105 # 100.

(** The pointer of a wheel event, as [handleWheel] reads it. *)
Definition wheelPointer (canvas : Canvas) (e : WheelEvent) : Point :=
  mkPoint (clientX e - rect_left canvas) (clientY e - rect_top canvas).

(** The cursor is on an entry or before the first one, and the cap holds. *)
Definition cursorValid (p : DragDropAdmin.Panel) : Prop :=
  (-1 <= DragDropAdmin.historyIndex p < Z.of_nat (length (DragDropAdmin.history p)))%Z /\
  (length (DragDropAdmin.history p) <= 50)%nat.

(** The live collection has the geometry of the snapshot under the cursor. *)
Definition tracksCursor (p : DragDropAdmin.Panel) : Prop :=
  exists h, at_ (DragDropAdmin.history p) (DragDropAdmin.historyIndex p) = Some h /\
            map geometry (DragDropAdmin.live p) = map geometry (DragDropAdmin.hs_sectors h).

(** [totalPrice] and [totalSeats] of App.tsx (823-824). *)
Definition totalPrice (cart : list CartItem) : Q :=
  fold_left (fun sum item => sum + seat_price (item_seat item) * inject_Z (quantity item))
            cart 0.

Definition totalSeats (cart : list CartItem) : Z :=
  fold_left (fun sum item => (sum + quantity item)%Z) cart 0%Z.

(** The cart holds the selected seats, in order, one item of quantity 1
    each. *)
Definition cartMirrors (sel : Selection) : Prop :=
  cart sel = map (fun s => mkItem s 1) (selectedSeats sel).

(** The prices of a list of seats, added up. *)
Definition priceSum (l : list Seat) : Q :=
  fold_right (fun s acc => seat_price s + acc) 0 l.


(** The registered listeners hold the current value of every dependency
    of their effect. *)
Definition listenersCurrent (pg : MainCanvas.Page) : Prop :=
  let c := MainCanvas.listeners pg in
  let s := MainCanvas.state pg in
  MainCanvas.viewState c = MainCanvas.viewState s /\
  MainCanvas.isDragging c = MainCanvas.isDragging s /\
  MainCanvas.dragStart c = MainCanvas.dragStart s /\
  sectors (MainCanvas.admin c) = sectors (MainCanvas.admin s) /\
  MainCanvas.adminDragMode c = MainCanvas.adminDragMode s /\
  adminDraggedSector (MainCanvas.admin c) = adminDraggedSector (MainCanvas.admin s) /\
  adminDragOffset (MainCanvas.admin c) = adminDragOffset (MainCanvas.admin s) /\
  MainCanvas.adminShowGrid c = MainCanvas.adminShowGrid s.

(** What [generateSeats] promises of a seat of [sector]: the name of the
    sector, a row between 1 and the number of rows, a seat number from 1,
    a status other than [selected], and the price that goes with the
    status. *)
Definition generatedSeat (sector : Sector) (seat : Seat) : Prop :=
  seat_sector seat = name sector /\
  (1 <= seat_row seat <= Math_floor ((outerRadius sector - innerRadius sector) / 12))%Z /\
  (1 <= seatNumber seat)%Z /\
  match seat_status seat with
  | available => seat_price seat = basePrice sector
  | premium => seat_price seat = premiumPrice sector
  | occupied => seat_price seat = basePrice sector \/ seat_price seat = premiumPrice sector
  | selected => False
  end.

(** The seats of a collection, sector by sector. *)
Definition allSeats (l : list Sector) : list Seat := concat (map seats l).

(** The id [generateSeats] gives the seat at [row] and [seat] of the
    sector [sectorId]. *)
Definition seatId (sectorId : string) (row seat : Z) : string :=
  sectorId +:+ "-" +:+ pretty row +:+ "-" +:+ pretty seat.

(** The character of the string ["-"]. *)
Definition dash : Ascii.ascii := Ascii.ascii_of_nat 45.

(** No character of the string is a dash. *)
Fixpoint noDash (s : string) : bool :=
  match s with
  | EmptyString => true
  | String c s' => negb (Ascii.eqb c dash) && noDash s'
  end.

(** The events of the drag panel: the effect that seeds the history, the
    pointer on the canvas, and the undo and redo buttons. *)
Inductive PanelEvent :=
| PanelSeed (now : Z)
| PanelMouseDown (eX eY : Q)
| PanelMouseMove (eX eY : Q)
| PanelMouseUp (now : Z)
| PanelUndo
| PanelRedo.

(** One event of the drag panel; [None] is the [TypeError] of an undo or
    a redo that reads an entry that does not exist. *)
Definition panelStep (sqrt : Q -> Q) (atan2 : Q -> Q -> Q) (cos sin : Q -> Q)
    (random : nat -> Q) (viewState : ViewState) (snapSettings : SnapSettings)
    (canvas : option Canvas) (p : DragDropAdmin.Panel) (e : PanelEvent)
  : option DragDropAdmin.Panel :=
  match e with
  | PanelSeed now => Some (DragDropAdmin.initHistory now p)
  | PanelMouseDown eX eY =>
      Some (DragDropAdmin.handleMouseDown sqrt atan2 cos sin viewState canvas p eX eY)
  | PanelMouseMove eX eY =>
      Some (DragDropAdmin.handleMouseMove sqrt atan2 viewState snapSettings canvas p eX eY)
  | PanelMouseUp now => Some (DragDropAdmin.handleMouseUp cos sin random viewState now p)
  | PanelUndo => DragDropAdmin.handleUndo cos sin random viewState p
  | PanelRedo => DragDropAdmin.handleRedo cos sin random viewState p
  end.

Fixpoint panelRun (sqrt : Q -> Q) (atan2 : Q -> Q -> Q) (cos sin : Q -> Q)
    (random : nat -> Q) (viewState : ViewState) (snapSettings : SnapSettings)
    (canvas : option Canvas) (p : DragDropAdmin.Panel) (events : list PanelEvent)
  : option DragDropAdmin.Panel :=
  match events with
  | [] => Some p
  | e :: rest =>
      match panelStep sqrt atan2 cos sin random viewState snapSettings canvas p e with
      | Some p' =>
          panelRun sqrt atan2 cos sin random viewState snapSettings canvas p' rest
      | None => None
      end
  end.

(** The state a drag leaves alone until it commits. *)
Definition layout (s : MainCanvas.AppState) : list Sector * list (list Sector) * Z :=
  (sectors (MainCanvas.admin s), adminDragHistory (MainCanvas.admin s),
   adminHistoryIndex (MainCanvas.admin s)).

(** While the pointer moves, the listeners keep a preview that is not set;
    the preview of the state is set only by the moves of a sector drag. *)
Definition previewUnseen (pg : MainCanvas.Page) : Prop :=
  let c := MainCanvas.listeners pg in
  let s := MainCanvas.state pg in
  adminDragPreview (MainCanvas.admin c) = None /\
  MainCanvas.adminDragMode c = MainCanvas.adminDragMode s /\
  adminDraggedSector (MainCanvas.admin c) = adminDraggedSector (MainCanvas.admin s) /\
  (MainCanvas.adminDragMode c && MainCanvas.truthyb (adminDraggedSector (MainCanvas.admin c))
   = false -> adminDragPreview (MainCanvas.admin s) = None).

(** ** The stadium at start-up (App.tsx 410-479) *)

(** [String.prototype.toLowerCase], on ASCII text. *)
Definition lowerChar (c : Ascii.ascii) : Ascii.ascii :=
  let n := Ascii.nat_of_ascii c in
  if (65 <=? n)%nat && (n <=? 90)%nat then Ascii.ascii_of_nat (n + 32) else c.

Fixpoint toLowerCase (s : string) : string :=
  match s with
  | EmptyString => EmptyString
  | String c s' => String (lowerChar c) (toLowerCase s')
  end.

(** The class [\s], on ASCII text: the space and the characters 9 to 13. *)
Definition isSpace (c : Ascii.ascii) : bool :=
  let n := Ascii.nat_of_ascii c in
  (n =? 32)%nat || ((9 <=? n)%nat && (n <=? 13)%nat).

(** [s.replace(/\s+/g, '-')]: every run of white space becomes one dash;
    [inRun] tells that the character before was white space. *)
Fixpoint replaceSpaces (inRun : bool) (s : string) : string :=
  match s with
  | EmptyString => EmptyString
  | String c s' =>
      if isSpace c
      then if inRun then replaceSpaces true s'
           else String dash (replaceSpaces true s')
      else String c (replaceSpaces false s')
  end.

Record SectorConfig := mkConfig {
  cfg_name : string;
  cfg_startAngle : Q;
  cfg_endAngle : Q;
  cfg_innerRadius : Q;
  cfg_outerRadius : Q;
  cfg_color : string;
  cfg_basePrice : Q;
  cfg_premiumPrice : Q;
  cfg_shape : Shape
}.

(** [sectorConfigs] of [initializeStadium] (App.tsx 419-428). *)
Definition sectorConfigs : list SectorConfig :=
  [ mkConfig "Premium North Stand" (- PI / 6) (PI / 6) 180 280 "#e11d48" 250 400 rounded;
    mkConfig "East Upper Tier" (PI / 6) (PI / 3) 160 260 "#dc2626" 180 320 rounded;
    mkConfig "East Lower Stand" (PI / 3) (2 * PI / 3) 140 240 "#ea580c" 150 280 sided;
    mkConfig "Family Stand" (2 * PI / 3) (5 * PI / 6) 160 260 "#ca8a04" 120 220 rounded;
    mkConfig "South Kop" (5 * PI / 6) (7 * PI / 6) 180 280 "#16a34a" 200 350 sided;
    mkConfig "West Upper Tier" (7 * PI / 6) (4 * PI / 3) 160 260 "#0891b2" 180 320 rounded;
    mkConfig "West Lower Stand" (4 * PI / 3) (5 * PI / 3) 140 240 "#7c3aed" 150 280 sided;
    mkConfig "Executive Club" (5 * PI / 3) (11 * PI / 6) 160 260 "#be185d" 300 500 rounded ].

(** The sector [initializeStadium] builds from a configuration (App.tsx
    430-441).  Its seats come from the loop that [handleSectorsUpdate]
    repeats; here [seatsOf] gives them, by sector id, so that what is
    proved of the stadium holds whatever [Math.random] drew.  The object
    is built without the [shape] of the configuration: the drawing, the
    only reader, then takes the branch of [sided] (App.tsx 629). *)
Definition standOf (seatsOf : string -> list Seat) (config : SectorConfig) : Sector :=
  let sectorId := replaceSpaces false (toLowerCase (cfg_name config)) in
  mkSector sectorId (cfg_name config) (cfg_startAngle config) (cfg_endAngle config)
           (cfg_innerRadius config) (cfg_outerRadius config) (cfg_color config)
           (cfg_basePrice config) (cfg_premiumPrice config) (seatsOf sectorId) sided.

Definition stadium (seatsOf : string -> list Seat) : list Sector :=
  map (standOf seatsOf) sectorConfigs.
(** ** Scenario data *)

(** Two sectors on the radial band [140, 240] with the spans [0, 45] and
    [45, 90] degrees. *)
Definition sectorA : Sector :=
  mkSector "a" "A" (deg 0) (deg 45) 140 240 "#ff6b6b" 100 200 [] rounded.

Definition sectorB : Sector :=
  mkSector "b" "B" (deg 45) (deg 90) 140 240 "#4ecdc4" 100 200 [] rounded.

(** A third sector on the same band, from 180 to 225 degrees. *)
Definition sectorD : Sector :=
  mkSector "d" "D" (deg 180) (deg 225) 140 240 "#45b7d1" 100 200 [] rounded.

(** The view before any zoom or pan, centred on the origin. *)
Definition view0 : ViewState := mkView 1 0 0 0 0.

(** Sector A dragged on the main canvas, the pointer straight above the
    centre; nothing recorded yet. *)
Definition adminDragUp : AdminState :=
  mkAdmin [sectorA; sectorD] (Some "a"%string) (mkPoint 0 0)
          (Some (mkPoint 0 200)) "grabbing" [] (-1).

(** The drag scenario: sector A spans 30 degrees, sector B occupies
    [40, 60] degrees on the same band; the canvas is 800 by 600 and the
    venue centre is its middle; the radial grid is set to 10 degrees. *)
Definition sectorA30 : Sector :=
  mkSector "a" "A" (deg 0) (deg 30) 140 240 "#ff6b6b" 100 200 [] rounded.

Definition sectorB4060 : Sector :=
  mkSector "b" "B" (deg 40) (deg 60) 140 240 "#4ecdc4" 100 200 [] rounded.

Definition viewC : ViewState := mkView 1 0 0 400 300.

Definition canvasC : option Canvas := Some (mkCanvas 0 0 800 600 800 600).

Definition snap10 : SnapSettings := mkSnap true true 20 (10 * PI / 180) 15.

(** The panel at rest, the pointer pressed on sector A, and the pointer
    moved along the circle to 50 degrees. *)
Definition panelRest : DragDropAdmin.Panel :=
  DragDropAdmin.mkPanel [sectorA30; sectorB4060] 0 DragDropAdmin.idleDrag [] (-1).

Definition panelDown : DragDropAdmin.Panel :=
  DragDropAdmin.handleMouseDown sqrtQ atan2Q cosQ sinQ viewC canvasC panelRest 583 349.

Definition panelMoved : DragDropAdmin.Panel :=
  DragDropAdmin.handleMouseMove sqrtQ atan2Q viewC snap10 canvasC panelDown 522 445.

(** The same drop on the main canvas, grid off. *)
Definition adminDragTo50 : AdminState :=
  mkAdmin [sectorA30; sectorB4060] (Some "a"%string) (mkPoint 0 0)
          (Some (mkPoint 522 445)) "not-allowed" [] (-1).

(** The same two spans on a band of one seat row, for the runs that
    commit: each update regenerates 9 and 6 seats. *)
Definition thinA : Sector :=
  mkSector "a" "A" (deg 0) (deg 30) 140 152 "#ff6b6b" 100 200 [] rounded.

Definition thinB : Sector :=
  mkSector "b" "B" (deg 40) (deg 60) 140 152 "#4ecdc4" 100 200 [] rounded.

(** A run of [Math.random] that answers 0 a hundred and twenty times and
    0.9 from then on. *)
Definition randomRun : nat -> Q := randomOf (repeat 0 120 ++ repeat (9 # 10) 60).

(** The panel opened on the two thin sectors, its history seeded. *)
Definition thinRest : DragDropAdmin.Panel :=
  DragDropAdmin.initHistory 1000
    (DragDropAdmin.mkPanel [thinA; thinB] 0 DragDropAdmin.idleDrag [] (-1)).

(** Sector A pressed at its centre. *)
Definition thinDown : DragDropAdmin.Panel := Eval vm_compute in
  DragDropAdmin.handleMouseDown sqrtQ atan2Q cosQ sinQ viewC canvasC thinRest 541 338.

(** The pointer moved along the circle to 100 degrees: a valid candidate,
    [85, 115] degrees. *)
Definition thinMoved : DragDropAdmin.Panel := Eval vm_compute in
  DragDropAdmin.handleMouseMove sqrtQ atan2Q viewC snap10 canvasC thinDown 375 444.

(** The first drag committed. *)
Definition thinOnce : DragDropAdmin.Panel := Eval vm_compute in
  DragDropAdmin.handleMouseUp cosQ sinQ randomRun viewC 2000 thinMoved.

(** A second drag of sector A, to 200 degrees, committed. *)
Definition thinTwice : DragDropAdmin.Panel := Eval vm_compute in
  DragDropAdmin.handleMouseUp cosQ sinQ randomRun viewC 3000
    (DragDropAdmin.handleMouseMove sqrtQ atan2Q viewC snap10 canvasC
       (DragDropAdmin.handleMouseDown sqrtQ atan2Q cosQ sinQ viewC canvasC thinOnce 375 444)
       263 250).

(** The second drag undone: the cursor stands on the second of three
    entries. *)
Definition thinUndone : DragDropAdmin.Panel := Eval vm_compute in
  default thinTwice (DragDropAdmin.handleUndo cosQ sinQ randomRun viewC thinTwice).

(** A sector whose single seat row lies at distance 200, with the seats
    the application generates for it. *)
Definition northStand : list Sector := Eval vm_compute in
  fst (handleSectorsUpdate cosQ sinQ (randomOf []) viewC
         [mkSector "north" "North" (deg 0) (deg 30) 194 206 "#ff6b6b" 100 200 [] rounded]
         0).

(** The view at the upper zoom limit, and a wheel notch towards the user
    with the pointer at (100, 100). *)
Definition viewMax : ViewState := mkView 20 0 0 400 300.

Definition pageCanvas : Canvas := mkCanvas 0 0 800 600 800 600.

Definition wheelIn : WheelEvent := mkWheel 100 100 (-1).

(** The application with the drag mode on over the two sectors of the
    drag scenario: nothing selected, no drag under way. *)
Definition appDragMode : MainCanvas.AppState :=
  MainCanvas.mkApp viewC emptySelection None None false (mkPoint 0 0) true false
                   (adminRest [sectorA30; sectorB4060]).

(** The application in the middle of the drag of [adminDragUp], the grid
    shown. *)
Definition appMidDrag : MainCanvas.AppState :=
  MainCanvas.mkApp view0 emptySelection None None false (mkPoint 0 0) true true
                   adminDragUp.

(** The application over the north stand, the drag mode off. *)
Definition appSeats : MainCanvas.AppState :=
  MainCanvas.mkApp viewC emptySelection None None false (mkPoint 0 0) false true
                   (adminRest northStand).

(** The first seat of the north stand, at (600, 300). *)
Definition northSeat : Seat := Eval vm_compute in
  default (mkSeat "" 0 0 "" 0 0 available 0) (head (allSeats northStand)).

(** A sector too thin for a row of seats. *)
Definition thinRing : Sector :=
  mkSector "ring" "Ring" (deg 0) (deg 90) 150 160 "#96ceb4" 100 200 [] rounded.

(** The stadium on the main canvas, 800 by 600 with the venue centre in
    its middle.  East Lower Stand is held to the right of the centre, over
    the Premium North Stand: the preview is at angle 0, distance 200. *)
Definition lowerOverNorth (seatsOf : string -> list Seat) : AdminState :=
  mkAdmin (stadium seatsOf) (Some "east-lower-stand"%string) (mkPoint 0 0)
          (Some (mkPoint 600 300)) "grabbing" [] (-1).

(** East Upper Tier is held where it stands: the preview is on the
    diagonal, at the mid-angle of the stand. *)
Definition upperInPlace (seatsOf : string -> list Seat) : AdminState :=
  mkAdmin (stadium seatsOf) (Some "east-upper-tier"%string) (mkPoint 0 0)
          (Some (mkPoint 550 450)) "grabbing" [] (-1).

(** The application at start-up, the drag mode switched on. *)
Definition appStadium (seatsOf : string -> list Seat) : MainCanvas.AppState :=
  MainCanvas.mkApp viewC emptySelection None None false (mkPoint 0 0) true true
                   (adminRest (stadium seatsOf)).

(** East Lower Stand pressed at its middle, straight below the centre,
    the pointer moved to the right of the centre, one notch of the wheel,
    and the release. *)
Definition lowerOntoNorth : list MainCanvas.Event :=
  [ MainCanvas.MouseDown 400 490; MainCanvas.MouseMove 590 300;
    MainCanvas.Wheel (mkWheel 590 300 (-1)); MainCanvas.MouseUp ].

(** The drag panel opened on the stadium, and the same drag in it: the
    history is seeded, the stand is pressed, moved along the circle and
    released. *)
Definition panelStadium (seatsOf : string -> list Seat) : DragDropAdmin.Panel :=
  DragDropAdmin.mkPanel (stadium seatsOf) 0 DragDropAdmin.idleDrag [] (-1).

Definition panelLowerOntoNorth : list PanelEvent :=
  [ PanelSeed 1000; PanelMouseDown 400 490; PanelMouseMove 590 300;
    PanelMouseUp 2000 ].

(** A range stored one turn below the span from 350 to 10 degrees, and a
    range of 710 degrees stored from -525 degrees, both on the band
    [140, 240]. *)
Definition woundSector : Sector :=
  mkSector "w" "W" (deg (-370)) (deg (-350)) 140 240 "#ff6b6b" 100 200 [] rounded.

Definition wideSector : Sector :=
  mkSector "v" "V" (deg (-525)) (deg 185) 140 240 "#4ecdc4" 100 200 [] rounded.

(** Two clicks on the first seat of the north stand. *)
Definition twoClicks : list MainCanvas.Event :=
  [ MainCanvas.MouseDown 600 300; MainCanvas.MouseUp;
    MainCanvas.MouseDown 600 300; MainCanvas.MouseUp ].
(** * Theorems *)

(** ** Comparisons *)

Lemma Qltb_lt (x y : Q) : Qltb x y = true <-> x < y.
Proof.
  unfold Qltb. rewrite Qlt_alt. destruct (x ?= y); split; congruence.
Qed.

Lemma Qltb_ge (x y : Q) : Qltb x y = false <-> y <= x.
Proof.
  rewrite <- not_true_iff_false, Qltb_lt. split.
  - apply Qnot_lt_le.
  - apply Qle_not_lt.
Qed.

Lemma Qleb_le (x y : Q) : Qleb x y = true <-> x <= y.
Proof. unfold Qleb. rewrite negb_true_iff. apply Qltb_ge. Qed.

Lemma Qgeb_ge (x y : Q) : Qgeb x y = true <-> y <= x.
Proof. unfold Qgeb. rewrite negb_true_iff. apply Qltb_ge. Qed.

Lemma Qgtb_gt (x y : Q) : Qgtb x y = true <-> y < x.
Proof. unfold Qgtb. apply Qltb_lt. Qed.

Lemma two_PI_pos : 0 < 2 * PI.
Proof. reflexivity. Qed.

(** ** The normalisation loop *)

Lemma wrapLoop_nonneg (a : Q) (n : nat) : 0 <= a -> wrapLoop n a = a.
Proof.
  intros Ha. destruct n as [|n]; simpl; [reflexivity|].
  apply Qltb_ge in Ha. now rewrite Ha.
Qed.

(** Once [fuel] additions reach the non-negatives the loop has left, and
    more fuel changes nothing. *)
Lemma wrapLoop_enough (n : nat) :
  forall (a : Q) (m : nat),
    - a <= inject_Z (Z.of_nat n) * (2 * PI) -> (n <= m)%nat ->
    wrapLoop m a = wrapLoop n a /\ 0 <= wrapLoop n a.
Proof.
  induction n as [|n IH]; intros a m Hn Hm.
  - assert (Ha : 0 <= a).
    { change (inject_Z (Z.of_nat 0)) with 0 in Hn. lra. }
    rewrite !wrapLoop_nonneg by exact Ha. split; [reflexivity | exact Ha].
  - destruct m as [|m]; [lia|]. simpl.
    destruct (Qltb a 0) eqn:E.
    + apply IH; [|lia].
      rewrite Nat2Z.inj_succ, <- Z.add_1_r, inject_Z_plus in Hn.
      change (inject_Z 1) with 1 in Hn. lra.
    + split; [reflexivity | now apply Qltb_ge].
Qed.

Lemma wrapSteps_enough (a : Q) :
  - a <= inject_Z (Z.of_nat (wrapSteps a)) * (2 * PI).
Proof.
  unfold wrapSteps.
  pose proof (Qle_ceiling (- a / (2 * PI))) as Hc.
  pose proof two_PI_pos as Hp.
  set (k := Qceiling (- a / (2 * PI))) in *.
  assert (Hk : inject_Z k <= inject_Z (Z.of_nat (Z.to_nat k))).
  { rewrite <- Zle_Qle. lia. }
  assert (Hd : - a == (- a / (2 * PI)) * (2 * PI)) by (field; lra).
  rewrite Hd at 1.
  apply Qmult_le_compat_r; [|lra].
  lra.
Qed.

Lemma wrapWhile_nonneg (a : Q) : 0 <= wrapWhile a.
Proof.
  unfold wrapWhile.
  now apply (wrapLoop_enough (wrapSteps a) a (wrapSteps a) (wrapSteps_enough a)).
Qed.

Lemma wrapWhile_id (a : Q) : 0 <= a -> wrapWhile a = a.
Proof. intros H. unfold wrapWhile. now apply wrapLoop_nonneg. Qed.

(** ** What the collision loop computes *)



Lemma radiusOverlap_sym (a b : Sector) : radiusOverlap a b = radiusOverlap b a.
Proof. unfold radiusOverlap, Qgtb. now rewrite orb_comm. Qed.

Lemma angleOverlap_sym (a b : Sector) :
  angleOverlap (startAngle a) (endAngle a) b = angleOverlap (startAngle b) (endAngle b) a.
Proof. unfold angleOverlap, Qgtb. now rewrite orb_comm. Qed.

Lemma sectorsCollide_sym (a b : Sector) : sectorsCollide a b = sectorsCollide b a.
Proof.
  unfold sectorsCollide. now rewrite radiusOverlap_sym, angleOverlap_sym.
Qed.

(** The collision test does not depend on which sector is the candidate. *)
Theorem collision_test_symmetric (a b : Sector) :
  sectorsCollide a b = sectorsCollide b a /\
  checkCollision [b] a (startAngle a) (endAngle a)
  = checkCollision [a] b (startAngle b) (endAngle b).
Proof.
  split; [apply sectorsCollide_sym|]. simpl.
  rewrite (String.eqb_sym (id a) (id b)).
  destruct (String.eqb (id b) (id a)); [reflexivity|].
  rewrite (radiusOverlap_sym b a), (angleOverlap_sym b a).
  reflexivity.
Qed.

(** ** The overlap of the specification *)

Lemma plainb_plain (s : Sector) : plainb s = true <-> plain s.
Proof.
  unfold plainb, plain. rewrite !andb_true_iff, !Qleb_le. tauto.
Qed.

(** Two turns of one angle that both lie in [[0, 2 pi)] are the same
    turn. *)
Lemma same_turn (theta : Q) (k1 k2 : Z) :
  0 <= theta + inject_Z k1 * (2 * PI) -> theta + inject_Z k1 * (2 * PI) < 2 * PI ->
  0 <= theta + inject_Z k2 * (2 * PI) -> theta + inject_Z k2 * (2 * PI) < 2 * PI ->
  k1 = k2.
Proof.
  intros H1 H2 H3 H4. pose proof two_PI_pos as HP.
  assert (Hstep : forall a b : Z, (a < b)%Z ->
            inject_Z a * (2 * PI) + 2 * PI <= inject_Z b * (2 * PI)).
  { intros a b Hab.
    assert (Hz : inject_Z (a + 1) <= inject_Z b) by (rewrite <- Zle_Qle; lia).
    rewrite inject_Z_plus in Hz. change (inject_Z 1) with 1 in Hz.
    apply (Qmult_le_compat_r _ _ (2 * PI)) in Hz; [|lra].
    lra. }
  destruct (Z.lt_trichotomy k1 k2) as [H|[H|H]]; [exfalso|exact H|exfalso].
  - specialize (Hstep _ _ H). lra.
  - specialize (Hstep _ _ H). lra.
Qed.

(** Ranges stored inside one turn, one ending where the other starts or
    before, share no angle modulo 2 pi. *)
Lemma inSpan_apart (theta sa ea sb eb : Q) :
  0 <= sa -> ea <= 2 * PI -> 0 <= sb -> eb <= 2 * PI ->
  ea <= sb \/ eb <= sa ->
  inSpan theta sa ea -> inSpan theta sb eb -> False.
Proof.
  intros Hsa Hea Hsb Heb Hd (k1 & Ha1 & Ha2) (k2 & Hb1 & Hb2).
  assert (k1 = k2) as -> by (apply (same_turn theta); lra).
  lra.
Qed.

Lemma apartb_no_overlap (a b : Sector) :
  plain a -> plain b -> apartb a b = true -> ~ overlap a b.
Proof.
  intros (Ha0 & Ha & Ha2) (Hb0 & Hb & Hb2) H [Hr (theta & Hta & Htb)].
  unfold apartb in H. rewrite Hr in H. cbn [negb orb] in H.
  apply orb_prop in H.
  apply (inSpan_apart theta (startAngle a) (endAngle a) (startAngle b) (endAngle b));
    try assumption.
  destruct H as [H|H]; apply Qleb_le in H; [left | right]; exact H.
Qed.

Lemma allApartb_plainApart (l : list Sector) : allApartb l = true -> plainApart l.
Proof.
  unfold allApartb. rewrite forallb_forall. intros H a b Ha Hb Hne Hpa Hpb.
  specialize (H a Ha). rewrite forallb_forall in H. specialize (H b Hb).
  apply orb_prop in H as [H|H]; [apply orb_prop in H as [H|H]|].
  - apply String.eqb_eq in H. contradiction.
  - apply plainb_plain in Hpa, Hpb. rewrite Hpa, Hpb in H. discriminate.
  - now apply apartb_no_overlap.
Qed.

(** The overlap reads the geometry only. *)
Lemma geometry_sectors (l1 l2 : list Sector) :
  map geometry l1 = map geometry l2 ->
  forall x, In x l1 -> exists y, In y l2 /\ geometry y = geometry x.
Proof.
  intros Hg x Hx. apply (in_map geometry) in Hx. rewrite Hg in Hx.
  apply in_map_iff in Hx. destruct Hx as (y & Hy & Hy'). eauto.
Qed.



Lemma overlapping_geometry (l1 l2 : list Sector) :
  map geometry l1 = map geometry l2 -> overlapping l2 -> overlapping l1.
Proof.
  intros Hg (a & b & Ha & Hb & Hne & Ho).
  destruct (geometry_sectors l2 l1 (eq_sym Hg) a Ha) as (a1 & Ha1 & Ea).
  destruct (geometry_sectors l2 l1 (eq_sym Hg) b Hb) as (b1 & Hb1 & Eb).
  exists a1, b1. repeat split; try assumption.
  - change (id (geometry a1) <> id (geometry b1)). rewrite Ea, Eb. exact Hne.
  - change (radiusOverlap (geometry a1) (geometry b1) = true). rewrite Ea, Eb. apply Ho.
  - change (exists theta,
              inSpan theta (startAngle (geometry a1)) (endAngle (geometry a1)) /\
              inSpan theta (startAngle (geometry b1)) (endAngle (geometry b1))).
    rewrite Ea, Eb. apply Ho.
Qed.

Lemma coveringIds_geometry (l1 l2 : list Sector) (angle distance : Q) :
  map geometry l1 = map geometry l2 ->
  coveringIds l1 angle distance = coveringIds l2 angle distance.
Proof.
  revert l2. induction l1 as [|x l1 IH]; intros [|y l2] Hg; try discriminate; [reflexivity|].
  cbn [map] in Hg.
  assert (Hxy : geometry x = geometry y) by congruence.
  assert (Hg' : map geometry l1 = map geometry l2) by congruence.
  specialize (IH l2 Hg'). unfold coveringIds in *. cbn [List.filter].
  change (coversPoint x angle distance) with (coversPoint (geometry x) angle distance).
  change (coversPoint y angle distance) with (coversPoint (geometry y) angle distance).
  assert (Hid : id x = id y).
  { change (id (geometry x) = id (geometry y)). now rewrite Hxy. }
  rewrite Hxy. destruct (coversPoint (geometry y) angle distance); cbn [map].
  - rewrite Hid. f_equal. exact IH.
  - exact IH.
Qed.

(** ** Ranges that touch *)

(** C3 fails on the code, where the claim is right.  On the scenario of
    the claim, the spans [0, 45] and [45, 90] degrees over the band
    [140, 240], both collision loops answer that the sectors collide,
    although no angle lies in both spans: the comparison of the bounds is
    inclusive.  The stands of the start-up stadium touch their neighbours
    in the same way.  No two of those stored inside one turn overlap, yet
    the loop finds a collision for seven of the eight stands at the very
    place where they stand, and East Upper Tier, released on the main
    canvas at its own mid-angle, is refused: the collection and the drag
    log stay as they were. *)
Theorem touching_sectors_collide (seatsOf : string -> list Seat) :
  sectorsCollide sectorA sectorB = true /\
  checkCollision [sectorA; sectorB] sectorA (startAngle sectorA) (endAngle sectorA) = true /\
  checkCollision [sectorA; sectorB] sectorB (startAngle sectorB) (endAngle sectorB) = true /\
  ~ overlap sectorA sectorB /\
  plainApart (stadium seatsOf) /\
  map id (List.filter
            (fun s => checkCollision (stadium seatsOf) s (startAngle s) (endAngle s))
            (stadium seatsOf))
  = [ "east-upper-tier"; "east-lower-stand"; "family-stand"; "south-kop";
      "west-upper-tier"; "west-lower-stand"; "executive-club" ]%string /\
  dropCollision atan2Q viewC true (upperInPlace seatsOf) = Some true /\
  sectors (handleAdminDragEnd atan2Q viewC true (upperInPlace seatsOf))
  = stadium seatsOf /\
  adminDragHistory (handleAdminDragEnd atan2Q viewC true (upperInPlace seatsOf)) = [].
Proof.
  split; [vm_compute; reflexivity|].
  split; [vm_compute; reflexivity|].
  split; [vm_compute; reflexivity|].
  split.
  { apply apartb_no_overlap; [apply plainb_plain | apply plainb_plain |];
      vm_compute; reflexivity. }
  split; [apply allApartb_plainApart; vm_compute; reflexivity|].
  split; [vm_compute; reflexivity|].
  split; [vm_compute; reflexivity|].
  split; vm_compute; reflexivity.
Qed.

(** ** The angular membership test *)

(** C4 fails on the code, where the claim is right.  The membership test
    of the hit tests adds 2 pi once to a negative value ([if]), where the
    collision loops add it until the value is no longer negative
    ([while]).  On the wrapping range from 350 to 10 degrees, stored as
    (350, 10) or as (-10, 10), the test accepts 0 and 355 degrees (355 also
    given as -5, the way [atan2] reports it) and rejects 180 degrees, as
    claimed.  The same range stored one turn lower, as (-370, -350), keeps
    a negative start after the single addition: the test rejects 355
    degrees, and the hit test finds no sector there, where the
    normalisation by repeated addition accepts it.  A range of 710 degrees
    stored from -525 degrees covers every angle, and the test rejects 270
    degrees. *)
Theorem multi_wrap_range_is_missed :
  angleInRange (deg 0) (deg 350) (deg 10) = true /\
  angleInRange (deg 355) (deg 350) (deg 10) = true /\
  angleInRange (deg 180) (deg 350) (deg 10) = false /\
  angleInRange (deg 0) (deg (-10)) (deg 10) = true /\
  angleInRange (deg (-5)) (deg (-10)) (deg 10) = true /\
  angleInRange (deg 180) (deg (-10)) (deg 10) = false /\
  angleInRange (deg 355) (deg (-370)) (deg (-350)) = false /\
  angleInRange (deg (-5)) (deg (-370)) (deg (-350)) = false /\
  sectorLoop [woundSector] 200 (deg (-5)) = None /\
  angleInRange_repeated (deg 355) (deg (-370)) (deg (-350)) = true /\
  angleInRange_repeated (deg (-5)) (deg (-370)) (deg (-350)) = true /\
  angleInRange_repeated (deg 180) (deg (-370)) (deg (-350)) = false /\
  angleInRange (deg (-90)) (deg (-525)) (deg 185) = false /\
  sectorLoop [wideSector] 200 (deg (-90)) = None /\
  angleInRange_repeated (deg (-90)) (deg (-525)) (deg 185) = true.
Proof. vm_compute. repeat split. Qed.

(** ** Seat regeneration keeps the geometry *)

Lemma handleSectorsUpdate_geometry (cos sin : Q -> Q) (random : nat -> Q)
    (viewState : ViewState) (l : list Sector) :
  forall draws,
    map geometry (fst (handleSectorsUpdate cos sin random viewState l draws))
    = map geometry l.
Proof.
  induction l as [|s l IH]; intros draws; simpl; [reflexivity|].
  destruct (generateSeats cos sin random viewState s draws) as [seats1 draws1].
  specialize (IH draws1).
  destruct (handleSectorsUpdate cos sin random viewState l draws1) as [rest draws2].
  simpl in *. now rewrite IH.
Qed.

Lemma onSectorsUpdate_geometry (cos sin : Q -> Q) (random : nat -> Q)
    (viewState : ViewState) (p : DragDropAdmin.Panel) (updated : list Sector) :
  map geometry (DragDropAdmin.live (DragDropAdmin.onSectorsUpdate cos sin random viewState p updated))
  = map geometry updated /\
  DragDropAdmin.history (DragDropAdmin.onSectorsUpdate cos sin random viewState p updated)
  = DragDropAdmin.history p /\
  DragDropAdmin.historyIndex (DragDropAdmin.onSectorsUpdate cos sin random viewState p updated)
  = DragDropAdmin.historyIndex p.
Proof.
  unfold DragDropAdmin.onSectorsUpdate.
  pose proof (handleSectorsUpdate_geometry cos sin random viewState updated
                (DragDropAdmin.draws p)) as H.
  destruct (handleSectorsUpdate cos sin random viewState updated (DragDropAdmin.draws p))
    as [l d].
  simpl in *. now repeat split.
Qed.

(** ** The newest entry after a push *)

Lemma last_drop_1_snoc {A} (l : list A) (x : A) :
  (1 < length (l ++ [x]))%nat -> last (drop 1 (l ++ [x])) = Some x.
Proof.
  destruct l as [|y l]; simpl; intros H; [lia|]. apply last_snoc.
Qed.

Lemma saveToHistory_last (now : Z) (p : DragDropAdmin.Panel) (newSectors : list Sector) :
  last (DragDropAdmin.history (DragDropAdmin.saveToHistory now p newSectors))
  = Some (DragDropAdmin.mkHistory newSectors now) /\
  DragDropAdmin.live (DragDropAdmin.saveToHistory now p newSectors) = DragDropAdmin.live p.
Proof.
  unfold DragDropAdmin.saveToHistory.
  destruct (50 <? _)%nat eqn:E; simpl.
  - apply Nat.ltb_lt in E. split; [|reflexivity]. apply last_drop_1_snoc. lia.
  - split; [apply last_snoc | reflexivity].
Qed.

(** ** Committed drags keep plain sectors apart *)














(** A slider edit is committed the same way: the start of sector D pulled
    to 10 degrees makes it overlap sector A, at 20 degrees for one. *)
Lemma slider_edit_overlaps :
  ~ overlap sectorA sectorD /\
  exists d', updateSector [sectorA; sectorD] "d" (SetStartAngle 10) = [sectorA; d'] /\
             id d' = "d"%string /\ plain d' /\ overlap sectorA d'.
Proof.
  split.
  - apply apartb_no_overlap; [apply plainb_plain | apply plainb_plain |];
      vm_compute; reflexivity.
  - eexists. split; [reflexivity|]. split; [reflexivity|].
    split; [apply plainb_plain; vm_compute; reflexivity|].
    split; [vm_compute; reflexivity|].
    exists (deg 20). split; exists 0%Z; split; vm_compute; first [reflexivity | discriminate].
Qed.

(** ** Pointer-up over a sector that wraps *)

(** Two sectors of a collection, given by their places, that share an
    angle on overlapping bands. *)
Lemma overlapAtb_overlapping (l : list Sector) (i j : nat) (theta : Q) :
  overlapAtb l i j theta = true -> overlapping l.
Proof.
  unfold overlapAtb.
  destruct (l !! i) as [a|] eqn:Ha; [|discriminate].
  destruct (l !! j) as [b|] eqn:Hb; [|discriminate].
  rewrite !andb_true_iff, negb_true_iff, !Qleb_le, !Qltb_lt.
  intros (((((Hne & Hr) & Ha1) & Ha2) & Hb1) & Hb2). exists a, b.
  split; [apply list_elem_of_In; eapply list_elem_of_lookup_2; exact Ha|].
  split; [apply list_elem_of_In; eapply list_elem_of_lookup_2; exact Hb|].
  split; [now apply String.eqb_neq|]. split; [exact Hr|].
  exists theta. split; exists 0%Z; change (inject_Z 0) with 0; lra.
Qed.

(** What a commit of the drag panel leaves: the moved collection, its
    seats generated anew. *)
Lemma handleMouseUp_commits (cos sin : Q -> Q) (random : nat -> Q)
    (viewState : ViewState) (now : Z) (p : DragDropAdmin.Panel) (dragged : Sector)
    (preview : DragDropAdmin.Position) :
  commits p dragged preview ->
  map geometry (DragDropAdmin.live (DragDropAdmin.handleMouseUp cos sin random viewState now p))
  = map geometry (DragDropAdmin.movedSectors (DragDropAdmin.live p) dragged preview).
Proof.
  intros (Hd & Hs & Hp & Hv). unfold DragDropAdmin.handleMouseUp.
  rewrite Hd, Hs, Hp, Hv. simpl.
  pose proof (saveToHistory_last now
                (DragDropAdmin.onSectorsUpdate cos sin random viewState p
                   (DragDropAdmin.movedSectors (DragDropAdmin.live p) dragged preview))
                (DragDropAdmin.movedSectors (DragDropAdmin.live p) dragged preview))
    as [_ Hlive].
  rewrite Hlive. apply onSectorsUpdate_geometry.
Qed.

(** C2 fails on the code, where the claim is right.  The collision loop
    compares the candidate and the other range as plain intervals after it
    has raised negative bounds by 2 pi, so it misses a candidate that
    wraps past 0.  In the start-up stadium, whatever seats it holds, East
    Lower Stand released over the Premium North Stand gets the candidate
    range from -30 to 30 degrees, which is the range of the North Stand;
    the loop finds no collision and the drag is committed.  This is so for
    the release handler of the main canvas on a preview at angle 0, for
    the page (press, move, one notch of the wheel, release), and for the
    drag panel (press, move along the circle, release): afterwards two
    stands cover the point at angle 0 and distance 200, two sectors of the
    collection overlap, and the drag log holds the collection of before.
    The scenario of the claim itself, a candidate of [35, 65] degrees
    against a sector on [40, 60] degrees, is discarded, on the main canvas
    and in the panel. *)
Theorem wrapping_drop_is_committed (seatsOf : string -> list Seat) (random : nat -> Q) :
  coveringIds (stadium seatsOf) 0 200 = ["premium-north-stand"]%string /\
  dropCollision atan2Q viewC true (lowerOverNorth seatsOf) = Some false /\
  coveringIds (sectors (handleAdminDragEnd atan2Q viewC true (lowerOverNorth seatsOf))) 0 200
  = ["premium-north-stand"; "east-lower-stand"]%string /\
  overlapping (sectors (handleAdminDragEnd atan2Q viewC true (lowerOverNorth seatsOf))) /\
  adminDragHistory (handleAdminDragEnd atan2Q viewC true (lowerOverNorth seatsOf))
  = [stadium seatsOf] /\
  coveringIds
    (sectors (MainCanvas.admin (MainCanvas.state
       (MainCanvas.run sqrtQ atan2Q cosQ sinQ pageCanvas
          (MainCanvas.fresh (appStadium seatsOf)) lowerOntoNorth)))) 0 200
  = ["premium-north-stand"; "east-lower-stand"]%string /\
  (exists p',
     panelRun sqrtQ atan2Q cosQ sinQ random viewC defaultSnapSettings canvasC
       (panelStadium seatsOf) panelLowerOntoNorth = Some p' /\
     coveringIds (DragDropAdmin.live p') 0 200
     = ["premium-north-stand"; "east-lower-stand"]%string /\
     overlapping (DragDropAdmin.live p')) /\
  sectors (handleAdminDragEnd atan2Q viewC false adminDragTo50) = [sectorA30; sectorB4060] /\
  DragDropAdmin.isValidPosition (DragDropAdmin.dragState panelMoved) = false /\
  DragDropAdmin.live (DragDropAdmin.handleMouseUp cosQ sinQ random viewC 1000 panelMoved)
  = [sectorA30; sectorB4060].
Proof.
  split; [vm_compute; reflexivity|].
  split; [vm_compute; reflexivity|].
  split; [vm_compute; reflexivity|].
  split; [apply (overlapAtb_overlapping _ 2 0 0); vm_compute; reflexivity|].
  split; [vm_compute; reflexivity|].
  split; [vm_compute; reflexivity|].
  split; [|repeat split; vm_compute; reflexivity].
  set (held := DragDropAdmin.handleMouseMove sqrtQ atan2Q viewC defaultSnapSettings canvasC
                 (DragDropAdmin.handleMouseDown sqrtQ atan2Q cosQ sinQ viewC canvasC
                    (DragDropAdmin.initHistory 1000 (panelStadium seatsOf)) 400 490)
                 590 300).
  exists (DragDropAdmin.handleMouseUp cosQ sinQ random viewC 2000 held).
  split; [reflexivity|].
  pose proof (handleMouseUp_commits cosQ sinQ random viewC 2000 held
                (default sectorA (DragDropAdmin.draggedSector (DragDropAdmin.dragState held)))
                (default (DragDropAdmin.mkPosition 0 0)
                   (DragDropAdmin.previewPosition (DragDropAdmin.dragState held))))
    as Hg.
  assert (Hc : commits held
                 (default sectorA (DragDropAdmin.draggedSector (DragDropAdmin.dragState held)))
                 (default (DragDropAdmin.mkPosition 0 0)
                    (DragDropAdmin.previewPosition (DragDropAdmin.dragState held))))
    by (repeat split; vm_compute; reflexivity).
  specialize (Hg Hc). split.
  - rewrite (coveringIds_geometry _ _ 0 200 Hg). vm_compute. reflexivity.
  - apply (overlapping_geometry _ _ Hg).
    apply (overlapAtb_overlapping _ 2 0 0). vm_compute. reflexivity.
Qed.

(** ** What a committed drag pushes *)

Lemma saveToAdminHistory_cursor (st : AdminState) (newSectors : list Sector) :
  last (adminDragHistory (saveToAdminHistory st newSectors)) = Some newSectors /\
  at_ (adminDragHistory (saveToAdminHistory st newSectors))
      (adminHistoryIndex (saveToAdminHistory st newSectors)) = Some newSectors.
Proof.
  unfold saveToAdminHistory. simpl.
  set (h := slice0 (adminDragHistory st) (adminHistoryIndex st + 1)).
  split; [apply last_snoc|].
  unfold at_. rewrite length_app. simpl.
  destruct (_ <? 0)%Z eqn:E; [apply Z.ltb_lt in E; lia|].
  replace (Z.to_nat (Z.of_nat (length h + 1) - 1)) with (length h + 0)%nat by lia.
  now rewrite lookup_app_r, Nat.add_0_r, Nat.sub_diag by lia.
Qed.

(** C5 (as the code behaves): on the main canvas a committed drag pushes
    the collection as it was before the commit (the cursor then points at
    that snapshot) and the live collection becomes the moved one; in the drag
    panel a committed drag hands the moved collection to the application
    first and then pushes that moved collection: the snapshot has the
    geometry of the new live collection, not of the one before the commit. *)
Theorem committed_drag_snapshots (atan2 : Q -> Q -> Q) (cos sin : Q -> Q)
    (random : nat -> Q) (viewState : ViewState) (adminShowGrid : bool) (now : Z)
    (st : AdminState) (p : DragDropAdmin.Panel) (dragged : Sector)
    (preview : DragDropAdmin.Position) :
  (dropCollision atan2 viewState adminShowGrid st = Some false ->
   last (adminDragHistory (handleAdminDragEnd atan2 viewState adminShowGrid st))
   = Some (sectors st) /\
   at_ (adminDragHistory (handleAdminDragEnd atan2 viewState adminShowGrid st))
       (adminHistoryIndex (handleAdminDragEnd atan2 viewState adminShowGrid st))
   = Some (sectors st) /\
   exists draggedId draggedSector drop,
     findSector (sectors st) draggedId = Some draggedSector /\
     adminDragPreview st = Some drop /\
     sectors (handleAdminDragEnd atan2 viewState adminShowGrid st)
     = map (fun sector =>
              if String.eqb (id sector) draggedId
              then withAngles sector
                     (dropAngle atan2 viewState adminShowGrid drop
                      - (endAngle draggedSector - startAngle draggedSector) / 2)
                     (dropAngle atan2 viewState adminShowGrid drop
                      + (endAngle draggedSector - startAngle draggedSector) / 2)
              else sector) (sectors st)) /\
  (commits p dragged preview ->
   last (DragDropAdmin.history (DragDropAdmin.handleMouseUp cos sin random viewState now p))
   = Some (DragDropAdmin.mkHistory (DragDropAdmin.movedSectors (DragDropAdmin.live p) dragged preview) now) /\
   map geometry (DragDropAdmin.live (DragDropAdmin.handleMouseUp cos sin random viewState now p))
   = map geometry (DragDropAdmin.movedSectors (DragDropAdmin.live p) dragged preview)).
Proof.
  split.
  - unfold dropCollision, handleAdminDragEnd.
    destruct (truthy (adminDraggedSector st)) as [d|]; [|discriminate].
    destruct (adminDragPreview st) as [pv|]; [|discriminate].
    destruct (findSector (sectors st) d) as [ds|] eqn:Hf; [|discriminate].
    intros H. injection H as ->. simpl.
    destruct (saveToAdminHistory_cursor st (sectors st)) as [Hlast Hat].
    split; [exact Hlast|]. split; [exact Hat|].
    exists d, ds, pv. split; [exact Hf|]. split; reflexivity.
  - intros (Hd & Hs & Hp & Hv). unfold DragDropAdmin.handleMouseUp.
    rewrite Hd, Hs, Hp, Hv. simpl.
    pose proof (saveToHistory_last now
                  (DragDropAdmin.onSectorsUpdate cos sin random viewState p
                     (DragDropAdmin.movedSectors (DragDropAdmin.live p) dragged preview))
                  (DragDropAdmin.movedSectors (DragDropAdmin.live p) dragged preview))
      as [Hl Hlive].
    split; [exact Hl|].
    rewrite Hlive. apply onSectorsUpdate_geometry.
Qed.

(** The preview of a panel, for the runs. *)
Lemma thinMoved_commits :
  exists preview, commits thinMoved thinA preview /\
                  DragDropAdmin.pos_startAngle preview == deg 85 /\
                  DragDropAdmin.pos_endAngle preview == deg 115.
Proof.
  eexists. split; [repeat split; vm_compute; reflexivity|].
  split; vm_compute; reflexivity.
Qed.

(** Both kinds of commit on the scenario: sector A dropped at 90 degrees on
    the main canvas, and dragged to 100 degrees in the panel. *)
Lemma committed_drag_snapshots_witness :
  last (adminDragHistory (handleAdminDragEnd atan2Q view0 true adminDragUp))
  = Some [sectorA; sectorD] /\
  map geometry (DragDropAdmin.live
                  (DragDropAdmin.handleMouseUp cosQ sinQ randomRun viewC 2000 thinMoved))
  = map geometry (DragDropAdmin.movedSectors [thinA; thinB] thinA
                    (default (DragDropAdmin.mkPosition 0 0)
                       (DragDropAdmin.previewPosition (DragDropAdmin.dragState thinMoved)))).
Proof.
  pose proof (committed_drag_snapshots atan2Q cosQ sinQ randomRun viewC true 2000
                adminDragUp thinMoved thinA
                (default (DragDropAdmin.mkPosition 0 0)
                   (DragDropAdmin.previewPosition (DragDropAdmin.dragState thinMoved))))
    as [_ Hpanel].
  pose proof (committed_drag_snapshots atan2Q cosQ sinQ randomRun view0 true 2000
                adminDragUp thinMoved thinA (DragDropAdmin.mkPosition 0 0))
    as [Happ _].
  split.
  - apply Happ. vm_compute. reflexivity.
  - apply Hpanel. repeat split; vm_compute; reflexivity.
Defined.

(** C5 (as stated) fails in the drag panel: after the commit of the first
    drag of the run the newest snapshot holds sector A at [85, 115] degrees,
    the place it was moved to, while before the commit it stood at [0, 30]. *)
Lemma panel_commit_pushes_the_result :
  thinOnce = DragDropAdmin.handleMouseUp cosQ sinQ randomRun viewC 2000 thinMoved /\
  map startAngle (DragDropAdmin.live thinMoved) = [deg 0; deg 40] /\
  (exists snapshot,
     last (DragDropAdmin.history thinOnce) = Some snapshot /\
     Forall2 Qeq (map startAngle (DragDropAdmin.hs_sectors snapshot)) [deg 85; deg 40] /\
     map geometry (DragDropAdmin.hs_sectors snapshot)
     = map geometry (DragDropAdmin.live thinOnce) /\
     map geometry (DragDropAdmin.hs_sectors snapshot)
     <> map geometry (DragDropAdmin.live thinMoved)).
Proof.
  split; [vm_compute; reflexivity|].
  split; [reflexivity|].
  eexists. split; [vm_compute; reflexivity|].
  split; [repeat constructor; vm_compute; reflexivity|].
  split; [vm_compute; reflexivity|].
  intros H. apply (f_equal (map (fun s => Qnum (startAngle s)))) in H.
  vm_compute in H. discriminate H.
Qed.

(** ** The history of the drag panel is capped *)

Lemma slice0_length {A} (l : list A) (e : Z) : (length (slice0 l e) <= length l)%nat.
Proof.
  unfold slice0. destruct (e <? 0)%Z; rewrite length_take; lia.
Qed.

Lemma slice0_all {A} (l : list A) : slice0 l (Z.of_nat (length l) - 1 + 1) = l.
Proof.
  unfold slice0. destruct (_ <? 0)%Z eqn:E; [apply Z.ltb_lt in E; lia|].
  apply take_ge. lia.
Qed.

Lemma saveToHistory_bound (now : Z) (p : DragDropAdmin.Panel) (newSectors : list Sector) :
  (length (DragDropAdmin.history p) <= 50)%nat ->
  (length (DragDropAdmin.history (DragDropAdmin.saveToHistory now p newSectors)) <= 50)%nat.
Proof.
  intros H. unfold DragDropAdmin.saveToHistory.
  pose proof (slice0_length (DragDropAdmin.history p) (DragDropAdmin.historyIndex p + 1)) as Hs.
  destruct (50 <? _)%nat eqn:E; simpl.
  - rewrite length_drop, length_app. simpl. lia.
  - apply Nat.ltb_ge in E. exact E.
Qed.

Lemma pushAll_bound (entries : list (Z * list Sector)) :
  forall p, (length (DragDropAdmin.history p) <= 50)%nat ->
            (length (DragDropAdmin.history (pushAll p entries)) <= 50)%nat.
Proof.
  induction entries as [|e entries IH]; intros p H; simpl; [exact H|].
  apply IH. now apply saveToHistory_bound.
Qed.

Lemma pushAll_snoc (p : DragDropAdmin.Panel) (entries : list (Z * list Sector))
    (e : Z * list Sector) :
  pushAll p (entries ++ [e]) = DragDropAdmin.saveToHistory (fst e) (pushAll p entries) (snd e).
Proof. unfold pushAll. now rewrite fold_left_app. Qed.

(** From the empty stack, a run of pushes leaves the last 50 entries
    pushed, the cursor on the newest. *)
Lemma pushAll_from_empty (entries : list (Z * list Sector)) :
  forall p, DragDropAdmin.history p = [] -> DragDropAdmin.historyIndex p = (-1)%Z ->
    DragDropAdmin.history (pushAll p entries)
    = drop (length entries - 50) (entriesOf entries) /\
    DragDropAdmin.historyIndex (pushAll p entries)
    = (Z.of_nat (length (DragDropAdmin.history (pushAll p entries))) - 1)%Z.
Proof.
  induction entries as [|e entries IH] using rev_ind; intros p Hh Hi.
  - simpl. rewrite Hh, Hi. split; reflexivity.
  - destruct (IH p Hh Hi) as [IHh IHi]. clear IH.
    rewrite pushAll_snoc. unfold DragDropAdmin.saveToHistory.
    set (q := pushAll p entries) in *.
    rewrite IHi, slice0_all.
    assert (HE : length (entriesOf entries) = length entries)
      by (unfold entriesOf; apply length_map).
    assert (Hlen : length (DragDropAdmin.history q) = (length entries - (length entries - 50))%nat)
      by (rewrite IHh, length_drop; lia).
    unfold entriesOf in *. rewrite map_app, !length_app. simpl.
    destruct (50 <? _)%nat eqn:E; simpl.
    + apply Nat.ltb_lt in E. split.
      * rewrite IHh.
        replace (length entries + 1 - 50)%nat with ((length entries - 50) + 1)%nat by lia.
        rewrite <- drop_drop. f_equal.
        rewrite drop_app_le by lia. reflexivity.
      * rewrite length_drop, length_app. simpl. lia.
    + apply Nat.ltb_ge in E. split.
      * rewrite IHh.
        replace (length entries + 1 - 50)%nat with 0%nat by lia.
        replace (length entries - 50)%nat with 0%nat by lia.
        reflexivity.
      * rewrite length_app. simpl. lia.
Qed.

Lemma adminPushAll_length (snapshots : list (list Sector)) :
  forall st,
    adminHistoryIndex st = (Z.of_nat (length (adminDragHistory st)) - 1)%Z ->
    length (adminDragHistory (adminPushAll st snapshots))
    = (length (adminDragHistory st) + length snapshots)%nat /\
    adminHistoryIndex (adminPushAll st snapshots)
    = (Z.of_nat (length (adminDragHistory (adminPushAll st snapshots))) - 1)%Z.
Proof.
  induction snapshots as [|x l IH]; intros st Hi; simpl.
  - split; [lia | exact Hi].
  - destruct (IH (saveToAdminHistory st x)) as [Hl Hc].
    + reflexivity.
    + split; [|exact Hc]. rewrite Hl. unfold saveToAdminHistory. simpl.
      rewrite Hi, slice0_all, length_app. simpl. lia.
Qed.

Lemma at_Some {A} (l : list A) (i : Z) (x : A) :
  at_ l i = Some x -> (0 <= i < Z.of_nat (length l))%Z /\ In x l.
Proof.
  unfold at_. destruct (i <? 0)%Z eqn:E; [discriminate|].
  apply Z.ltb_ge in E. intros H. split.
  - apply lookup_lt_Some in H. lia.
  - apply list_elem_of_In. now apply (list_elem_of_lookup_2 l (Z.to_nat i)).
Qed.

Lemma at_is_Some {A} (l : list A) (i : Z) :
  (0 <= i < Z.of_nat (length l))%Z -> exists x, at_ l i = Some x.
Proof.
  intros H. unfold at_. destruct (i <? 0)%Z eqn:E; [apply Z.ltb_lt in E; lia|].
  apply lookup_lt_is_Some. lia.
Qed.

(** Undo hands back a snapshot that is still in the stack. *)
Lemma handleUndo_reads_history (cos sin : Q -> Q) (random : nat -> Q)
    (viewState : ViewState) (p p1 : DragDropAdmin.Panel) :
  DragDropAdmin.handleUndo cos sin random viewState p = Some p1 ->
  p1 = p \/
  exists h, In h (DragDropAdmin.history p) /\
            map geometry (DragDropAdmin.live p1) = map geometry (DragDropAdmin.hs_sectors h).
Proof.
  unfold DragDropAdmin.handleUndo.
  destruct (0 <? DragDropAdmin.historyIndex p)%Z.
  - destruct (at_ (DragDropAdmin.history p) (DragDropAdmin.historyIndex p - 1))
      as [h|] eqn:Hat; [|discriminate].
    intros H. injection H as <-. right. exists h. split.
    + now apply at_Some in Hat.
    + simpl. apply onSectorsUpdate_geometry.
  - intros H. injection H as <-. now left.
Qed.

(** The history stack of the drag panel is capped at 50 (C6, on the
    stack that has undo and redo).  A run of pushes through [saveToHistory]
    never takes a
    stack of at most 50 entries beyond 50; started on the empty stack, a run
    of [n] pushes leaves exactly the last [min n 50] snapshots pushed (after
    50 + k pushes the k oldest are gone), with the cursor on the newest
    entry, and an undo can only hand back a snapshot still in the stack.  The
    drag log of the main canvas is not capped: every push through
    [saveToAdminHistory] lengthens it by one. *)
Theorem panel_history_capped (cos sin : Q -> Q) (random : nat -> Q)
    (viewState : ViewState) (p : DragDropAdmin.Panel)
    (entries : list (Z * list Sector)) (st : AdminState)
    (snapshots : list (list Sector)) :
  ((length (DragDropAdmin.history p) <= 50)%nat ->
   (length (DragDropAdmin.history (pushAll p entries)) <= 50)%nat) /\
  (DragDropAdmin.history p = [] -> DragDropAdmin.historyIndex p = (-1)%Z ->
   DragDropAdmin.history (pushAll p entries)
   = drop (length entries - 50) (entriesOf entries) /\
   length (DragDropAdmin.history (pushAll p entries)) = Nat.min (length entries) 50 /\
   DragDropAdmin.historyIndex (pushAll p entries)
   = (Z.of_nat (length (DragDropAdmin.history (pushAll p entries))) - 1)%Z) /\
  (forall p1,
     DragDropAdmin.handleUndo cos sin random viewState (pushAll p entries) = Some p1 ->
     p1 = pushAll p entries \/
     exists h, In h (DragDropAdmin.history (pushAll p entries)) /\
               map geometry (DragDropAdmin.live p1)
               = map geometry (DragDropAdmin.hs_sectors h)) /\
  (adminHistoryIndex st = (Z.of_nat (length (adminDragHistory st)) - 1)%Z ->
   length (adminDragHistory (adminPushAll st snapshots))
   = (length (adminDragHistory st) + length snapshots)%nat).
Proof.
  split; [apply pushAll_bound|].
  split.
  - intros Hh Hi. destruct (pushAll_from_empty entries p Hh Hi) as [H1 H2].
    split; [exact H1|]. split; [|exact H2].
    rewrite H1, length_drop. unfold entriesOf. rewrite length_map. lia.
  - split.
    + intros p1. apply handleUndo_reads_history.
    + intros Hi. now apply adminPushAll_length.
Qed.

(** Sixty pushes onto the opened panel, and onto the empty stack. *)
Lemma panel_history_capped_witness :
  (length (DragDropAdmin.history (pushAll thinRest (repeat (3000%Z, [thinA; thinB]) 60))) <= 50)%nat /\
  length (DragDropAdmin.history
            (pushAll (DragDropAdmin.mkPanel [thinA; thinB] 0 DragDropAdmin.idleDrag [] (-1))
                     (repeat (3000%Z, [thinA; thinB]) 60))) = 50%nat.
Proof.
  split.
  - apply (proj1 (panel_history_capped cosQ sinQ randomRun viewC thinRest
                    (repeat (3000%Z, [thinA; thinB]) 60) (adminRest []) [])).
    vm_compute. lia.
  - apply (proj1 (proj2 (panel_history_capped cosQ sinQ randomRun viewC
                    (DragDropAdmin.mkPanel [thinA; thinB] 0 DragDropAdmin.idleDrag [] (-1))
                    (repeat (3000%Z, [thinA; thinB]) 60) (adminRest []) []))
             eq_refl eq_refl).
Defined.

(** C6 on the drag log of the main canvas, which [saveToAdminHistory]
    never trims: 51 pushes leave 51 entries, the cursor on the last. *)
Theorem admin_history_not_capped :
  length (adminDragHistory (adminPushAll (adminRest [sectorA; sectorD])
                              (repeat [sectorA; sectorD] 51))) = 51%nat /\
  adminHistoryIndex (adminPushAll (adminRest [sectorA; sectorD])
                       (repeat [sectorA; sectorD] 51)) = 50%Z.
Proof. vm_compute. split; reflexivity. Qed.

(** ** Undo followed by redo *)

(** C7 (as the code behaves): with the cursor past the first entry and on
    an entry of the stack, undo followed by redo both run, bring the cursor
    back, leave the stack as it was and make the live collection the
    regenerated snapshot under the cursor: every sector has the fields of
    that snapshot, the seats apart, which the application generates anew.
    When the live collection had the geometry of the snapshot under the
    cursor before the undo (as after a commit, an undo or a redo of the
    panel), that geometry is restored. *)
Theorem undo_redo_restores_geometry (cos sin : Q -> Q) (random : nat -> Q)
    (viewState : ViewState) (p : DragDropAdmin.Panel) (h : DragDropAdmin.HistoryState) :
  (0 < DragDropAdmin.historyIndex p)%Z ->
  at_ (DragDropAdmin.history p) (DragDropAdmin.historyIndex p) = Some h ->
  exists p1 p2,
    DragDropAdmin.handleUndo cos sin random viewState p = Some p1 /\
    DragDropAdmin.handleRedo cos sin random viewState p1 = Some p2 /\
    DragDropAdmin.historyIndex p1 = (DragDropAdmin.historyIndex p - 1)%Z /\
    DragDropAdmin.historyIndex p2 = DragDropAdmin.historyIndex p /\
    DragDropAdmin.history p2 = DragDropAdmin.history p /\
    map geometry (DragDropAdmin.live p2) = map geometry (DragDropAdmin.hs_sectors h) /\
    (map geometry (DragDropAdmin.live p) = map geometry (DragDropAdmin.hs_sectors h) ->
     map geometry (DragDropAdmin.live p2) = map geometry (DragDropAdmin.live p)).
Proof.
  intros Hpos Hat.
  destruct (at_Some _ _ _ Hat) as [Hrange _].
  destruct (at_is_Some (DragDropAdmin.history p) (DragDropAdmin.historyIndex p - 1))
    as [h0 Hat0]; [lia|].
  unfold DragDropAdmin.handleUndo.
  apply Z.ltb_lt in Hpos. rewrite Hpos, Hat0.
  destruct (onSectorsUpdate_geometry cos sin random viewState p (DragDropAdmin.hs_sectors h0))
    as (_ & Hh1 & _).
  set (q := DragDropAdmin.onSectorsUpdate cos sin random viewState p
              (DragDropAdmin.hs_sectors h0)) in *.
  eexists. eexists. split; [reflexivity|].
  unfold DragDropAdmin.handleRedo.
  cbn [DragDropAdmin.live DragDropAdmin.history DragDropAdmin.historyIndex].
  rewrite Hh1.
  assert (Hlt : (DragDropAdmin.historyIndex p - 1
                 <? Z.of_nat (length (DragDropAdmin.history p)) - 1)%Z = true)
    by (apply Z.ltb_lt; lia).
  rewrite Hlt.
  replace (DragDropAdmin.historyIndex p - 1 + 1)%Z with (DragDropAdmin.historyIndex p) by lia.
  rewrite Hat.
  set (q1 := DragDropAdmin.mkPanel (DragDropAdmin.live q) (DragDropAdmin.draws q)
               (DragDropAdmin.dragState q) (DragDropAdmin.history p)
               (DragDropAdmin.historyIndex p - 1)).
  destruct (onSectorsUpdate_geometry cos sin random viewState q1 (DragDropAdmin.hs_sectors h))
    as (Hg2 & Hh2 & _).
  split; [reflexivity|].
  cbn [DragDropAdmin.live DragDropAdmin.history DragDropAdmin.historyIndex].
  split; [reflexivity|].
  split; [reflexivity|].
  split; [exact Hh2|].
  split; [exact Hg2|].
  intros Hlive. rewrite Hlive. exact Hg2.
Qed.

(** Undo and redo on the run, the cursor on the second of three entries. *)
Lemma undo_redo_restores_geometry_witness :
  exists p1 p2,
    DragDropAdmin.handleUndo cosQ sinQ randomRun viewC thinUndone = Some p1 /\
    DragDropAdmin.handleRedo cosQ sinQ randomRun viewC p1 = Some p2 /\
    DragDropAdmin.historyIndex p2 = 1%Z /\
    DragDropAdmin.history p2 = DragDropAdmin.history thinUndone /\
    map geometry (DragDropAdmin.live p2) = map geometry (DragDropAdmin.live thinUndone).
Proof.
  destruct (undo_redo_restores_geometry cosQ sinQ randomRun viewC thinUndone
              (default (DragDropAdmin.mkHistory [] 0)
                 (at_ (DragDropAdmin.history thinUndone) 1)))
    as (p1 & p2 & Hu & Hr & _ & Hi & Hh & _ & Hg).
  - reflexivity.
  - vm_compute. reflexivity.
  - exists p1, p2. repeat split; try assumption.
    apply Hg. vm_compute. reflexivity.
Defined.

(** C7 (as stated) fails: on the run, with the cursor on the second of
    three entries, undo and redo both act, and the live collection that
    comes back is not the one before the undo.  Its seats were generated
    anew: free before the undo, they are occupied after the redo. *)
Lemma undo_redo_regenerates_seats :
  DragDropAdmin.handleUndo cosQ sinQ randomRun viewC thinTwice = Some thinUndone /\
  DragDropAdmin.historyIndex thinUndone = 1%Z /\
  length (DragDropAdmin.history thinUndone) = 3%nat /\
  exists p1 p2,
    DragDropAdmin.handleUndo cosQ sinQ randomRun viewC thinUndone = Some p1 /\
    DragDropAdmin.historyIndex p1 = 0%Z /\
    DragDropAdmin.handleRedo cosQ sinQ randomRun viewC p1 = Some p2 /\
    DragDropAdmin.historyIndex p2 = 1%Z /\
    statuses (DragDropAdmin.live thinUndone)
    = [repeat available 9; repeat available 6] /\
    statuses (DragDropAdmin.live p2)
    = [repeat occupied 9; repeat occupied 6] /\
    DragDropAdmin.live p2 <> DragDropAdmin.live thinUndone.
Proof.
  split; [vm_compute; reflexivity|].
  split; [vm_compute; reflexivity|].
  split; [vm_compute; reflexivity|].
  eexists. eexists.
  split; [vm_compute; reflexivity|].
  split; [vm_compute; reflexivity|].
  split; [vm_compute; reflexivity|].
  split; [vm_compute; reflexivity|].
  split; [vm_compute; reflexivity|].
  split; [vm_compute; reflexivity|].
  intros H. apply (f_equal statuses) in H. vm_compute in H. discriminate H.
Qed.

(** ** The live collection follows the cursor *)

Lemma slice0_take {A} (l : list A) (i : Z) :
  (-1 <= i < Z.of_nat (length l))%Z ->
  slice0 l (i + 1) = take (Z.to_nat (i + 1)) l /\
  length (slice0 l (i + 1)) = Z.to_nat (i + 1).
Proof.
  intros H. unfold slice0. destruct (_ <? 0)%Z eqn:E; [apply Z.ltb_lt in E; lia|].
  split; [reflexivity|]. rewrite length_take. lia.
Qed.

Lemma saveToHistory_cursor (now : Z) (p : DragDropAdmin.Panel) (newSectors : list Sector) :
  cursorValid p ->
  at_ (DragDropAdmin.history (DragDropAdmin.saveToHistory now p newSectors))
      (DragDropAdmin.historyIndex (DragDropAdmin.saveToHistory now p newSectors))
  = Some (DragDropAdmin.mkHistory newSectors now) /\
  cursorValid (DragDropAdmin.saveToHistory now p newSectors).
Proof.
  intros [Hi Hl]. unfold DragDropAdmin.saveToHistory, cursorValid.
  destruct (slice0_take (DragDropAdmin.history p) (DragDropAdmin.historyIndex p) Hi)
    as [_ Hlen].
  set (h := slice0 (DragDropAdmin.history p) (DragDropAdmin.historyIndex p + 1)) in *.
  destruct (50 <? _)%nat eqn:E;
    cbn [DragDropAdmin.history DragDropAdmin.historyIndex].
  - apply Nat.ltb_lt in E. rewrite length_app in E. simpl in E.
    rewrite length_drop, length_app. simpl.
    split; [|lia].
    unfold at_. destruct (_ <? 0)%Z eqn:E2; [apply Z.ltb_lt in E2; lia|].
    rewrite lookup_drop, lookup_app_r by lia.
    replace (1 + Z.to_nat (DragDropAdmin.historyIndex p) - length h)%nat with 0%nat by lia.
    reflexivity.
  - apply Nat.ltb_ge in E. rewrite length_app in *. simpl in *.
    split; [|lia].
    unfold at_. destruct (_ <? 0)%Z eqn:E2; [apply Z.ltb_lt in E2; lia|].
    rewrite lookup_app_r by lia.
    replace (Z.to_nat (DragDropAdmin.historyIndex p + 1) - length h)%nat with 0%nat by lia.
    reflexivity.
Qed.

(** After a commit, an undo or a redo in the drag panel the live
    collection has the geometry of the snapshot under the cursor. *)
Theorem panel_tracks_cursor (cos sin : Q -> Q) (random : nat -> Q)
    (viewState : ViewState) (now : Z) (p : DragDropAdmin.Panel) :
  (forall dragged preview,
     commits p dragged preview -> cursorValid p ->
     tracksCursor (DragDropAdmin.handleMouseUp cos sin random viewState now p)) /\
  (forall p1,
     tracksCursor p -> DragDropAdmin.handleUndo cos sin random viewState p = Some p1 ->
     tracksCursor p1) /\
  (forall p1,
     tracksCursor p -> DragDropAdmin.handleRedo cos sin random viewState p = Some p1 ->
     tracksCursor p1).
Proof.
  split; [|split].
  - intros dragged preview (Hd & Hs & Hp & Hv) Hc.
    unfold DragDropAdmin.handleMouseUp. rewrite Hd, Hs, Hp, Hv.
    set (u := DragDropAdmin.movedSectors (DragDropAdmin.live p) dragged preview).
    destruct (onSectorsUpdate_geometry cos sin random viewState p u) as (Hg & Hh & Hi).
    set (q := DragDropAdmin.onSectorsUpdate cos sin random viewState p u) in *.
    assert (Hq : cursorValid q) by (unfold cursorValid; rewrite Hh, Hi; exact Hc).
    destruct (saveToHistory_cursor now q u Hq) as [Hat _].
    destruct (saveToHistory_last now q u) as [_ Hlive].
    exists (DragDropAdmin.mkHistory u now).
    unfold DragDropAdmin.withDragState.
    cbn [DragDropAdmin.history DragDropAdmin.historyIndex DragDropAdmin.live
         DragDropAdmin.hs_sectors].
    split; [exact Hat|]. rewrite Hlive. exact Hg.
  - intros p1 Ht. unfold DragDropAdmin.handleUndo.
    destruct (0 <? DragDropAdmin.historyIndex p)%Z; [|intros H; now injection H as <-].
    destruct (at_ (DragDropAdmin.history p) (DragDropAdmin.historyIndex p - 1))
      as [h|] eqn:Hat; [|discriminate].
    intros H. injection H as <-. exists h.
    destruct (onSectorsUpdate_geometry cos sin random viewState p (DragDropAdmin.hs_sectors h))
      as (Hg & Hh & _).
    cbn [DragDropAdmin.history DragDropAdmin.historyIndex DragDropAdmin.live].
    rewrite Hh. split; [exact Hat | exact Hg].
  - intros p1 Ht. unfold DragDropAdmin.handleRedo.
    destruct (_ <? _)%Z; [|intros H; now injection H as <-].
    destruct (at_ (DragDropAdmin.history p) (DragDropAdmin.historyIndex p + 1))
      as [h|] eqn:Hat; [|discriminate].
    intros H. injection H as <-. exists h.
    destruct (onSectorsUpdate_geometry cos sin random viewState p (DragDropAdmin.hs_sectors h))
      as (Hg & Hh & _).
    cbn [DragDropAdmin.history DragDropAdmin.historyIndex DragDropAdmin.live].
    rewrite Hh. split; [exact Hat | exact Hg].
Qed.

(** The first commit of the run. *)
Lemma panel_tracks_cursor_witness :
  tracksCursor (DragDropAdmin.handleMouseUp cosQ sinQ randomRun viewC 2000 thinMoved).
Proof.
  apply (proj1 (panel_tracks_cursor cosQ sinQ randomRun viewC 2000 thinMoved) thinA
           (default (DragDropAdmin.mkPosition 0 0)
              (DragDropAdmin.previewPosition (DragDropAdmin.dragState thinMoved)))).
  - repeat split; vm_compute; reflexivity.
  - unfold cursorValid. vm_compute. repeat split; first [discriminate | reflexivity | lia].
Defined.

(** ** Wheel zoom *)

Lemma clamp_range (x : Q) :
  (1 # 2) <= Math_max (1 # 2) (Math_min 20 x) /\ Math_max (1 # 2) (Math_min 20 x) <= 20.
Proof.
  unfold Math_max, Math_min.
  destruct (Qltb x 20) eqn:E1.
  - apply Qltb_lt in E1.
    destruct (Qltb (1 # 2) x) eqn:E2.
    + apply Qltb_lt in E2. split; lra.
    + split; lra.
  - change (Qltb (1 # 2) 20) with true. cbv iota. split; lra.
Qed.

Lemma clamp_inside (x : Q) :
  (1 # 2) <= x -> x <= 20 -> Math_max (1 # 2) (Math_min 20 x) == x.
Proof.
  intros Hlo Hhi. unfold Math_max, Math_min.
  destruct (Qltb x 20) eqn:E1.
  - destruct (Qltb (1 # 2) x) eqn:E2; [reflexivity|].
    apply Qltb_ge in E2. lra.
  - apply Qltb_ge in E1. change (Qltb (1 # 2) 20) with true. cbv iota. lra.
Qed.

(** In exact arithmetic, away from the zoom limits ([scale * factor]
    within [0.5, 20]), the wheel sets the scale to [scale * factor] and
    keeps the world point under the pointer of the wheel event where it
    was. *)
Lemma handleWheel_anchored (canvas : Canvas) (v : ViewState) (e : WheelEvent) :
  0 < scale v ->
  (1 # 2) <= scale v * scaleFactorOf e -> scale v * scaleFactorOf e <= 20 ->
  scale (handleWheel canvas v e) == scale v * scaleFactorOf e /\
  px (screenToWorld (handleWheel canvas v e) (px (wheelPointer canvas e)) (py (wheelPointer canvas e)))
  == px (screenToWorld v (px (wheelPointer canvas e)) (py (wheelPointer canvas e))) /\
  py (screenToWorld (handleWheel canvas v e) (px (wheelPointer canvas e)) (py (wheelPointer canvas e)))
  == py (screenToWorld v (px (wheelPointer canvas e)) (py (wheelPointer canvas e))).
Proof.
  intros Hs Hlo Hhi.
  assert (Hf : 0 < scaleFactorOf e)
    by (unfold scaleFactorOf; destruct (Qgtb (deltaY e) 0); reflexivity).
  pose proof (clamp_inside _ Hlo Hhi) as Hc.
  unfold handleWheel, screenToWorld, wheelPointer. fold (scaleFactorOf e). simpl.
  split; [exact Hc|].
  split; rewrite Hc; field; split; lra.
Qed.

(** The scale a wheel event leaves is within the zoom limits. *)
Theorem wheel_scale_clamped (canvas : Canvas) (v : ViewState) (e : WheelEvent) :
  (1 # 2) <= scale (handleWheel canvas v e) /\ scale (handleWheel canvas v e) <= 20.
Proof. unfold handleWheel. simpl. apply clamp_range. Qed.

(** C8 at the upper zoom limit: the scale stays 20 and the offset still
    moves by the raw factor, so the world point under the pointer changes
    from 5 to 5.25 on both axes. *)
Theorem wheel_at_zoom_limit_drifts :
  scale (handleWheel pageCanvas viewMax wheelIn) == 20 /\
  offsetX (handleWheel pageCanvas viewMax wheelIn) == -5 /\
  px (screenToWorld viewMax 100 100) == 5 /\
  px (screenToWorld (handleWheel pageCanvas viewMax wheelIn) 100 100) == 21 # 4 /\
  py (screenToWorld viewMax 100 100) == 5 /\
  py (screenToWorld (handleWheel pageCanvas viewMax wheelIn) 100 100) == 21 # 4.
Proof. vm_compute. repeat split. Qed.

(** ** Zoom gates of the hit tests *)

(** C9 fails on the code, where the claim is right.  The drawing shows
    the seats only above scale 2 and the hit test of the sectors returns
    nothing above scale 3, but [getSeatAtPosition] has no gate.  At scale 1,
    the zoom of the start-up view, the seats of the north stand are not
    drawn; the pointer at (600, 300) still hits the first seat, and the
    sector as well, so both hit tests answer at the same zoom; a move
    there records the seat and the sector as hovered, and a press selects
    the seat and puts it in the cart. *)
Theorem hidden_seat_is_hit :
  scale (MainCanvas.viewState appSeats) == 1 /\
  seatsDrawn (MainCanvas.viewState appSeats) = false /\
  outlinesDrawn (MainCanvas.viewState appSeats) = true /\
  getSeatAtPosition sqrtQ viewC northStand 600 300 = Some northSeat /\
  option_map id (getSectorAtPosition sqrtQ atan2Q viewC northStand 600 300)
  = Some "north"%string /\
  MainCanvas.hoveredSeat
    (MainCanvas.state (MainCanvas.step sqrtQ atan2Q cosQ sinQ pageCanvas
                         (MainCanvas.fresh appSeats) (MainCanvas.MouseMove 600 300)))
  = Some northSeat /\
  option_map id
    (MainCanvas.hoveredSector
       (MainCanvas.state (MainCanvas.step sqrtQ atan2Q cosQ sinQ pageCanvas
                            (MainCanvas.fresh appSeats) (MainCanvas.MouseMove 600 300))))
  = Some "north"%string /\
  MainCanvas.selection
    (MainCanvas.state (MainCanvas.step sqrtQ atan2Q cosQ sinQ pageCanvas
                         (MainCanvas.fresh appSeats) (MainCanvas.MouseDown 600 300)))
  = mkSelection [northSeat] [mkItem northSeat 1].
Proof. vm_compute. repeat split. Qed.

(** ** Selection and cart *)

(** C10 fails on the code, where the claim is right.  [handleSeatClick]
    toggles on the selection its listener closes over, and [selectedSeats]
    is not a dependency of the effect that registers the listeners: a
    click does not renew them.  From the empty selection and the empty
    cart, two clicks on the same free seat leave the seat twice in the
    selection and two cart items with its id, while the registered
    listeners still hold the empty selection. *)
Theorem second_click_adds_the_seat_again :
  MainCanvas.selection appSeats = emptySelection /\
  selectedSeats (MainCanvas.selection (MainCanvas.state
    (MainCanvas.run sqrtQ atan2Q cosQ sinQ pageCanvas (MainCanvas.fresh appSeats) twoClicks)))
  = [northSeat; northSeat] /\
  cart (MainCanvas.selection (MainCanvas.state
    (MainCanvas.run sqrtQ atan2Q cosQ sinQ pageCanvas (MainCanvas.fresh appSeats) twoClicks)))
  = [mkItem northSeat 1; mkItem northSeat 1] /\
  cartCount (seat_id northSeat)
    (cart (MainCanvas.selection (MainCanvas.state
       (MainCanvas.run sqrtQ atan2Q cosQ sinQ pageCanvas (MainCanvas.fresh appSeats) twoClicks))))
  = 2%nat /\
  selectedSeats (MainCanvas.selection (MainCanvas.listeners
    (MainCanvas.run sqrtQ atan2Q cosQ sinQ pageCanvas (MainCanvas.fresh appSeats) twoClicks)))
  = [].
Proof. vm_compute. repeat split. Qed.

(** ** The canvas listeners *)

Ltac branches :=
  repeat match goal with
         | |- context [if ?b then _ else _] => destruct b eqn:?
         | |- context [match ?x with _ => _ end] => destruct x eqn:?
         end.

(** What one event can do to the selection and the cart. *)
Lemma step_selection (sqrt : Q -> Q) (atan2 : Q -> Q -> Q) (cos sin : Q -> Q)
    (canvas : Canvas) (pg : MainCanvas.Page) (ev : MainCanvas.Event) :
  let sel := MainCanvas.selection (MainCanvas.state pg) in
  let sel' := MainCanvas.selection
                (MainCanvas.state (MainCanvas.step sqrt atan2 cos sin canvas pg ev)) in
  sel' = sel \/
  (exists seat, MainCanvas.selectable seat = true /\
     sel' = mkSelection (selectedSeats sel ++ [seat]) (cart sel ++ [mkItem seat 1])) \/
  (exists seatId, sel' = removeFromCart seatId sel) \/
  sel' = mkSelection [] [].
Proof.
  destruct pg as [s c]. destruct s as [v [ss ct] hs hsec dr ds m g a].
  destruct ev; cbn -[MainCanvas.depsChanged].
  - left. reflexivity.
  - unfold MainCanvas.handleMouseDown, MainCanvas.handleSeatClick, MainCanvas.handleAdminDragStart.
    branches; cbn; eauto 6.
  - unfold MainCanvas.handleMouseMove, MainCanvas.handleAdminDragMove.
    branches; cbn; eauto.
  - unfold MainCanvas.handleMouseUp, MainCanvas.handleAdminDragEnd.
    branches; cbn; eauto.
  - eauto.
  - unfold MainCanvas.handleKeyDownEscape. branches; cbn; eauto.
  - eauto.
  - eauto.
  - eauto.
  - right; right; left. eexists. reflexivity.
  - right; right; right. reflexivity.
Qed.

Lemma run_invariant (sqrt : Q -> Q) (atan2 : Q -> Q -> Q) (cos sin : Q -> Q)
    (canvas : Canvas) (P : MainCanvas.Page -> Prop) :
  (forall pg ev, P pg -> P (MainCanvas.step sqrt atan2 cos sin canvas pg ev)) ->
  forall events pg, P pg -> P (MainCanvas.run sqrt atan2 cos sin canvas pg events).
Proof.
  intros Hstep events. unfold MainCanvas.run.
  induction events as [|ev events IH]; intros pg HP; [exact HP|].
  cbn. apply IH, Hstep, HP.
Qed.

Lemma run_app (sqrt : Q -> Q) (atan2 : Q -> Q -> Q) (cos sin : Q -> Q)
    (canvas : Canvas) (pg : MainCanvas.Page) (l1 l2 : list MainCanvas.Event) :
  MainCanvas.run sqrt atan2 cos sin canvas pg (l1 ++ l2)
  = MainCanvas.run sqrt atan2 cos sin canvas
      (MainCanvas.run sqrt atan2 cos sin canvas pg l1) l2.
Proof. unfold MainCanvas.run. apply fold_left_app. Qed.

(** *** The cart mirrors the selection *)

Lemma filter_mirror (seatId : string) (l : list Seat) :
  List.filter (fun item => negb (String.eqb (seat_id (item_seat item)) seatId))
              (map (fun s => mkItem s 1) l)
  = map (fun s => mkItem s 1)
        (List.filter (fun s => negb (String.eqb (seat_id s) seatId)) l).
Proof.
  induction l as [|s l IH]; [reflexivity|].
  cbn. destruct (negb (String.eqb (seat_id s) seatId)); cbn; rewrite IH; reflexivity.
Qed.

Lemma step_cartMirrors (sqrt : Q -> Q) (atan2 : Q -> Q -> Q) (cos sin : Q -> Q)
    (canvas : Canvas) (pg : MainCanvas.Page) (ev : MainCanvas.Event) :
  cartMirrors (MainCanvas.selection (MainCanvas.state pg)) ->
  cartMirrors (MainCanvas.selection
                 (MainCanvas.state (MainCanvas.step sqrt atan2 cos sin canvas pg ev))).
Proof.
  intros H.
  destruct (step_selection sqrt atan2 cos sin canvas pg ev)
    as [E | [(seat & _ & E) | [(seatId & E) | E]]]; rewrite E; clear E.
  - exact H.
  - unfold cartMirrors in *. cbn. rewrite H, map_app. reflexivity.
  - unfold cartMirrors in *. cbn. rewrite H. apply filter_mirror.
  - reflexivity.
Qed.

Lemma totalSeats_mirror (l : list Seat) (acc : Z) :
  fold_left (fun sum item => (sum + quantity item)%Z) (map (fun s => mkItem s 1) l) acc
  = (acc + Z.of_nat (length l))%Z.
Proof.
  revert acc. induction l as [|s l IH]; intros acc; cbn [map fold_left length].
  - lia.
  - rewrite IH. cbn [quantity]. lia.
Qed.

Lemma totalPrice_mirror (l : list Seat) (acc : Q) :
  fold_left (fun sum item => sum + seat_price (item_seat item) * inject_Z (quantity item))
            (map (fun s => mkItem s 1) l) acc
  == acc + priceSum l.
Proof.
  revert acc. induction l as [|s l IH]; intros acc; cbn [map fold_left priceSum fold_right].
  - lra.
  - rewrite IH. cbn [quantity item_seat]. unfold priceSum.
    change (inject_Z 1) with 1. lra.
Qed.

(** X8. After every run of events the cart is the list of the selected
    seats, one item of quantity 1 each, so the counter of the cart is the
    number of selected seats and the total is the sum of their prices. *)
Theorem cart_mirrors_selection (sqrt : Q -> Q) (atan2 : Q -> Q -> Q) (cos sin : Q -> Q)
    (canvas : Canvas) (pg : MainCanvas.Page) (events : list MainCanvas.Event) :
  cartMirrors (MainCanvas.selection (MainCanvas.state pg)) ->
  let sel := MainCanvas.selection
               (MainCanvas.state (MainCanvas.run sqrt atan2 cos sin canvas pg events)) in
  cartMirrors sel /\
  totalSeats (cart sel) = Z.of_nat (length (selectedSeats sel)) /\
  totalPrice (cart sel) == priceSum (selectedSeats sel).
Proof.
  intros H sel.
  assert (Hm : cartMirrors sel).
  { unfold sel.
    apply (run_invariant sqrt atan2 cos sin canvas
             (fun pg => cartMirrors (MainCanvas.selection (MainCanvas.state pg))));
      [|exact H].
    intros pg' ev. apply step_cartMirrors. }
  split; [exact Hm|]. unfold totalSeats, totalPrice. rewrite Hm. split.
  - rewrite totalSeats_mirror. lia.
  - rewrite totalPrice_mirror. lra.
Qed.

(** Two clicks on a seat and a removal from the cart. *)
Lemma cart_mirrors_selection_witness :
  let sel := MainCanvas.selection (MainCanvas.state
               (MainCanvas.run sqrtQ atan2Q cosQ sinQ pageCanvas (MainCanvas.fresh appSeats)
                  [MainCanvas.MouseDown 600 300; MainCanvas.MouseUp;
                   MainCanvas.MouseDown 600 300; MainCanvas.ClickRemove "north-0-5"])) in
  cartMirrors sel /\
  totalSeats (cart sel) = Z.of_nat (length (selectedSeats sel)) /\
  totalPrice (cart sel) == priceSum (selectedSeats sel).
Proof.
  apply (cart_mirrors_selection sqrtQ atan2Q cosQ sinQ pageCanvas (MainCanvas.fresh appSeats)).
  reflexivity.
Defined.

(** *** Only free seats are selected *)





(** *** The listeners see the current dependencies *)


Lemma applyAll_switches (updates : list MainCanvas.Update) (s : MainCanvas.AppState) :
  MainCanvas.adminDragMode (MainCanvas.applyAll s updates) = MainCanvas.adminDragMode s /\
  MainCanvas.adminShowGrid (MainCanvas.applyAll s updates) = MainCanvas.adminShowGrid s.
Proof.
  revert s. unfold MainCanvas.applyAll.
  induction updates as [|u updates IH]; intros s; [cbn; auto|].
  cbn [fold_left]. destruct (IH (MainCanvas.applyUpdate s u)) as [-> ->].
  destruct u; cbn; auto.
Qed.



(** *** Zoom and pan *)

Lemma step_viewState (sqrt : Q -> Q) (atan2 : Q -> Q -> Q) (cos sin : Q -> Q)
    (canvas : Canvas) (pg : MainCanvas.Page) (ev : MainCanvas.Event) :
  let v := MainCanvas.viewState (MainCanvas.state pg) in
  let v' := MainCanvas.viewState
              (MainCanvas.state (MainCanvas.step sqrt atan2 cos sin canvas pg ev)) in
  centerX v' = centerX v /\ centerY v' = centerY v /\
  (scale v' = scale v \/
   (exists x, scale v' = Math_max (1 # 2) (Math_min 20 x)) \/
   scale v' = Math_min 20 (scale v * (11 # 10)) \/
   scale v' = Math_max (1 # 2) (scale v * (9 # 10)) \/
   scale v' = 1).
Proof.
  destruct pg as [s c]. destruct s as [v sel hs hsec dr ds m g a].
  destruct ev; cbn -[MainCanvas.depsChanged].
  - cbn. eauto 7.
  - unfold MainCanvas.handleMouseDown, MainCanvas.handleSeatClick,
      MainCanvas.handleAdminDragStart.
    branches; cbn; auto.
  - unfold MainCanvas.handleMouseMove, MainCanvas.handleAdminDragMove.
    branches; cbn; auto.
  - unfold MainCanvas.handleMouseUp, MainCanvas.handleAdminDragEnd.
    branches; cbn; auto.
  - auto.
  - unfold MainCanvas.handleKeyDownEscape. branches; cbn; auto.
  - cbn. auto 7.
  - cbn. auto 7.
  - cbn. auto 7.
  - auto.
  - auto.
Qed.

(** X10. No sequence of events takes the scale out of [0.5, 20] or moves
    the centre of the venue. *)
Theorem view_scale_stays_in_range (sqrt : Q -> Q) (atan2 : Q -> Q -> Q)
    (cos sin : Q -> Q) (canvas : Canvas) (pg : MainCanvas.Page)
    (events : list MainCanvas.Event) :
  (1 # 2) <= scale (MainCanvas.viewState (MainCanvas.state pg)) ->
  scale (MainCanvas.viewState (MainCanvas.state pg)) <= 20 ->
  let v := MainCanvas.viewState (MainCanvas.state pg) in
  let v' := MainCanvas.viewState
              (MainCanvas.state (MainCanvas.run sqrt atan2 cos sin canvas pg events)) in
  (1 # 2) <= scale v' /\ scale v' <= 20 /\
  centerX v' = centerX v /\ centerY v' = centerY v.
Proof.
  intros Hlo Hhi v v'. subst v v'.
  set (cx := centerX (MainCanvas.viewState (MainCanvas.state pg))).
  set (cy := centerY (MainCanvas.viewState (MainCanvas.state pg))).
  apply (run_invariant sqrt atan2 cos sin canvas
           (fun q => (1 # 2) <= scale (MainCanvas.viewState (MainCanvas.state q)) /\
                     scale (MainCanvas.viewState (MainCanvas.state q)) <= 20 /\
                     centerX (MainCanvas.viewState (MainCanvas.state q)) = cx /\
                     centerY (MainCanvas.viewState (MainCanvas.state q)) = cy));
    [|repeat split; assumption].
  clear. intros q ev (Hlo & Hhi & Hx & Hy).
  destruct (step_viewState sqrt atan2 cos sin canvas q ev) as (Ex & Ey & Hs).
  cbn zeta in *. rewrite Ex, Ey.
  assert (Hr : (1 # 2) <=
               scale (MainCanvas.viewState
                        (MainCanvas.state (MainCanvas.step sqrt atan2 cos sin canvas q ev)))
               <= 20).
  { destruct Hs as [E | [(x & E) | [E | [E | E]]]]; rewrite E.
    - split; assumption.
    - apply clamp_range.
    - unfold Math_min. destruct (Qltb _ _) eqn:E1.
      + apply Qltb_lt in E1. split; lra.
      + split; lra.
    - unfold Math_max. destruct (Qltb _ _) eqn:E1.
      + apply Qltb_lt in E1. split; lra.
      + apply Qltb_ge in E1. split; lra.
    - split; lra. }
  destruct Hr. repeat split; assumption.
Qed.

(** The zoom buttons, a wheel notch and the reset. *)
Lemma view_scale_stays_in_range_witness :
  let v' := MainCanvas.viewState (MainCanvas.state
              (MainCanvas.run sqrtQ atan2Q cosQ sinQ pageCanvas (MainCanvas.fresh appSeats)
                 [MainCanvas.ClickZoomIn; MainCanvas.Wheel wheelIn;
                  MainCanvas.ClickZoomOut; MainCanvas.ClickResetView])) in
  (1 # 2) <= scale v' /\ scale v' <= 20 /\ centerX v' = 400 /\ centerY v' = 300.
Proof.
  apply (view_scale_stays_in_range sqrtQ atan2Q cosQ sinQ pageCanvas
           (MainCanvas.fresh appSeats)); vm_compute; discriminate.
Defined.

(** *** What the release of a drag reads *)

Lemma render_keep (pg : MainCanvas.Page) (updates : list MainCanvas.Update) :
  existsb MainCanvas.storesObject updates = false ->
  MainCanvas.isDragging (MainCanvas.applyAll (MainCanvas.state pg) updates)
  = MainCanvas.isDragging (MainCanvas.state pg) ->
  adminDraggedSector (MainCanvas.admin (MainCanvas.applyAll (MainCanvas.state pg) updates))
  = adminDraggedSector (MainCanvas.admin (MainCanvas.state pg)) ->
  MainCanvas.render pg updates
  = MainCanvas.mkPage (MainCanvas.applyAll (MainCanvas.state pg) updates)
                      (MainCanvas.listeners pg).
Proof.
  intros H1 H2 H3. unfold MainCanvas.render, MainCanvas.depsChanged.
  destruct (applyAll_switches updates (MainCanvas.state pg)) as [-> ->].
  rewrite H1, H2, H3, !eqb_reflx, bool_decide_eq_true_2 by reflexivity.
  reflexivity.
Qed.

Lemma press_previewUnseen (sqrt : Q -> Q) (atan2 : Q -> Q -> Q) (cos sin : Q -> Q)
    (canvas : Canvas) (s : MainCanvas.AppState) (eX eY : Q) :
  adminDragPreview (MainCanvas.admin s) = None ->
  let pg := MainCanvas.step sqrt atan2 cos sin canvas (MainCanvas.fresh s)
              (MainCanvas.MouseDown eX eY) in
  previewUnseen pg /\ layout (MainCanvas.state pg) = layout s.
Proof.
  intros Hp. destruct s as [v sel hs hsec dr ds m g a]. cbn in Hp.
  unfold previewUnseen, layout, MainCanvas.step, MainCanvas.render,
    MainCanvas.handleMouseDown, MainCanvas.handleSeatClick, MainCanvas.handleAdminDragStart.
  cbn -[MainCanvas.depsChanged].
  branches; cbn; rewrite ?Hp; repeat split; auto.
  match goal with
  | H : MainCanvas.depsChanged _ _ _ = false |- _ => cbn in H; discriminate
  end.
Qed.

Lemma move_previewUnseen (sqrt : Q -> Q) (atan2 : Q -> Q -> Q) (cos sin : Q -> Q)
    (canvas : Canvas) (pg : MainCanvas.Page) (eX eY : Q) :
  previewUnseen pg ->
  let pg' := MainCanvas.step sqrt atan2 cos sin canvas pg (MainCanvas.MouseMove eX eY) in
  previewUnseen pg' /\ layout (MainCanvas.state pg') = layout (MainCanvas.state pg).
Proof.
  intros (Hc & Hm & Hd & Hs).
  destruct pg as [s c]. cbn [MainCanvas.listeners MainCanvas.state] in *.
  unfold MainCanvas.step. cbn [MainCanvas.listeners MainCanvas.state].
  unfold MainCanvas.handleMouseMove.
  destruct (MainCanvas.adminDragMode c && MainCanvas.truthyb (adminDraggedSector (MainCanvas.admin c)))
    eqn:Hdrag.
  - (* the move of a sector drag: the listeners stay *)
    rewrite render_keep.
    + unfold previewUnseen, layout. cbn [MainCanvas.listeners MainCanvas.state].
      rewrite Hdrag.
      unfold MainCanvas.handleAdminDragMove. branches; cbn; repeat split; auto; discriminate.
    + unfold MainCanvas.handleAdminDragMove. branches; reflexivity.
    + unfold MainCanvas.handleAdminDragMove. branches; reflexivity.
    + unfold MainCanvas.handleAdminDragMove. branches; reflexivity.
  - specialize (Hs eq_refl).
    unfold MainCanvas.render.
    destruct s as [v sel hs hsec dr ds m g a].
    destruct c as [cv csel chs chsec cdr cds cm cg ca].
    cbn in Hc, Hm, Hd, Hs, Hdrag. subst cm.
    unfold previewUnseen, layout.
    branches; cbn; rewrite ?Hc, ?Hs, ?Hd, ?Hdrag; repeat split; auto.
Qed.

Lemma moves_previewUnseen (sqrt : Q -> Q) (atan2 : Q -> Q -> Q) (cos sin : Q -> Q)
    (canvas : Canvas) (moves : list (Q * Q)) (pg : MainCanvas.Page) :
  previewUnseen pg ->
  let pg' := MainCanvas.run sqrt atan2 cos sin canvas pg
               (map (fun m => MainCanvas.MouseMove (fst m) (snd m)) moves) in
  previewUnseen pg' /\ layout (MainCanvas.state pg') = layout (MainCanvas.state pg).
Proof.
  revert pg. induction moves as [|[mx my] moves IH]; intros pg H; [split; auto|].
  cbn [map MainCanvas.run fold_left fst snd].
  destruct (move_previewUnseen sqrt atan2 cos sin canvas pg mx my H) as [H1 H2].
  destruct (IH _ H1) as [H3 H4]. split; [exact H3|].
  unfold MainCanvas.run in H4. rewrite H4. exact H2.
Qed.

Lemma release_previewUnseen (sqrt : Q -> Q) (atan2 : Q -> Q -> Q) (cos sin : Q -> Q)
    (canvas : Canvas) (pg : MainCanvas.Page) :
  previewUnseen pg ->
  layout (MainCanvas.state (MainCanvas.step sqrt atan2 cos sin canvas pg MainCanvas.MouseUp))
  = layout (MainCanvas.state pg).
Proof.
  intros (Hc & _). destruct pg as [s c]. cbn [MainCanvas.listeners] in Hc.
  unfold layout, MainCanvas.step, MainCanvas.render, MainCanvas.handleMouseUp,
    MainCanvas.handleAdminDragEnd.
  cbn [MainCanvas.listeners MainCanvas.state]. rewrite Hc.
  branches; reflexivity.
Qed.

(** X12. A sector pressed, moved and released on the main canvas, with the
    pointer events alone, is never moved: the release handler reads the
    preview of the render in which the listeners were registered, and that
    render precedes every move. *)
Theorem canvas_drag_release_discards (sqrt : Q -> Q) (atan2 : Q -> Q -> Q)
    (cos sin : Q -> Q) (canvas : Canvas) (s : MainCanvas.AppState) (eX eY : Q)
    (moves : list (Q * Q)) :
  adminDragPreview (MainCanvas.admin s) = None ->
  let pg := MainCanvas.run sqrt atan2 cos sin canvas (MainCanvas.fresh s)
              (MainCanvas.MouseDown eX eY
               :: map (fun m => MainCanvas.MouseMove (fst m) (snd m)) moves
               ++ [MainCanvas.MouseUp]) in
  sectors (MainCanvas.admin (MainCanvas.state pg)) = sectors (MainCanvas.admin s) /\
  adminDragHistory (MainCanvas.admin (MainCanvas.state pg))
  = adminDragHistory (MainCanvas.admin s) /\
  adminHistoryIndex (MainCanvas.admin (MainCanvas.state pg))
  = adminHistoryIndex (MainCanvas.admin s).
Proof.
  intros Hp pg.
  assert (E : layout (MainCanvas.state pg) = layout s).
  { unfold pg. cbn [MainCanvas.run fold_left].
    fold (MainCanvas.run sqrt atan2 cos sin canvas
            (MainCanvas.step sqrt atan2 cos sin canvas (MainCanvas.fresh s)
               (MainCanvas.MouseDown eX eY))
            (map (fun m => MainCanvas.MouseMove (fst m) (snd m)) moves
             ++ [MainCanvas.MouseUp])).
    rewrite run_app.
    destruct (press_previewUnseen sqrt atan2 cos sin canvas s eX eY Hp) as [H1 H2].
    destruct (moves_previewUnseen sqrt atan2 cos sin canvas moves _ H1) as [H3 H4].
    cbn [MainCanvas.run fold_left].
    rewrite (release_previewUnseen sqrt atan2 cos sin canvas _ H3), H4. exact H2. }
  unfold layout in E. injection E as E1 E2 E3. auto.
Qed.

(** Sector A pressed, moved to a free place at 100 degrees and released. *)
Lemma canvas_drag_release_discards_witness :
  sectors (MainCanvas.admin (MainCanvas.state
    (MainCanvas.run sqrtQ atan2Q cosQ sinQ pageCanvas (MainCanvas.fresh appDragMode)
       [MainCanvas.MouseDown 583 349; MainCanvas.MouseMove 375 444; MainCanvas.MouseUp])))
  = [sectorA30; sectorB4060].
Proof.
  destruct (canvas_drag_release_discards sqrtQ atan2Q cosQ sinQ pageCanvas appDragMode
              583 349 [(375, 444)]) as (H & _); [reflexivity | exact H].
Defined.

(** *** Clicks on a seat *)

Lemma click_appends (sqrt : Q -> Q) (atan2 : Q -> Q -> Q) (cos sin : Q -> Q)
    (canvas : Canvas) (c : MainCanvas.AppState) (eX eY : Q) (seat : Seat)
    (s : MainCanvas.AppState) :
  MainCanvas.adminDragMode c = false ->
  getSeatAtPosition sqrt (MainCanvas.viewState c) (sectors (MainCanvas.admin c))
    (px (MainCanvas.pointer canvas eX eY)) (py (MainCanvas.pointer canvas eX eY))
  = Some seat ->
  MainCanvas.selectable seat = true ->
  someSeat (seat_id seat) (selectedSeats (MainCanvas.selection c)) = false ->
  MainCanvas.isDragging s = false ->
  let pg' := MainCanvas.run sqrt atan2 cos sin canvas (MainCanvas.mkPage s c)
               [MainCanvas.MouseDown eX eY; MainCanvas.MouseUp] in
  MainCanvas.listeners pg' = c /\
  MainCanvas.isDragging (MainCanvas.state pg') = false /\
  MainCanvas.selection (MainCanvas.state pg')
  = mkSelection (selectedSeats (MainCanvas.selection s) ++ [seat])
                (cart (MainCanvas.selection s) ++ [mkItem seat 1]).
Proof.
  intros Hm Hseat Hsel Hnot Hd.
  cbn [MainCanvas.run fold_left].
  assert (E1 : MainCanvas.step sqrt atan2 cos sin canvas (MainCanvas.mkPage s c)
                 (MainCanvas.MouseDown eX eY)
               = MainCanvas.mkPage
                   (MainCanvas.applyAll s
                      [MainCanvas.setSelectedSeats (fun prev => prev ++ [seat]);
                       MainCanvas.setCart (fun prev => prev ++ [mkItem seat 1])]) c).
  { unfold MainCanvas.step. cbn [MainCanvas.listeners MainCanvas.state].
    unfold MainCanvas.handleMouseDown. rewrite Hm. cbn match. cbn zeta.
    rewrite Hseat, Hsel. unfold MainCanvas.handleSeatClick. rewrite Hnot.
    apply render_keep; reflexivity. }
  rewrite E1.
  unfold MainCanvas.step. cbn [MainCanvas.listeners MainCanvas.state].
  unfold MainCanvas.handleMouseUp. rewrite Hm. cbn [andb].
  rewrite render_keep; [|reflexivity|cbn; rewrite Hd; reflexivity|reflexivity].
  cbn. repeat split.
Qed.

(** X13. A free seat that is not in the selection the listeners were
    registered with is appended by every click on it: after [n] clicks in
    a row the selection and the cart hold it [n] times more. *)
Theorem repeated_click_duplicates (sqrt : Q -> Q) (atan2 : Q -> Q -> Q)
    (cos sin : Q -> Q) (canvas : Canvas) (s : MainCanvas.AppState) (eX eY : Q)
    (seat : Seat) (n : nat) :
  MainCanvas.adminDragMode s = false ->
  MainCanvas.isDragging s = false ->
  getSeatAtPosition sqrt (MainCanvas.viewState s) (sectors (MainCanvas.admin s))
    (px (MainCanvas.pointer canvas eX eY)) (py (MainCanvas.pointer canvas eX eY))
  = Some seat ->
  MainCanvas.selectable seat = true ->
  someSeat (seat_id seat) (selectedSeats (MainCanvas.selection s)) = false ->
  let pg := MainCanvas.run sqrt atan2 cos sin canvas (MainCanvas.fresh s)
              (concat (repeat [MainCanvas.MouseDown eX eY; MainCanvas.MouseUp] n)) in
  MainCanvas.selection (MainCanvas.state pg)
  = mkSelection (selectedSeats (MainCanvas.selection s) ++ repeat seat n)
                (cart (MainCanvas.selection s) ++ repeat (mkItem seat 1) n).
Proof.
  intros Hm Hd Hseat Hsel Hnot.
  cut (forall cur,
         MainCanvas.isDragging cur = false ->
         MainCanvas.selection
           (MainCanvas.state
              (MainCanvas.run sqrt atan2 cos sin canvas (MainCanvas.mkPage cur s)
                 (concat (repeat [MainCanvas.MouseDown eX eY; MainCanvas.MouseUp] n))))
         = mkSelection (selectedSeats (MainCanvas.selection cur) ++ repeat seat n)
                       (cart (MainCanvas.selection cur) ++ repeat (mkItem seat 1) n)).
  { intros H. apply (H s Hd). }
  induction n as [|n IH]; intros cur Hcur.
  - cbn. rewrite !app_nil_r. destruct (MainCanvas.selection cur). reflexivity.
  - cbn [repeat concat]. rewrite run_app.
    destruct (click_appends sqrt atan2 cos sin canvas s eX eY seat cur
                Hm Hseat Hsel Hnot Hcur) as (H1 & H2 & H3).
    set (pg1 := MainCanvas.run sqrt atan2 cos sin canvas (MainCanvas.mkPage cur s)
                  [MainCanvas.MouseDown eX eY; MainCanvas.MouseUp]) in *.
    replace pg1 with (MainCanvas.mkPage (MainCanvas.state pg1) s)
      by (destruct pg1; cbn in *; congruence).
    rewrite (IH _ H2), H3. cbn [selectedSeats cart].
    rewrite <- !app_assoc. reflexivity.
Qed.

(** Two clicks on the first seat of the north stand. *)
Lemma repeated_click_duplicates_witness :
  MainCanvas.selection (MainCanvas.state
    (MainCanvas.run sqrtQ atan2Q cosQ sinQ pageCanvas (MainCanvas.fresh appSeats)
       [MainCanvas.MouseDown 600 300; MainCanvas.MouseUp;
        MainCanvas.MouseDown 600 300; MainCanvas.MouseUp]))
  = mkSelection [northSeat; northSeat] [mkItem northSeat 1; mkItem northSeat 1].
Proof.
  apply (repeated_click_duplicates sqrtQ atan2Q cosQ sinQ pageCanvas appSeats 600 300
           northSeat 2); vm_compute; reflexivity.
Defined.

Lemma drag_moves_keep_listeners (sqrt : Q -> Q) (atan2 : Q -> Q -> Q) (cos sin : Q -> Q)
    (canvas : Canvas) (moves : list (Q * Q)) (s c : MainCanvas.AppState) :
  MainCanvas.adminDragMode c = true ->
  MainCanvas.truthyb (adminDraggedSector (MainCanvas.admin c)) = true ->
  let pg' := MainCanvas.run sqrt atan2 cos sin canvas (MainCanvas.mkPage s c)
               (map (fun m => MainCanvas.MouseMove (fst m) (snd m)) moves) in
  MainCanvas.listeners pg' = c /\
  sectors (MainCanvas.admin (MainCanvas.state pg')) = sectors (MainCanvas.admin s).
Proof.
  intros Hm Hd. revert s.
  induction moves as [|[mx my] moves IH]; intros s; [split; reflexivity|].
  cbn [map MainCanvas.run fold_left fst snd].
  assert (E : exists s1,
             MainCanvas.step sqrt atan2 cos sin canvas (MainCanvas.mkPage s c)
               (MainCanvas.MouseMove mx my) = MainCanvas.mkPage s1 c /\
             sectors (MainCanvas.admin s1) = sectors (MainCanvas.admin s)).
  { unfold MainCanvas.step. cbn [MainCanvas.listeners MainCanvas.state].
    unfold MainCanvas.handleMouseMove. rewrite Hm, Hd. cbn [andb].
    eexists. split.
    - apply render_keep;
        unfold MainCanvas.handleAdminDragMove; branches; reflexivity.
    - cbn [MainCanvas.state]. unfold MainCanvas.handleAdminDragMove.
      branches; reflexivity. }
  destruct E as (s1 & -> & E1).
  destruct (IH s1) as [H1 H2]. unfold MainCanvas.run in *.
  split; [exact H1|]. rewrite H2. exact E1.
Qed.

(** X14. The release of a sector drag places the sector where the state of
    the registered listeners says, whatever the pointer did since they
    were registered. *)
Theorem release_uses_registered_preview (sqrt : Q -> Q) (atan2 : Q -> Q -> Q)
    (cos sin : Q -> Q) (canvas : Canvas) (pg : MainCanvas.Page)
    (moves : list (Q * Q)) :
  listenersCurrent pg ->
  MainCanvas.adminDragMode (MainCanvas.listeners pg) = true ->
  MainCanvas.truthyb (adminDraggedSector (MainCanvas.admin (MainCanvas.listeners pg)))
  = true ->
  let pg' := MainCanvas.run sqrt atan2 cos sin canvas pg
               (map (fun m => MainCanvas.MouseMove (fst m) (snd m)) moves
                ++ [MainCanvas.MouseUp]) in
  sectors (MainCanvas.admin (MainCanvas.state pg'))
  = sectors (handleAdminDragEnd atan2
               (MainCanvas.viewState (MainCanvas.listeners pg))
               (MainCanvas.adminShowGrid (MainCanvas.listeners pg))
               (MainCanvas.admin (MainCanvas.listeners pg))).
Proof.
  intros Hsync Hm Hd. destruct pg as [s c].
  cbn [MainCanvas.listeners MainCanvas.state] in *.
  destruct Hsync as (_ & _ & _ & Hsec & _).
  cbn [MainCanvas.listeners MainCanvas.state] in Hsec.
  rewrite run_app.
  destruct (drag_moves_keep_listeners sqrt atan2 cos sin canvas moves s c Hm Hd)
    as [H1 H2].
  set (pg1 := MainCanvas.run sqrt atan2 cos sin canvas (MainCanvas.mkPage s c)
                (map (fun m => MainCanvas.MouseMove (fst m) (snd m)) moves)) in *.
  destruct pg1 as [s1 c1]. cbn [MainCanvas.listeners MainCanvas.state] in H1, H2.
  subst c1. cbn [MainCanvas.run fold_left].
  unfold MainCanvas.step, MainCanvas.render. cbn [MainCanvas.listeners MainCanvas.state].
  unfold MainCanvas.handleMouseUp. rewrite Hm, Hd. cbn [andb].
  unfold MainCanvas.handleAdminDragEnd, handleAdminDragEnd.
  unfold MainCanvas.truthyb in Hd.
  destruct (truthy (adminDraggedSector (MainCanvas.admin c))) as [dragged|];
    [|discriminate].
  destruct (adminDragPreview (MainCanvas.admin c)) as [preview|].
  - destruct (findSector (sectors (MainCanvas.admin c)) dragged) as [ds|].
    + destruct (checkAdminSectorCollision _ _ _); cbn; congruence.
    + cbn. congruence.
  - cbn. congruence.
Qed.

(** Listeners registered in the middle of the drag of [adminDragUp]: the
    pointer moves on, the release drops the sector straight above the centre. *)
Lemma release_uses_registered_preview_witness :
  sectors (MainCanvas.admin (MainCanvas.state
    (MainCanvas.run sqrtQ atan2Q cosQ sinQ pageCanvas (MainCanvas.fresh appMidDrag)
       [MainCanvas.MouseMove 700 300; MainCanvas.MouseUp])))
  = sectors (handleAdminDragEnd atan2Q view0 true adminDragUp).
Proof.
  apply (release_uses_registered_preview sqrtQ atan2Q cosQ sinQ pageCanvas
           (MainCanvas.fresh appMidDrag) [(700, 300)]).
  - repeat split.
  - reflexivity.
  - reflexivity.
Defined.

(** *** Cancelling *)

(** X16. The Escape key cancels the drag of a sector: whatever the pointer
    does afterwards, the release that follows changes neither the sectors
    nor the drag log. *)
Theorem escape_cancels_drag (sqrt : Q -> Q) (atan2 : Q -> Q -> Q) (cos sin : Q -> Q)
    (canvas : Canvas) (pg : MainCanvas.Page) (moves : list (Q * Q)) :
  MainCanvas.adminDragMode (MainCanvas.state pg) = true ->
  MainCanvas.truthyb (adminDraggedSector (MainCanvas.admin (MainCanvas.state pg))) = true ->
  let pg' := MainCanvas.run sqrt atan2 cos sin canvas pg
               (MainCanvas.KeyEscape
                :: map (fun m => MainCanvas.MouseMove (fst m) (snd m)) moves
                ++ [MainCanvas.MouseUp]) in
  sectors (MainCanvas.admin (MainCanvas.state pg'))
  = sectors (MainCanvas.admin (MainCanvas.state pg)) /\
  adminDragHistory (MainCanvas.admin (MainCanvas.state pg'))
  = adminDragHistory (MainCanvas.admin (MainCanvas.state pg)) /\
  adminHistoryIndex (MainCanvas.admin (MainCanvas.state pg'))
  = adminHistoryIndex (MainCanvas.admin (MainCanvas.state pg)).
Proof.
  intros Hm Hd pg'.
  assert (E : layout (MainCanvas.state pg') = layout (MainCanvas.state pg)).
  { unfold pg'. cbn [MainCanvas.run fold_left].
    fold (MainCanvas.run sqrt atan2 cos sin canvas
            (MainCanvas.step sqrt atan2 cos sin canvas pg MainCanvas.KeyEscape)
            (map (fun m => MainCanvas.MouseMove (fst m) (snd m)) moves
             ++ [MainCanvas.MouseUp])).
    rewrite run_app.
    assert (H1 : previewUnseen (MainCanvas.step sqrt atan2 cos sin canvas pg
                                  MainCanvas.KeyEscape) /\
                 layout (MainCanvas.state (MainCanvas.step sqrt atan2 cos sin canvas pg
                                             MainCanvas.KeyEscape))
                 = layout (MainCanvas.state pg)).
    { destruct pg as [s c]. cbn [MainCanvas.state] in Hm, Hd.
      unfold MainCanvas.step, MainCanvas.handleKeyDownEscape, MainCanvas.truthyb in *.
      cbn [MainCanvas.state]. rewrite Hm.
      destruct (truthy (adminDraggedSector (MainCanvas.admin s))) eqn:Ht; [|discriminate].
      assert (Hne : adminDraggedSector (MainCanvas.admin s) <> None).
      { intros E. rewrite E in Ht. discriminate. }
      unfold MainCanvas.render, MainCanvas.depsChanged, previewUnseen, layout.
      cbn. rewrite bool_decide_eq_false_2 by exact Hne.
      rewrite !orb_true_r. cbn. repeat split; reflexivity. }
    destruct H1 as [H1 H2].
    destruct (moves_previewUnseen sqrt atan2 cos sin canvas moves _ H1) as [H3 H4].
    cbn [MainCanvas.run fold_left].
    rewrite (release_previewUnseen sqrt atan2 cos sin canvas _ H3), H4. exact H2. }
  unfold layout in E. injection E as E1 E2 E3. auto.
Qed.

(** The drag of [adminDragUp] cancelled. *)
Lemma escape_cancels_drag_witness :
  sectors (MainCanvas.admin (MainCanvas.state
    (MainCanvas.run sqrtQ atan2Q cosQ sinQ pageCanvas (MainCanvas.fresh appMidDrag)
       [MainCanvas.KeyEscape; MainCanvas.MouseMove 700 300; MainCanvas.MouseUp])))
  = [sectorA; sectorD].
Proof.
  destruct (escape_cancels_drag sqrtQ atan2Q cosQ sinQ pageCanvas
              (MainCanvas.fresh appMidDrag) [(700, 300)]) as (H & _);
    [reflexivity | reflexivity | exact H].
Defined.




(** ** The sector editor *)

Lemma applyUpdate_id (s : Sector) (u : SectorUpdate) : id (applyUpdate s u) = id s.
Proof. destruct u; reflexivity. Qed.

(** X18. [updateSector] keeps the number, the order and the ids of the
    sectors, leaves every sector with another id as it is, and changes
    nothing when no sector has the id. *)
Theorem updateSector_frame (sectors : list Sector) (sectorId : string)
    (updates : SectorUpdate) :
  map id (updateSector sectors sectorId updates) = map id sectors /\
  (forall k s, sectors !! k = Some s -> id s <> sectorId ->
               updateSector sectors sectorId updates !! k = Some s) /\
  (forall k s, sectors !! k = Some s -> id s = sectorId ->
               updateSector sectors sectorId updates !! k = Some (applyUpdate s updates)) /\
  ((forall s, In s sectors -> id s <> sectorId) ->
   updateSector sectors sectorId updates = sectors).
Proof.
  unfold updateSector. repeat split.
  - induction sectors as [|s l IH]; [reflexivity|].
    cbn. rewrite IH. destruct (String.eqb (id s) sectorId);
      [rewrite applyUpdate_id|]; reflexivity.
  - intros k s Hk Hid. rewrite list_lookup_fmap, Hk. cbn.
    apply String.eqb_neq in Hid. rewrite Hid. reflexivity.
  - intros k s Hk Hid. rewrite list_lookup_fmap, Hk. cbn.
    apply String.eqb_eq in Hid. rewrite Hid. reflexivity.
  - induction sectors as [|s l IH]; intros H; [reflexivity|].
    cbn. rewrite IH by (intros s' Hs'; apply H; now right).
    specialize (H s (or_introl eq_refl)). apply String.eqb_neq in H. rewrite H.
    reflexivity.
Qed.

Lemma deleteSector_absent (sectors : list Sector) (sectorId : string) :
  (forall s, In s sectors -> id s <> sectorId) -> deleteSector sectors sectorId = sectors.
Proof.
  unfold deleteSector. induction sectors as [|s l IH]; intros H; [reflexivity|].
  cbn. specialize (IH (fun s' Hs' => H s' (or_intror Hs'))).
  specialize (H s (or_introl eq_refl)). apply String.eqb_neq in H. rewrite H. cbn.
  rewrite IH. reflexivity.
Qed.

Lemma deleteSector_geometry (l1 l2 : list Sector) (sectorId : string) :
  map geometry l1 = map geometry l2 ->
  map geometry (deleteSector l1 sectorId) = map geometry (deleteSector l2 sectorId).
Proof.
  revert l2. induction l1 as [|x l1 IH]; intros [|y l2] Hg; try discriminate; [reflexivity|].
  cbn [map] in Hg.
  assert (Hxy : geometry x = geometry y) by congruence.
  assert (Hg' : map geometry l1 = map geometry l2) by congruence.
  specialize (IH l2 Hg').
  assert (Hid : id x = id y).
  { change (id (geometry x) = id (geometry y)). now rewrite Hxy. }
  unfold deleteSector in *. cbn [List.filter]. rewrite Hid.
  destruct (negb (String.eqb (id y) sectorId)); cbn [map]; [|exact IH].
  rewrite Hxy. f_equal. exact IH.
Qed.

(** X19. A sector added and then deleted, each list going through
    [handleSectorsUpdate] as the panel hands it over: the collection has
    again the geometry of the one the sector was added to, when no sector
    of that one has the id of the new sector.  The seats are those of the
    last regeneration. *)
Theorem add_then_delete_restores_geometry (cos sin : Q -> Q) (random : nat -> Q)
    (viewState : ViewState) (sectors : list Sector) (now : Z) (draws draws' : nat) :
  (forall s, In s sectors -> id s <> id (newSector sectors now)) ->
  map geometry
    (fst (handleSectorsUpdate cos sin random viewState
            (deleteSector
               (fst (handleSectorsUpdate cos sin random viewState
                       (addNewSector sectors now) draws))
               (id (newSector sectors now)))
            draws'))
  = map geometry sectors.
Proof.
  intros H. rewrite handleSectorsUpdate_geometry.
  rewrite (deleteSector_geometry _ (addNewSector sectors now));
    [|apply handleSectorsUpdate_geometry].
  f_equal. unfold addNewSector, deleteSector.
  rewrite List.filter_app. cbn [List.filter].
  rewrite String.eqb_refl. cbn [negb]. rewrite app_nil_r.
  apply deleteSector_absent, H.
Qed.

(** A sector added to the two thin sectors and deleted again. *)
Lemma add_then_delete_restores_geometry_witness :
  map geometry
    (fst (handleSectorsUpdate cosQ sinQ randomRun viewC
            (deleteSector
               (fst (handleSectorsUpdate cosQ sinQ randomRun viewC
                       (addNewSector [thinA; thinB] 1700000000000) 0))
               (id (newSector [thinA; thinB] 1700000000000)))
            50))
  = map geometry [thinA; thinB].
Proof.
  apply (add_then_delete_restores_geometry cosQ sinQ randomRun viewC [thinA; thinB]
           1700000000000 0 50).
  intros s [<-|[<-|[]]]; vm_compute; discriminate.
Defined.

(** ** Seat generation *)

Lemma seatFor_spec (cos sin : Q -> Q) (random : nat -> Q) (viewState : ViewState)
    (sector : Sector) (row : Z) (radius : Q) (seatsInRow : Z) (count : nat) :
  forall (seat : Z) (draws : nat),
    (0 <= seat)%Z ->
    let r := seatFor cos sin random viewState sector row radius seatsInRow count seat draws in
    length (fst r) = count /\
    snd r = (draws + 2 * count)%nat /\
    Forall (fun s =>
              seat_sector s = name sector /\ seat_row s = (row + 1)%Z /\
              (1 <= seatNumber s)%Z /\
              (exists k, (seat <= k)%Z /\ seat_id s = seatId (id sector) row k) /\
              match seat_status s with
              | available => seat_price s = basePrice sector
              | premium => seat_price s = premiumPrice sector
              | occupied => seat_price s = basePrice sector \/
                            seat_price s = premiumPrice sector
              | selected => False
              end) (fst r).
Proof.
  induction count as [|count IH]; intros seat draws Hseat.
  - cbn. repeat split; [lia | constructor].
  - cbn [seatFor].
    specialize (IH (seat + 1)%Z (S (S draws)) ltac:(lia)).
    destruct (seatFor cos sin random viewState sector row radius seatsInRow count
                (seat + 1) (S (S draws))) as [rest draws'].
    cbn [fst snd] in *. destruct IH as (Hl & Hd & Hf).
    split; [cbn; lia|]. split; [lia|].
    constructor.
    + cbn [seat_sector seat_row seatNumber seat_id seat_status seat_price].
      split; [reflexivity|]. split; [reflexivity|]. split; [lia|].
      split; [exists seat; split; [lia | reflexivity]|].
      destruct (Qgtb (random (S draws)) (75 # 100)), (Qgtb (random draws) (85 # 100));
        auto.
    + eapply Forall_impl; [exact Hf|]. cbn beta.
      intros s (H1 & H2 & H3 & (k & Hk & H4) & H5).
      repeat split; try assumption. exists k. split; [lia | exact H4].
Qed.

Lemma rowFor_spec (cos sin : Q -> Q) (random : nat -> Q) (viewState : ViewState)
    (sector : Sector) (count : nat) :
  forall (row : Z) (draws : nat),
    (0 <= row)%Z ->
    let r := rowFor cos sin random viewState sector count row draws in
    snd r = (draws + 2 * length (fst r))%nat /\
    Forall (fun s =>
              seat_sector s = name sector /\
              (row + 1 <= seat_row s <= row + Z.of_nat count)%Z /\
              (1 <= seatNumber s)%Z /\
              (exists r k, (row <= r)%Z /\ (0 <= k)%Z /\
                           seat_id s = seatId (id sector) r k) /\
              match seat_status s with
              | available => seat_price s = basePrice sector
              | premium => seat_price s = premiumPrice sector
              | occupied => seat_price s = basePrice sector \/
                            seat_price s = premiumPrice sector
              | selected => False
              end) (fst r).
Proof.
  induction count as [|count IH]; intros row draws Hrow.
  - cbn. split; [lia | constructor].
  - cbn [rowFor].
    set (radius := innerRadius sector + inject_Z row * 12 + 6).
    set (n := Math_floor (radius * (endAngle sector - startAngle sector) / 8)).
    pose proof (seatFor_spec cos sin random viewState sector row radius n (Z.to_nat n)
                  0%Z draws ltac:(lia)) as Hs.
    destruct (seatFor cos sin random viewState sector row radius n (Z.to_nat n) 0 draws)
      as [here draws1].
    specialize (IH (row + 1)%Z draws1 ltac:(lia)).
    destruct (rowFor cos sin random viewState sector count (row + 1) draws1)
      as [rest draws2].
    cbn [fst snd] in *. destruct Hs as (Hl & Hd & Hf). destruct IH as (Hd2 & Hf2).
    split; [rewrite length_app; lia|].
    apply Forall_app. split.
    + eapply Forall_impl; [exact Hf|]. cbn beta.
      intros s (H1 & H2 & H3 & (k & Hk & H4) & H5).
      repeat split; try assumption; try lia.
      exists row, k. repeat split; [lia | lia | exact H4].
    + eapply Forall_impl; [exact Hf2|]. cbn beta.
      intros s (H1 & H2 & H3 & (r & k & Hr & Hk & H4) & H5).
      repeat split; try assumption; try lia.
      exists r, k. repeat split; [lia | lia | exact H4].
Qed.

(** X20. Every seat [generateSeats] makes carries the name of its sector, a
    row between 1 and the number of rows, a seat number from 1, one of
    the three statuses available, premium and occupied, and the price
    that goes with it (premium seats the premium price, available seats
    the base price); each seat costs two calls of [Math.random]. *)
Theorem generated_seats_well_formed (cos sin : Q -> Q) (random : nat -> Q)
    (viewState : ViewState) (sector : Sector) (draws : nat) :
  Forall (generatedSeat sector) (fst (generateSeats cos sin random viewState sector draws)) /\
  snd (generateSeats cos sin random viewState sector draws)
  = (draws + 2 * length (fst (generateSeats cos sin random viewState sector draws)))%nat.
Proof.
  unfold generateSeats.
  set (rows := Math_floor ((outerRadius sector - innerRadius sector) / 12)).
  destruct (rowFor_spec cos sin random viewState sector (Z.to_nat rows) 0%Z draws
              ltac:(lia)) as [Hd Hf].
  split; [|exact Hd].
  eapply Forall_impl; [exact Hf|]. cbn beta.
  intros s (H1 & H2 & H3 & _ & H5). unfold generatedSeat. fold rows.
  repeat split; try assumption; lia.
Qed.

(** X21. A sector thinner than one row (12 units), or one whose end angle
    is not beyond its start angle, gets no seats. *)
Theorem degenerate_sector_has_no_seats (cos sin : Q -> Q) (random : nat -> Q)
    (viewState : ViewState) (sector : Sector) (draws : nat) :
  outerRadius sector - innerRadius sector < 12 \/
  (0 <= innerRadius sector /\ endAngle sector <= startAngle sector) ->
  generateSeats cos sin random viewState sector draws = ([], draws).
Proof.
  intros [H | [Hi Ha]]; unfold generateSeats.
  - assert (E : (Math_floor ((outerRadius sector - innerRadius sector) / 12) <= 0)%Z).
    { unfold Math_floor.
      assert (Hlt : (outerRadius sector - innerRadius sector) / 12 < inject_Z 1).
      { apply Qlt_shift_div_r; [reflexivity|]. change (inject_Z 1) with 1. lra. }
      pose proof (Qfloor_le ((outerRadius sector - innerRadius sector) / 12)) as Hf.
      assert (Hz : inject_Z (Qfloor ((outerRadius sector - innerRadius sector) / 12))
                   < inject_Z 1) by lra.
      rewrite <- Zlt_Qlt in Hz. lia. }
    replace (Z.to_nat _) with 0%nat by lia. reflexivity.
  - generalize (Z.to_nat (Math_floor ((outerRadius sector - innerRadius sector) / 12))).
    intros count.
    cut (forall row d, (0 <= row)%Z ->
                       rowFor cos sin random viewState sector count row d = ([], d)).
    { intros Hc. apply Hc. lia. }
    induction count as [|count IH]; intros row d Hrow; [reflexivity|].
    cbn [rowFor].
    set (radius := innerRadius sector + inject_Z row * 12 + 6).
    assert (E : (Math_floor (radius * (endAngle sector - startAngle sector) / 8) <= 0)%Z).
    { unfold Math_floor.
      assert (Hr : 0 <= inject_Z row) by (rewrite <- (Zle_Qle 0); exact Hrow).
      assert (Hp : radius * (endAngle sector - startAngle sector) / 8 <= 0).
      { assert (Hm : 0 <= radius * (startAngle sector - endAngle sector))
          by (apply Qmult_le_0_compat; unfold radius; lra).
        unfold Qdiv. change (/ 8) with (1 # 8). lra. }
      pose proof (Qfloor_le (radius * (endAngle sector - startAngle sector) / 8)) as Hf.
      assert (Hz : inject_Z (Qfloor (radius * (endAngle sector - startAngle sector) / 8))
                   <= inject_Z 0) by (change (inject_Z 0) with 0; lra).
      rewrite <- Zle_Qle in Hz. exact Hz. }
    replace (Z.to_nat _) with 0%nat by lia. cbn [seatFor].
    rewrite IH by lia. reflexivity.
Qed.

(** A ring 10 units thick. *)
Lemma degenerate_sector_has_no_seats_witness :
  generateSeats cosQ sinQ randomRun viewC thinRing 0 = ([], 0%nat).
Proof.
  apply (degenerate_sector_has_no_seats cosQ sinQ randomRun viewC thinRing 0).
  left. reflexivity.
Defined.

(** ** Seat ids *)

Lemma noDash_go (x : N) (s : string) : noDash s = true -> noDash (pretty_N_go x s) = true.
Proof.
  revert s. induction (N.lt_wf_0 x) as [x _ IH]; intros s Hs.
  assert (x = 0 \/ 0 < x)%N as [->|Hx] by lia.
  - rewrite pretty_N_go_0. exact Hs.
  - rewrite pretty_N_go_step by exact Hx. apply IH.
    + apply N.div_lt; [exact Hx | reflexivity].
    + cbn [noDash]. rewrite Hs, andb_true_r.
      unfold pretty_N_char. repeat case_match; reflexivity.
Qed.

Lemma noDash_pretty (z : Z) : (0 <= z)%Z -> noDash (pretty z) = true.
Proof.
  destruct z as [|p|p]; intros Hz; [reflexivity| |lia].
  unfold pretty, pretty_Z, pretty, pretty_positive, pretty, pretty_N.
  destruct (decide (N.pos p = 0%N)); [reflexivity|].
  apply noDash_go. reflexivity.
Qed.

Lemma noDash_dash (x y : string) : noDash (x +:+ String dash y) = false.
Proof.
  induction x as [|c x IH].
  - reflexivity.
  - change (negb (Ascii.eqb c dash) && noDash (x +:+ String dash y) = false).
    rewrite IH. apply andb_false_r.
Qed.

Lemma dash_split (x1 x2 d1 d2 : string) :
  noDash d1 = true -> noDash d2 = true ->
  x1 +:+ String dash d1 = x2 +:+ String dash d2 -> x1 = x2 /\ d1 = d2.
Proof.
  intros H1 H2. revert x2.
  induction x1 as [|c x1 IH]; intros [|c' x2] E; cbn in E.
  - injection E as E. auto.
  - injection E as _ E. rewrite E, noDash_dash in H1. discriminate.
  - injection E as _ E. rewrite <- E, noDash_dash in H2. discriminate.
  - injection E as -> E. destruct (IH x2 E) as [-> ->]. auto.
Qed.

Lemma append_String_assoc (a b c : string) : (a +:+ b) +:+ c = a +:+ (b +:+ c).
Proof.
  induction a as [|x a IH]; [reflexivity|].
  change (String x ((a +:+ b) +:+ c) = String x (a +:+ (b +:+ c))).
  rewrite IH. reflexivity.
Qed.

Lemma seatId_inj (a b : string) (r1 k1 r2 k2 : Z) :
  (0 <= r1)%Z -> (0 <= k1)%Z -> (0 <= r2)%Z -> (0 <= k2)%Z ->
  seatId a r1 k1 = seatId b r2 k2 -> a = b /\ r1 = r2 /\ k1 = k2.
Proof.
  intros Hr1 Hk1 Hr2 Hk2 E. unfold seatId in E.
  change (a +:+ String dash (pretty r1 +:+ String dash (pretty k1))
          = b +:+ String dash (pretty r2 +:+ String dash (pretty k2))) in E.
  assert (Ha : forall x r k, x +:+ String dash (r +:+ String dash k)
                             = (x +:+ String dash r) +:+ String dash k)
    by (intros; rewrite append_String_assoc; reflexivity).
  rewrite !Ha in E.
  apply dash_split in E as [E Ek]; try (apply noDash_pretty; assumption).
  apply dash_split in E as [Ea Er]; try (apply noDash_pretty; assumption).
  split; [exact Ea|]. split; eapply pretty_Z_inj; eassumption.
Qed.

Lemma seatFor_NoDup (cos sin : Q -> Q) (random : nat -> Q) (viewState : ViewState)
    (sector : Sector) (row : Z) (radius : Q) (seatsInRow : Z) (count : nat) :
  (0 <= row)%Z ->
  forall (seat : Z) (draws : nat),
    (0 <= seat)%Z ->
    List.NoDup (map seat_id
                  (fst (seatFor cos sin random viewState sector row radius seatsInRow
                          count seat draws))).
Proof.
  intros Hrow. induction count as [|count IH]; intros seat draws Hseat.
  - constructor.
  - cbn [seatFor].
    specialize (IH (seat + 1)%Z (S (S draws)) ltac:(lia)).
    pose proof (seatFor_spec cos sin random viewState sector row radius seatsInRow count
                  (seat + 1)%Z (S (S draws)) ltac:(lia)) as (_ & _ & Hf).
    destruct (seatFor cos sin random viewState sector row radius seatsInRow count
                (seat + 1) (S (S draws))) as [rest draws'].
    cbn [fst snd map seat_id] in *. constructor; [|exact IH].
    intros Hin. apply in_map_iff in Hin as (s & Hs & Hin).
    rewrite List.Forall_forall in Hf.
    destruct (Hf s Hin) as (_ & _ & _ & (k & Hk & Hid) & _).
    rewrite Hid in Hs. apply seatId_inj in Hs; lia.
Qed.

Lemma rowFor_NoDup (cos sin : Q -> Q) (random : nat -> Q) (viewState : ViewState)
    (sector : Sector) (count : nat) :
  forall (row : Z) (draws : nat),
    (0 <= row)%Z ->
    List.NoDup (map seat_id (fst (rowFor cos sin random viewState sector count row draws))).
Proof.
  induction count as [|count IH]; intros row draws Hrow.
  - constructor.
  - cbn [rowFor].
    set (radius := innerRadius sector + inject_Z row * 12 + 6).
    set (n := Math_floor (radius * (endAngle sector - startAngle sector) / 8)).
    pose proof (seatFor_NoDup cos sin random viewState sector row radius n (Z.to_nat n)
                  Hrow 0%Z draws ltac:(lia)) as Hn.
    pose proof (seatFor_spec cos sin random viewState sector row radius n (Z.to_nat n)
                  0%Z draws ltac:(lia)) as (_ & _ & Hf).
    destruct (seatFor cos sin random viewState sector row radius n (Z.to_nat n) 0 draws)
      as [here draws1].
    specialize (IH (row + 1)%Z draws1 ltac:(lia)).
    pose proof (rowFor_spec cos sin random viewState sector count (row + 1)%Z draws1
                  ltac:(lia)) as (_ & Hf2).
    destruct (rowFor cos sin random viewState sector count (row + 1) draws1)
      as [rest draws2].
    cbn [fst snd] in *. rewrite map_app.
    apply List.NoDup_app; [exact Hn | exact IH |].
    intros x Hx1 Hx2.
    apply in_map_iff in Hx1 as (s1 & E1 & Hs1).
    apply in_map_iff in Hx2 as (s2 & E2 & Hs2).
    rewrite List.Forall_forall in Hf, Hf2.
    destruct (Hf s1 Hs1) as (_ & _ & _ & (k1 & Hk1 & Hid1) & _).
    destruct (Hf2 s2 Hs2) as (_ & _ & _ & (r2 & k2 & Hr2 & Hk2 & Hid2) & _).
    rewrite <- E2, Hid1, Hid2 in E1. apply seatId_inj in E1; lia.
Qed.

Lemma handleSectorsUpdate_seats (cos sin : Q -> Q) (random : nat -> Q)
    (viewState : ViewState) (l : list Sector) :
  forall draws seat,
    In seat (allSeats (fst (handleSectorsUpdate cos sin random viewState l draws))) ->
    exists sector r k,
      In sector l /\ (0 <= r)%Z /\ (0 <= k)%Z /\ seat_id seat = seatId (id sector) r k.
Proof.
  induction l as [|sector l IH]; intros draws seat Hin.
  - cbn in Hin. contradiction.
  - cbn [handleSectorsUpdate] in Hin. unfold generateSeats in Hin.
    pose proof (rowFor_spec cos sin random viewState sector
                  (Z.to_nat (Math_floor ((outerRadius sector - innerRadius sector) / 12)))
                  0%Z draws ltac:(lia)) as (_ & Hf).
    destruct (rowFor cos sin random viewState sector _ 0 draws) as [here draws1].
    specialize (IH draws1).
    destruct (handleSectorsUpdate cos sin random viewState l draws1) as [rest draws2].
    cbn [fst snd] in *. unfold allSeats in Hin. cbn [map concat seats withSeats] in Hin.
    apply in_app_or in Hin as [Hin | Hin].
    + rewrite List.Forall_forall in Hf.
      destruct (Hf seat Hin) as (_ & _ & _ & (r & k & Hr & Hk & Hid) & _).
      exists sector, r, k. repeat split; [now left | lia | lia | exact Hid].
    + destruct (IH seat Hin) as (s & r & k & Hs & Hr & Hk & Hid).
      exists s, r, k. repeat split; [now right | lia | lia | exact Hid].
Qed.

(** X22. The seats [handleSectorsUpdate] generates for sectors of pairwise
    distinct ids have pairwise distinct ids. *)
Theorem generated_seat_ids_distinct (cos sin : Q -> Q) (random : nat -> Q)
    (viewState : ViewState) (l : list Sector) (draws : nat) :
  distinctIds l ->
  List.NoDup (map seat_id
                (allSeats (fst (handleSectorsUpdate cos sin random viewState l draws)))).
Proof.
  unfold distinctIds. revert draws.
  induction l as [|sector l IH]; intros draws Hd.
  - constructor.
  - cbn [map] in Hd. apply List.NoDup_cons_iff in Hd as [Hnot Hd].
    cbn [handleSectorsUpdate]. unfold generateSeats.
    pose proof (rowFor_NoDup cos sin random viewState sector
                  (Z.to_nat (Math_floor ((outerRadius sector - innerRadius sector) / 12)))
                  0%Z draws ltac:(lia)) as Hn.
    pose proof (rowFor_spec cos sin random viewState sector
                  (Z.to_nat (Math_floor ((outerRadius sector - innerRadius sector) / 12)))
                  0%Z draws ltac:(lia)) as (_ & Hf).
    destruct (rowFor cos sin random viewState sector _ 0 draws) as [here draws1].
    specialize (IH draws1 Hd).
    pose proof (handleSectorsUpdate_seats cos sin random viewState l draws1) as Hrest.
    destruct (handleSectorsUpdate cos sin random viewState l draws1) as [rest draws2].
    cbn [fst snd] in *. unfold allSeats in *. cbn [map concat seats withSeats].
    rewrite map_app. apply List.NoDup_app; [exact Hn | exact IH |].
    intros x Hx1 Hx2.
    apply in_map_iff in Hx1 as (s1 & E1 & Hs1).
    apply in_map_iff in Hx2 as (s2 & E2 & Hs2).
    rewrite List.Forall_forall in Hf.
    destruct (Hf s1 Hs1) as (_ & _ & _ & (r1 & k1 & Hr1 & Hk1 & Hid1) & _).
    destruct (Hrest s2 Hs2) as (other & r2 & k2 & Ho & Hr2 & Hk2 & Hid2).
    rewrite <- E2, Hid1, Hid2 in E1. apply seatId_inj in E1 as (E & _); try lia.
    apply Hnot. rewrite E. apply in_map. exact Ho.
Qed.

(** The two thin sectors. *)
Lemma generated_seat_ids_distinct_witness :
  List.NoDup (map seat_id
                (allSeats (fst (handleSectorsUpdate cosQ sinQ randomRun viewC
                                  [thinA; thinB] 0)))).
Proof.
  apply (generated_seat_ids_distinct cosQ sinQ randomRun viewC [thinA; thinB] 0).
  unfold distinctIds. cbn.
  constructor; [intros [H|[]]; discriminate|].
  constructor; [intros []|constructor].
Defined.

(** ** A drag moves a sector and nothing else *)

Lemma withAngles_same (s : Sector) : withAngles s (startAngle s) (endAngle s) = s.
Proof. destruct s. reflexivity. Qed.

Lemma Forall2_same {A} (R : A -> A -> Prop) (l : list A) :
  (forall x, R x x) -> Forall2 R l l.
Proof. intros H. induction l; constructor; auto. Qed.

Lemma Forall2_moved (R : Sector -> Sector -> Prop) (f : Sector -> Sector)
    (l : list Sector) :
  (forall x, In x l -> R x (f x)) -> Forall2 R l (map f l).
Proof.
  induction l as [|x l IH]; intros H; cbn; constructor.
  - apply H. now left.
  - apply IH. intros y Hy. apply H. now right.
Qed.

(** X23. A drag changes the two angles of the dragged sector and nothing
    else.  A release on the main canvas leaves every sector as it is but
    for its two angles (the seats keep their coordinates) and changes only
    sectors that carry the dragged id; so does the list a commit of the
    drag panel hands to the application. *)
Theorem drag_changes_angles_only (atan2 : Q -> Q -> Q) (viewState : ViewState)
    (adminShowGrid : bool) (st : AdminState) (live : list Sector) (dragged : Sector)
    (preview : DragDropAdmin.Position) :
  Forall2 (fun s s' =>
             s' = withAngles s (startAngle s') (endAngle s') /\
             (truthy (adminDraggedSector st) <> Some (id s) -> s' = s))
          (sectors st) (sectors (handleAdminDragEnd atan2 viewState adminShowGrid st)) /\
  Forall2 (fun s s' =>
             s' = withAngles s (startAngle s') (endAngle s') /\
             (id s <> id dragged -> s' = s))
          live (DragDropAdmin.movedSectors live dragged preview).
Proof.
  split.
  - assert (Hsame : Forall2 (fun s s' =>
                       s' = withAngles s (startAngle s') (endAngle s') /\
                       (truthy (adminDraggedSector st) <> Some (id s) -> s' = s))
                      (sectors st) (sectors st)).
    { apply Forall2_same. intros s. rewrite withAngles_same.
      repeat split; reflexivity. }
    unfold handleAdminDragEnd.
    destruct (truthy (adminDraggedSector st)) as [d|]; [|exact Hsame].
    destruct (adminDragPreview st) as [pv|]; [|exact Hsame].
    destruct (findSector (sectors st) d) as [ds|] eqn:Hf; [|exact Hsame].
    destruct (checkAdminSectorCollision _ _ _); [exact Hsame|].
    cbn [negb endAdminDrag sectors saveToAdminHistory].
    apply Forall2_moved. intros s Hs.
    destruct (String.eqb (id s) d) eqn:E.
    + apply String.eqb_eq in E.
      split; [destruct s; reflexivity|].
      intros Hne. exfalso. apply Hne. rewrite E. reflexivity.
    + rewrite withAngles_same. repeat split; reflexivity.
  - unfold DragDropAdmin.movedSectors. apply Forall2_moved. intros s Hs.
    destruct (String.eqb (id s) (id dragged)) eqn:E.
    + apply String.eqb_eq in E.
      split; [destruct s; reflexivity|].
      intros Hne. contradiction.
    + rewrite withAngles_same. repeat split; reflexivity.
Qed.

(** ** The collision test and the hit test on plain ranges *)

(** X26. For two sectors whose ranges are both stored with
    [0 <= start <= end], the collision test and the hit test agree: when
    the test finds no collision between them, no pointer position passes
    the hit test of both.  A range stored with a negative start is outside
    this statement. *)
Theorem collision_free_sectors_share_no_point (a b : Sector) (angle distance : Q) :
  0 <= startAngle a -> startAngle a <= endAngle a ->
  0 <= startAngle b -> startAngle b <= endAngle b ->
  sectorsCollide a b = false ->
  coversPoint a angle distance && coversPoint b angle distance = false.
Proof.
  intros Ha0 Ha Hb0 Hb Hc.
  destruct (coversPoint a angle distance) eqn:Ca; [|reflexivity].
  destruct (coversPoint b angle distance) eqn:Cb; [|reflexivity].
  exfalso. unfold coversPoint in Ca, Cb.
  apply andb_prop in Ca as [Ca Aa]. apply andb_prop in Ca as [Ca1 Ca2].
  apply andb_prop in Cb as [Cb Ab]. apply andb_prop in Cb as [Cb1 Cb2].
  apply Qgeb_ge in Ca1, Cb1. apply Qleb_le in Ca2, Cb2.
  assert (Hin : forall s, 0 <= startAngle s -> startAngle s <= endAngle s ->
                  angleInRange angle (startAngle s) (endAngle s) = true ->
                  startAngle s <= wrapOnce angle /\ wrapOnce angle <= endAngle s).
  { intros s Hs0 Hs. unfold angleInRange.
    assert (E1 : wrapOnce (startAngle s) = startAngle s).
    { unfold wrapOnce. destruct (Qltb (startAngle s) 0) eqn:E; [|reflexivity].
      apply Qltb_lt in E. lra. }
    assert (E2 : wrapOnce (endAngle s) = endAngle s).
    { unfold wrapOnce. destruct (Qltb (endAngle s) 0) eqn:E; [|reflexivity].
      apply Qltb_lt in E. lra. }
    rewrite E1, E2.
    assert (E3 : Qgtb (startAngle s) (endAngle s) = false).
    { unfold Qgtb. apply Qltb_ge. exact Hs. }
    rewrite E3. intros H. apply andb_prop in H as [H1 H2].
    apply Qgeb_ge in H1. apply Qleb_le in H2. split; assumption. }
  destruct (Hin a Ha0 Ha Aa) as [Ta1 Ta2].
  destruct (Hin b Hb0 Hb Ab) as [Tb1 Tb2].
  unfold sectorsCollide in Hc. apply andb_false_iff in Hc as [Hc | Hc].
  - unfold radiusOverlap in Hc. apply negb_false_iff, orb_prop in Hc as [Hc | Hc].
    + apply Qltb_lt in Hc. lra.
    + apply Qgtb_gt in Hc. lra.
  - unfold angleOverlap in Hc.
    rewrite !wrapWhile_id in Hc by lra.
    apply negb_false_iff, orb_prop in Hc as [Hc | Hc].
    + apply Qltb_lt in Hc. lra.
    + apply Qgtb_gt in Hc. lra.
Qed.

(** The two sectors of the drag scenario, 10 degrees apart. *)
Lemma collision_free_sectors_share_no_point_witness :
  coversPoint sectorA30 (deg 20) 200 && coversPoint sectorB4060 (deg 20) 200 = false.
Proof.
  apply (collision_free_sectors_share_no_point sectorA30 sectorB4060 (deg 20) 200);
    vm_compute; first [reflexivity | discriminate].
Defined.

(** ** The drag panel never reads a missing history entry *)

Lemma panelStep_cursorValid (sqrt : Q -> Q) (atan2 : Q -> Q -> Q) (cos sin : Q -> Q)
    (random : nat -> Q) (viewState : ViewState) (snapSettings : SnapSettings)
    (canvas : option Canvas) (p : DragDropAdmin.Panel) (e : PanelEvent) :
  cursorValid p ->
  exists p', panelStep sqrt atan2 cos sin random viewState snapSettings canvas p e = Some p' /\
             cursorValid p'.
Proof.
  intros Hc. destruct e as [now|eX eY|eX eY|now| |]; cbn [panelStep].
  - eexists. split; [reflexivity|]. unfold DragDropAdmin.initHistory.
    destruct (_ && _); [|exact Hc]. unfold cursorValid. cbn. lia.
  - eexists. split; [reflexivity|]. unfold DragDropAdmin.handleMouseDown.
    destruct (DragDropAdmin.getSectorAtPosition _ _ _ _ _ _ _); exact Hc.
  - eexists. split; [reflexivity|]. unfold DragDropAdmin.handleMouseMove.
    destruct (DragDropAdmin.isDragging _); [|exact Hc].
    destruct (DragDropAdmin.draggedSector _); exact Hc.
  - eexists. split; [reflexivity|]. unfold DragDropAdmin.handleMouseUp.
    destruct (DragDropAdmin.isDragging _); [|exact Hc].
    destruct (DragDropAdmin.draggedSector _) as [dragged|]; [|exact Hc].
    destruct (DragDropAdmin.previewPosition _) as [preview|]; [|exact Hc].
    destruct (DragDropAdmin.isValidPosition _); [|exact Hc].
    set (u := DragDropAdmin.movedSectors (DragDropAdmin.live p) dragged preview).
    destruct (onSectorsUpdate_geometry cos sin random viewState p u) as (_ & Hh & Hi).
    assert (Hq : cursorValid (DragDropAdmin.onSectorsUpdate cos sin random viewState p u))
      by (unfold cursorValid; rewrite Hh, Hi; exact Hc).
    destruct (saveToHistory_cursor now _ u Hq) as [_ Hv]. exact Hv.
  - unfold DragDropAdmin.handleUndo. destruct Hc as [Hi Hl].
    destruct (0 <? DragDropAdmin.historyIndex p)%Z eqn:E.
    + apply Z.ltb_lt in E.
      destruct (at_is_Some (DragDropAdmin.history p) (DragDropAdmin.historyIndex p - 1))
        as [h Hh]; [lia|].
      rewrite Hh. eexists. split; [reflexivity|].
      destruct (onSectorsUpdate_geometry cos sin random viewState p
                  (DragDropAdmin.hs_sectors h)) as (_ & Hh' & _).
      unfold cursorValid. cbn [DragDropAdmin.history DragDropAdmin.historyIndex].
      rewrite Hh'. lia.
    + eexists. split; [reflexivity|]. split; assumption.
  - unfold DragDropAdmin.handleRedo. destruct Hc as [Hi Hl].
    destruct (_ <? _)%Z eqn:E.
    + apply Z.ltb_lt in E.
      destruct (at_is_Some (DragDropAdmin.history p) (DragDropAdmin.historyIndex p + 1))
        as [h Hh]; [lia|].
      rewrite Hh. eexists. split; [reflexivity|].
      destruct (onSectorsUpdate_geometry cos sin random viewState p
                  (DragDropAdmin.hs_sectors h)) as (_ & Hh' & _).
      unfold cursorValid. cbn [DragDropAdmin.history DragDropAdmin.historyIndex].
      rewrite Hh'. lia.
    + eexists. split; [reflexivity|]. split; assumption.
Qed.

(** X27. From a panel whose cursor is on an entry or just before the first
    one (at most 50 entries), no sequence of presses, moves, releases,
    undos and redos reads a history entry that does not exist: every
    event returns, and the cursor stays on the stack. *)
Theorem panel_events_never_raise (sqrt : Q -> Q) (atan2 : Q -> Q -> Q) (cos sin : Q -> Q)
    (random : nat -> Q) (viewState : ViewState) (snapSettings : SnapSettings)
    (canvas : option Canvas) (p : DragDropAdmin.Panel) (events : list PanelEvent) :
  cursorValid p ->
  exists p', panelRun sqrt atan2 cos sin random viewState snapSettings canvas p events
             = Some p' /\
             cursorValid p'.
Proof.
  revert p. induction events as [|e events IH]; intros p Hc.
  - exists p. split; [reflexivity | exact Hc].
  - cbn [panelRun].
    destruct (panelStep_cursorValid sqrt atan2 cos sin random viewState snapSettings
                canvas p e Hc) as (p1 & -> & H1).
    apply IH, H1.
Qed.

(** A committed drag, two undos and two redos on the opened panel. *)
Lemma panel_events_never_raise_witness :
  exists p',
    panelRun sqrtQ atan2Q cosQ sinQ randomRun viewC snap10 canvasC thinRest
      [PanelMouseDown 541 338; PanelMouseMove 375 444; PanelMouseUp 2000;
       PanelUndo; PanelUndo; PanelRedo; PanelRedo] = Some p' /\
    cursorValid p'.
Proof.
  apply (panel_events_never_raise sqrtQ atan2Q cosQ sinQ randomRun viewC snap10 canvasC
           thinRest).
  unfold cursorValid. vm_compute. repeat split; first [discriminate | reflexivity | lia].
Defined.

(** X28. A committed drag ends the redo branch: right after it the redo
    button changes nothing, whatever had been undone before. *)
Theorem commit_clears_redo (cos sin : Q -> Q) (random : nat -> Q)
    (viewState : ViewState) (now : Z) (p : DragDropAdmin.Panel)
    (dragged : Sector) (preview : DragDropAdmin.Position) :
  cursorValid p ->
  commits p dragged preview ->
  let p' := DragDropAdmin.handleMouseUp cos sin random viewState now p in
  DragDropAdmin.historyIndex p' = (Z.of_nat (length (DragDropAdmin.history p')) - 1)%Z /\
  DragDropAdmin.handleRedo cos sin random viewState p' = Some p'.
Proof.
  intros Hc (Hd & Hs & Hp & Hv) p'.
  assert (E : DragDropAdmin.historyIndex p'
              = (Z.of_nat (length (DragDropAdmin.history p')) - 1)%Z).
  { unfold p', DragDropAdmin.handleMouseUp. rewrite Hd, Hs, Hp, Hv.
    set (u := DragDropAdmin.movedSectors (DragDropAdmin.live p) dragged preview).
    destruct (onSectorsUpdate_geometry cos sin random viewState p u) as (_ & Hh & Hi).
    set (q := DragDropAdmin.onSectorsUpdate cos sin random viewState p u) in *.
    unfold DragDropAdmin.withDragState.
    cbn [DragDropAdmin.history DragDropAdmin.historyIndex].
    destruct Hc as [Hc1 Hc2].
    destruct (slice0_take (DragDropAdmin.history p) (DragDropAdmin.historyIndex p) Hc1)
      as [_ Hlen].
    unfold DragDropAdmin.saveToHistory. rewrite Hh, Hi.
    destruct (50 <? _)%nat eqn:E;
      cbn [DragDropAdmin.history DragDropAdmin.historyIndex].
    - apply Nat.ltb_lt in E. rewrite length_app in E. cbn in E.
      rewrite length_drop, length_app. cbn. lia.
    - rewrite length_app. cbn. lia. }
  split; [exact E|].
  unfold DragDropAdmin.handleRedo. rewrite E.
  rewrite Z.ltb_irrefl. reflexivity.
Qed.

(** The first commit of the run. *)
Lemma commit_clears_redo_witness :
  DragDropAdmin.handleRedo cosQ sinQ randomRun viewC
    (DragDropAdmin.handleMouseUp cosQ sinQ randomRun viewC 2000 thinMoved)
  = Some (DragDropAdmin.handleMouseUp cosQ sinQ randomRun viewC 2000 thinMoved).
Proof.
  apply (commit_clears_redo cosQ sinQ randomRun viewC 2000 thinMoved thinA
           (default (DragDropAdmin.mkPosition 0 0)
              (DragDropAdmin.previewPosition (DragDropAdmin.dragState thinMoved)))).
  - unfold cursorValid. vm_compute. repeat split; first [discriminate | reflexivity | lia].
  - repeat split; vm_compute; reflexivity.
Defined.

(** X29. A click on the canvas of the drag panel, a press and a release
    with no move between them, changes neither the sectors nor the
    history, and leaves no drag behind. *)
Theorem panel_click_changes_nothing (sqrt : Q -> Q) (atan2 : Q -> Q -> Q)
    (cos sin : Q -> Q) (random : nat -> Q) (viewState : ViewState)
    (canvas : option Canvas) (now : Z) (p : DragDropAdmin.Panel) (eX eY : Q) :
  DragDropAdmin.isDragging (DragDropAdmin.dragState p) = false ->
  let p' := DragDropAdmin.handleMouseUp cos sin random viewState now
              (DragDropAdmin.handleMouseDown sqrt atan2 cos sin viewState canvas p eX eY) in
  DragDropAdmin.live p' = DragDropAdmin.live p /\
  DragDropAdmin.draws p' = DragDropAdmin.draws p /\
  DragDropAdmin.history p' = DragDropAdmin.history p /\
  DragDropAdmin.historyIndex p' = DragDropAdmin.historyIndex p /\
  DragDropAdmin.dragState p' = DragDropAdmin.idleDrag.
Proof.
  intros Hd. unfold DragDropAdmin.handleMouseDown, DragDropAdmin.handleMouseUp.
  destruct (DragDropAdmin.getSectorAtPosition _ _ _ _ _ _ _).
  - cbn. repeat split.
  - rewrite Hd. cbn. repeat split.
Qed.

(** A click on sector A of the opened panel. *)
Lemma panel_click_changes_nothing_witness :
  DragDropAdmin.history
    (DragDropAdmin.handleMouseUp cosQ sinQ randomRun viewC 2000
       (DragDropAdmin.handleMouseDown sqrtQ atan2Q cosQ sinQ viewC canvasC thinRest 541 338))
  = DragDropAdmin.history thinRest.
Proof.
  apply (panel_click_changes_nothing sqrtQ atan2Q cosQ sinQ randomRun viewC canvasC 2000
           thinRest 541 338).
  reflexivity.
Defined.
